(** * Journal Entry Derivation Engine: a shallow embedding

    The engine of the expense-management server: [extractAmountFromOCR],
    [extractDateFromOCR], [createFallbackJournalEntry] and
    [generateJournalEntry], together with the JavaScript built-ins they
    call; around it the access check, the upload filter, the OCR
    request and the upload route of the server, and the file validation
    and the amount display of the browser.

    Modelling conventions.
    - A JavaScript number is [NaN] or an exact rational ([Fin q]); the
      binary64 rounding of arithmetic is not modelled.  Numbers inside a
      JSON document are finite decimals ([dec]).
    - A JavaScript string is a [string] of bytes; case mapping and the
      character classes of regular expressions are the ASCII ones.
    - A thrown exception is the [Throws] outcome of a computation.
    - [console.log] calls are dropped.
    - What the server asks of the outside (the OCR service, the model,
      the clock, [path.extname]) is a variable of the section that uses
      it; the files on disk are a list of paths. *)

From Stdlib Require Import ZArith QArith Qround Qabs Lia Lqa.
From Stdlib Require Import List Ascii String Bool.
From Stdlib Require Import Numbers.DecimalString.
From Stdlib Require Numbers.DecimalN.
Import ListNotations.

Local Close Scope Q_scope.
Local Open Scope string_scope.

(* ------------------------------------------------------------------ *)
(** ** Strings *)

Module Str.

Definition code (c : ascii) : nat := nat_of_ascii c.

Definition between (lo hi : nat) (c : ascii) : bool :=
  (lo <=? code c)%nat && (code c <=? hi)%nat.

Definition is_digit : ascii -> bool := between 48 57.
Definition is_upper : ascii -> bool := between 65 90.
Definition is_lower : ascii -> bool := between 97 122.
Definition is_alpha (c : ascii) : bool := is_upper c || is_lower c.

(** The ASCII part of the [\s] class: TAB, LF, VT, FF, CR and space. *)
Definition is_space (c : ascii) : bool := between 9 13 c || (code c =? 32)%nat.

Definition is_char (d c : ascii) : bool := Ascii.eqb d c.

(** The double quote and the backslash. *)
Definition dquote : ascii := ascii_of_nat 34.
Definition backslash : ascii := ascii_of_nat 92.

(** Texts with double quotes are written with apostrophes in the
    examples below and converted by [dq]. *)
Fixpoint dq (s : string) : string :=
  match s with
  | EmptyString => EmptyString
  | String c s' => String (if (nat_of_ascii c =? 39)%nat then dquote else c) (dq s')
  end.

Definition lower_char (c : ascii) : ascii :=
  if is_upper c then ascii_of_nat (code c + 32) else c.

Fixpoint toLowerCase (s : string) : string :=
  match s with
  | EmptyString => EmptyString
  | String c s' => String (lower_char c) (toLowerCase s')
  end.

Fixpoint drop (n : nat) (s : string) : string :=
  match n, s with
  | O, _ => s
  | S _, EmptyString => EmptyString
  | S n', String _ s' => drop n' s'
  end.

Fixpoint take (n : nat) (s : string) : string :=
  match n, s with
  | O, _ => EmptyString
  | S _, EmptyString => EmptyString
  | S n', String c s' => String c (take n' s')
  end.

(** [s.includes(needle)] *)
Fixpoint includes (s needle : string) : bool :=
  String.prefix needle s ||
  match s with
  | EmptyString => false
  | String _ s' => includes s' needle
  end.

Fixpoint rev_onto (s acc : string) : string :=
  match s with
  | EmptyString => acc
  | String c s' => rev_onto s' (String c acc)
  end.

Definition rev (s : string) : string := rev_onto s EmptyString.

Fixpoint trimStart (s : string) : string :=
  match s with
  | EmptyString => EmptyString
  | String c s' => if is_space c then trimStart s' else s
  end.

(** [s.trim()] *)
Definition trim (s : string) : string := rev (trimStart (rev (trimStart s))).

Fixpoint repeat (c : ascii) (n : nat) : string :=
  match n with
  | O => EmptyString
  | S n' => String c (repeat c n')
  end.

Fixpoint join (sep : string) (l : list string) : string :=
  match l with
  | [] => EmptyString
  | [x] => x
  | x :: l' => x ++ sep ++ join sep l'
  end.

Fixpoint forallb (p : ascii -> bool) (s : string) : bool :=
  match s with
  | EmptyString => true
  | String c s' => p c && forallb p s'
  end.

End Str.

(* ------------------------------------------------------------------ *)
(** ** Numbers *)

(** A JavaScript number. *)
Inductive num : Type :=
| NaN
| Fin (q : Q).

Module Num.

Definition sub (a b : num) : num :=
  match a, b with
  | Fin x, Fin y => Fin (x - y)%Q
  | _, _ => NaN
  end.

Definition add (a b : num) : num :=
  match a, b with
  | Fin x, Fin y => Fin (x + y)%Q
  | _, _ => NaN
  end.

Definition mul (a b : num) : num :=
  match a, b with
  | Fin x, Fin y => Fin (x * y)%Q
  | _, _ => NaN
  end.

(** Division by a non-zero constant. *)
Definition div (a b : num) : num :=
  match a, b with
  | Fin x, Fin y => Fin (x / y)%Q
  | _, _ => NaN
  end.

(** [a > b]; false as soon as an operand is NaN. *)
Definition gtb (a b : num) : bool :=
  match a, b with
  | Fin x, Fin y => negb (Qle_bool x y)
  | _, _ => false
  end.

Definition isNaN (a : num) : bool :=
  match a with NaN => true | Fin _ => false end.

(** [Math.max(a, b)]: NaN is contagious. *)
Definition max2 (a b : num) : num :=
  match a, b with
  | Fin x, Fin y => if Qle_bool x y then Fin y else Fin x
  | _, _ => NaN
  end.

(** [Math.max(...l)] on a non-empty argument list. *)
Fixpoint max_from (a : num) (l : list num) : num :=
  match l with
  | [] => a
  | b :: l' => max_from (max2 a b) l'
  end.

(** The integer nearest to [q], ties away from zero: the digit string
    that [toFixed] prints, as a number. *)
Definition round_half_away (q : Q) : Z :=
  if Qle_bool 0%Q q then Qfloor (q + (1 # 2))%Q
  else (- Qfloor (- q + (1 # 2))%Q)%Z.

(** The number of hundredths printed by [x.toFixed(2)]. *)
Definition cents (q : Q) : Z := round_half_away (q * 100)%Q.

(** [parseFloat(x.toFixed(2))]: [x] rounded to two decimals.  [NaN]
    prints as "NaN", which parses back to [NaN].  From 1e21 on [toFixed]
    prints the number itself; a binary64 number of that size is an
    integer, and an integer is left unchanged here too. *)
Definition toFixed2 (a : num) : num :=
  match a with
  | NaN => NaN
  | Fin q => Fin (cents q # 100)%Q
  end.

(** Equality of numbers as [===] decides it (NaN differs from itself). *)
Definition eqb (a b : num) : bool :=
  match a, b with
  | Fin x, Fin y => Qeq_bool x y
  | _, _ => false
  end.

(** [|a - b| <= tol] *)
Definition within (tol : Q) (a b : num) : bool :=
  match a, b with
  | Fin x, Fin y => Qle_bool (Qabs (x - y)%Q) tol
  | _, _ => false
  end.

End Num.

(** A finite decimal [dmant / 10^dscale], the numbers of a JSON text. *)
Record dec : Type := { dmant : Z; dscale : nat }.

Module Dec.

Definition pow10 (n : nat) : positive := Pos.pow 10 (Pos.of_nat n).

Definition value (d : dec) : Q :=
  match dscale d with
  | O => inject_Z (dmant d)
  | S _ => (dmant d # pow10 (dscale d))%Q
  end.

Definition to_num (d : dec) : num := Fin (value d).

Definition is_zero (d : dec) : bool := (dmant d =? 0)%Z.

Definition digits_of (z : Z) : string :=
  NilZero.string_of_uint (N.to_uint (Z.abs_N z)).

Fixpoint strip_zeros_rev (s : string) : string :=
  match s with
  | String "0" s' => strip_zeros_rev s'
  | _ => s
  end.

(** Digits without trailing zeros. *)
Definition significant (digits : string) : string :=
  Str.rev (strip_zeros_rev (Str.rev digits)).

Definition exponent_part (e : Z) : string :=
  "e" ++ (if (0 <=? e)%Z then "+" else "-") ++ digits_of e.

(** [Number::toString] of ECMAScript, on the decimal digits [s] (no
    trailing zero, [k] of them) and the position [n] of the decimal
    point: the value is [0.s * 10^n]. *)
Definition toString (d : dec) : string :=
  if is_zero d then "0" else
  let digits := digits_of (dmant d) in
  let n := (Z.of_nat (String.length digits) - Z.of_nat (dscale d))%Z in
  let s := significant digits in
  let k := Z.of_nat (String.length s) in
  let sign := if (dmant d <? 0)%Z then "-" else "" in
  sign ++
  (if (k <=? n)%Z && (n <=? 21)%Z then
     s ++ Str.repeat "0" (Z.to_nat (n - k))
   else if (0 <? n)%Z && (n <=? 21)%Z then
     Str.take (Z.to_nat n) s ++ "." ++ Str.drop (Z.to_nat n) s
   else if (-6 <? n)%Z && (n <=? 0)%Z then
     "0." ++ Str.repeat "0" (Z.to_nat (- n)) ++ s
   else if (k =? 1)%Z then
     s ++ exponent_part (n - 1)
   else
     Str.take 1 s ++ "." ++ Str.drop 1 s ++ exponent_part (n - 1)).

End Dec.

(* ------------------------------------------------------------------ *)
(** ** JSON values: the shape of an OCR result and of a model reply *)

#[local] Set Warnings "-register-all".

Inductive json : Type :=
| JNull
| JBool (b : bool)
| JNum (d : dec)
| JStr (s : string)
| JArr (l : list json)
| JObj (fields : list (string * json)).

Module JS.

(** [o.key]: [None] is [undefined].  Reading a property of [null]
    throws and is handled where it happens. *)
Fixpoint lookup (key : string) (fields : list (string * json)) : option json :=
  match fields with
  | [] => None
  | (k, v) :: rest => if String.eqb k key then Some v else lookup key rest
  end.

Definition get (o : json) (key : string) : option json :=
  match o with
  | JObj fields => lookup key fields
  | _ => None
  end.

(** ToBoolean *)
Definition truthy (v : option json) : bool :=
  match v with
  | None => false
  | Some JNull => false
  | Some (JBool b) => b
  | Some (JNum d) => negb (Dec.is_zero d)
  | Some (JStr s) => negb (String.eqb s "")
  | Some (JArr _) => true
  | Some (JObj _) => true
  end.

(** [a || b] *)
Definition or (a b : option json) : option json :=
  if truthy a then a else b.

Definition hex_digit (n : nat) : ascii :=
  if (n <? 10)%nat then ascii_of_nat (48 + n) else ascii_of_nat (87 + n).

(** One character of a quoted JSON string. *)
Definition escape_char (c : ascii) : string :=
  let n := Str.code c in
  if (n =? 34)%nat then String Str.backslash (String Str.dquote "")
  else if (n =? 92)%nat then String Str.backslash (String Str.backslash "")
  else if (n =? 8)%nat then "\b"
  else if (n =? 12)%nat then "\f"
  else if (n =? 10)%nat then "\n"
  else if (n =? 13)%nat then "\r"
  else if (n =? 9)%nat then "\t"
  else if (n <? 32)%nat then
    "\u00" ++ String (hex_digit (n / 16)) (String (hex_digit (n mod 16)) "")
  else String c "".

Fixpoint escape (s : string) : string :=
  match s with
  | EmptyString => EmptyString
  | String c s' => escape_char c ++ escape s'
  end.

Definition quote (s : string) : string :=
  String Str.dquote (escape s ++ String Str.dquote "").

(** [JSON.stringify(v)], the compact form. *)
Fixpoint stringify (v : json) : string :=
  match v with
  | JNull => "null"
  | JBool true => "true"
  | JBool false => "false"
  | JNum d => Dec.toString d
  | JStr s => quote s
  | JArr l => "[" ++ Str.join "," (map stringify l) ++ "]"
  | JObj fields =>
      "{" ++ Str.join ","
               (map (fun kv => let '(k, v') := kv in
                               quote k ++ ":" ++ stringify v') fields)
          ++ "}"
  end.

End JS.

(* ------------------------------------------------------------------ *)
(** ** Regular expressions

    Every pattern of the engine is a sequence of character classes, each
    with a greedy quantifier [{lo,hi}]; matching backtracks from the
    longest run, as the JavaScript matcher does. *)

Module Regex.

Record atom : Type := { cls : ascii -> bool; lo : nat; hi : option nat }.

Definition regex : Type := list atom.

Definition one (p : ascii -> bool) : atom := {| cls := p; lo := 1; hi := Some 1 |}.
Definition opt (p : ascii -> bool) : atom := {| cls := p; lo := 0; hi := Some 1 |}.
Definition plus (p : ascii -> bool) : atom := {| cls := p; lo := 1; hi := None |}.
Definition star (p : ascii -> bool) : atom := {| cls := p; lo := 0; hi := None |}.
Definition range (p : ascii -> bool) (a b : nat) : atom :=
  {| cls := p; lo := a; hi := Some b |}.

Fixpoint lit (s : string) : regex :=
  match s with
  | EmptyString => []
  | String c s' => one (Str.is_char c) :: lit s'
  end.

(** Length of the longest prefix of [s] in the class [p]. *)
Fixpoint run (p : ascii -> bool) (s : string) : nat :=
  match s with
  | EmptyString => 0
  | String c s' => if p c then S (run p s') else 0
  end.

Definition longest (a : atom) (s : string) : nat :=
  match hi a with
  | Some h => Nat.min h (run (cls a) s)
  | None => run (cls a) s
  end.

(** One quantified class followed by the rest of the pattern: try [k]
    repetitions, then [k - 1], down to [least]; [rest] matches what
    follows. *)
Fixpoint backtrack (rest : string -> option nat) (least : nat) (s : string) (k : nat)
  : option nat :=
  if (k <? least)%nat then None
  else match rest (Str.drop k s) with
       | Some m => Some (k + m)
       | None => match k with
                 | O => None
                 | S k' => backtrack rest least s k'
                 end
       end.

(** Length of the match of [r] at the start of [s], if any. *)
Fixpoint match_here (r : regex) (s : string) : option nat :=
  match r with
  | [] => Some 0
  | a :: r' => backtrack (match_here r') (lo a) s (longest a s)
  end.

Definition shift (m : option (nat * nat)) : option (nat * nat) :=
  match m with
  | Some (i, n) => Some (S i, n)
  | None => None
  end.

(** Leftmost match: its offset and length. *)
Fixpoint search (r : regex) (s : string) : option (nat * nat) :=
  match match_here r s with
  | Some n => Some (0, n)
  | None => match s with
            | EmptyString => None
            | String _ s' => shift (search r s')
            end
  end.

Definition is_line_terminator (c : ascii) : bool :=
  (Str.code c =? 10)%nat || (Str.code c =? 13)%nat.

(** Leftmost match of [^r] under the [m] flag: only at a line start. *)
Fixpoint search_line_start (r : regex) (s : string) (at_start : bool)
  : option (nat * nat) :=
  match (if at_start then match_here r s else None) with
  | Some n => Some (0, n)
  | None => match s with
            | EmptyString => None
            | String c s' => shift (search_line_start r s' (is_line_terminator c))
            end
  end.

(** [s.match(r)[0]] without the [g] flag, and the first element of
    [s.match(r)] with it. *)
Definition first_match (r : regex) (s : string) : option string :=
  match search r s with
  | Some (i, n) => Some (Str.take n (Str.drop i s))
  | None => None
  end.

Definition first_match_line_start (r : regex) (s : string) : option string :=
  match search_line_start r s true with
  | Some (i, n) => Some (Str.take n (Str.drop i s))
  | None => None
  end.

Fixpoint match_all_fuel (fuel : nat) (r : regex) (s : string) : list string :=
  match fuel with
  | O => []
  | S fuel' =>
      match search r s with
      | None => []
      | Some (i, n) =>
          let rest := Str.drop i s in
          Str.take n rest ::
            match n, rest with
            | O, EmptyString => []
            | O, String _ rest' => match_all_fuel fuel' r rest'
            | _, _ => match_all_fuel fuel' r (Str.drop n rest)
            end
      end
  end.

(** [s.match(r)] with the [g] flag; [[]] stands for [null]. *)
Definition match_all (r : regex) (s : string) : list string :=
  match_all_fuel (S (String.length s)) r s.

Fixpoint remove_all_fuel (fuel : nat) (r : regex) (s : string) : string :=
  match fuel with
  | O => s
  | S fuel' =>
      match search r s with
      | None => s
      | Some (i, n) =>
          let rest := Str.drop i s in
          Str.take i s ++
            match n, rest with
            | O, EmptyString => EmptyString
            | O, String c rest' => String c (remove_all_fuel fuel' r rest')
            | _, _ => remove_all_fuel fuel' r (Str.drop n rest)
            end
      end
  end.

(** [s.replace(r, '')] with the [g] flag. *)
Definition remove_all (r : regex) (s : string) : string :=
  remove_all_fuel (S (String.length s)) r s.

End Regex.

(* ------------------------------------------------------------------ *)
(** ** parseFloat *)

Module Parse.

Fixpoint span (p : ascii -> bool) (s : string) : string * string :=
  match s with
  | EmptyString => (EmptyString, EmptyString)
  | String c s' =>
      if p c then let '(a, b) := span p s' in (String c a, b)
      else (EmptyString, s)
  end.

Definition digit_value (c : ascii) : Z := Z.of_nat (Str.code c - 48).

Fixpoint digits_value_from (acc : Z) (s : string) : Z :=
  match s with
  | EmptyString => acc
  | String c s' => digits_value_from (10 * acc + digit_value c) s'
  end.

Definition digits_value (s : string) : Z := digits_value_from 0 s.

(** The exponent part [e[+-]ddd] at the start of [s], and what follows;
    exponent 0 and [s] itself when there is none. *)
Definition exponent (s : string) : Z * string :=
  match s with
  | String c s1 =>
      if Str.is_char "e" c || Str.is_char "E" c then
        let '(neg, s2) :=
          match s1 with
          | String "-" t => (true, t)
          | String "+" t => (false, t)
          | _ => (false, s1)
          end in
        let '(ds, s3) := span Str.is_digit s2 in
        if String.eqb ds "" then (0%Z, s)
        else ((if neg then - digits_value ds else digits_value ds)%Z, s3)
      else (0%Z, s)
  | EmptyString => (0%Z, s)
  end.

(** The decimal made of the mantissa digits [ip.fp] and exponent [e]. *)
Definition decimal (neg : bool) (ip fp : string) (e : Z) : dec :=
  let m := digits_value (ip ++ fp) in
  let m' := (if neg then - m else m)%Z in
  let scale := (Z.of_nat (String.length fp) - e)%Z in
  if (0 <=? scale)%Z then {| dmant := m'; dscale := Z.to_nat scale |}
  else {| dmant := m' * 10 ^ (- scale); dscale := 0 |}.

(** The longest decimal literal [ddd.ddd(e[+-]dd)] at the start of [s]
    and what follows it. *)
Definition scan_decimal (neg : bool) (s : string) : option (dec * string) :=
  let '(ip, s1) := span Str.is_digit s in
  let '(fp, s2) :=
    match s1 with
    | String "." t => span Str.is_digit t
    | _ => (EmptyString, s1)
    end in
  if String.eqb ip "" && String.eqb fp "" then None
  else let '(e, s3) := exponent s2 in
       Some (decimal neg ip fp e, s3).

(** [parseFloat(s)].  The strings parsed by the engine are made of
    digits and dots; the literal [Infinity] has no value in [num] and is
    read as [NaN]. *)
Definition parseFloat (s : string) : num :=
  let s0 := Str.trimStart s in
  let '(neg, s1) :=
    match s0 with
    | String "-" t => (true, t)
    | String "+" t => (false, t)
    | _ => (false, s0)
    end in
  match scan_decimal neg s1 with
  | Some (d, _) => Dec.to_num d
  | None => NaN
  end.

End Parse.

(* ------------------------------------------------------------------ *)
(** ** Field extraction *)

(** Truthy and [typeof v === 'number']. *)
Definition truthy_number (v : option json) : option dec :=
  match v with
  | Some (JNum d) => if JS.truthy v then Some d else None
  | _ => None
  end.

(** Truthy and [typeof v === 'string']. *)
Definition truthy_string (v : option json) : option string :=
  match v with
  | Some (JStr s) => if JS.truthy v then Some s else None
  | _ => None
  end.

Definition is_digit_or_comma (c : ascii) : bool :=
  Str.is_digit c || Str.is_char "," c.

Definition not_digit_or_dot (c : ascii) : bool :=
  negb (Str.is_digit c || Str.is_char "." c).

(** [/[\d,]+\.?\d{0,2}/g] *)
Definition amount_pattern : Regex.regex :=
  [Regex.plus is_digit_or_comma; Regex.opt (Str.is_char "."); Regex.range Str.is_digit 0 2].

(** The default fallback amount, 10.00. *)
Definition default_amount : num := Fin 10%Q.

(** [extractAmountFromOCR(ocrData)].  Reading [ocrData.total] of [null]
    throws inside the [try]; the [catch] leads to the default. *)
Definition extractAmountFromOCR (ocrData : json) : num :=
  match ocrData with
  | JNull => default_amount
  | _ =>
      match truthy_number (JS.get ocrData "total") with
      | Some d => Dec.to_num d
      | None =>
      match truthy_number (JS.get ocrData "totalAmount") with
      | Some d => Dec.to_num d
      | None =>
          let parsed :=
            match truthy_string (JS.get ocrData "total") with
            | Some s => Parse.parseFloat (Regex.remove_all [Regex.one not_digit_or_dot] s)
            | None => NaN
            end in
          if negb (Num.isNaN parsed) then parsed
          else
            let dataStr := Str.toLowerCase (JS.stringify ocrData) in
            match Regex.match_all amount_pattern dataStr with
            | [] => default_amount
            | a :: amountMatches =>
                let amounts :=
                  map (fun m => Parse.parseFloat (Regex.remove_all (Regex.lit ",") m))
                      (a :: amountMatches) in
                match amounts with
                | [] => default_amount
                | x :: xs => Num.max_from x xs
                end
            end
      end
      end
  end.

Definition is_date_separator (c : ascii) : bool :=
  Str.is_char "/" c || Str.is_char "-" c || Str.is_char "." c.

(** [/\d{1,2}[\/\-\.]\d{1,2}[\/\-\.]\d{2,4}/g] *)
Definition date_pattern : Regex.regex :=
  [Regex.range Str.is_digit 1 2; Regex.one is_date_separator;
   Regex.range Str.is_digit 1 2; Regex.one is_date_separator;
   Regex.range Str.is_digit 2 4].

(** A computation that returns a value or throws. *)
Inductive outcome (A : Type) : Type :=
| Returns (a : A)
| Throws.

Arguments Returns {A} a.
Arguments Throws {A}.

(* ------------------------------------------------------------------ *)
(** ** The journal entry *)

Inductive side : Type := debit | credit.

Module LedgerLine.
Record t : Type :=
  { type : side; account : string; amount : num; description : string }.
End LedgerLine.

Module LineItem.
Record t : Type :=
  { description : string; quantity : num; unitPrice : num; total : num;
    vatRate : num; category : string }.
End LineItem.

Module VatBreakdown.
Record t : Type :=
  { netAmount : num; vatAmount : num; grossAmount : num; vatRate : num }.
End VatBreakdown.

Module JournalEntry.
Record t : Type :=
  { date : string;
    description : string;
    reference : string;
    merchant : string;
    entries : list LedgerLine.t;
    lineItems : list LineItem.t;
    vatBreakdown : VatBreakdown.t;
    totalDebit : num;
    totalCredit : num }.
End JournalEntry.

(** Sum of the amounts of the ledger lines of one side. *)
Fixpoint sum_side (s : side) (l : list LedgerLine.t) : num :=
  match l with
  | [] => Fin 0%Q
  | e :: l' =>
      match LedgerLine.type e, s with
      | debit, debit | credit, credit => Num.add (LedgerLine.amount e) (sum_side s l')
      | _, _ => sum_side s l'
      end
  end.

(* ------------------------------------------------------------------ *)
(** ** The deterministic fallback builder *)

(** [ocrText.includes('vat') || ocrText.includes('tax') || ocrText.includes('19%')] *)
Definition hasVAT_in (ocrText : string) : bool :=
  Str.includes ocrText "vat" || Str.includes ocrText "tax" || Str.includes ocrText "19%".

(** The [if (hasVAT)] block: [(netAmount, vatAmount, vatRate)]. *)
Definition vat_split (hasVAT : bool) (amount : num) : num * num * num :=
  if hasVAT then
    let netAmount := Num.div amount (Fin 1.19%Q) in
    (netAmount, Num.sub amount netAmount, Fin 0.19%Q)
  else (amount, Fin 0%Q, Fin 0%Q).

Definition is_dquote (c : ascii) : bool := Str.is_char Str.dquote c.
Definition is_quote (c : ascii) : bool := Str.is_char "'" c || is_dquote c.
Definition upper_space_amp (c : ascii) : bool :=
  Str.is_upper c || Str.is_space c || Str.is_char "&" c.
Definition alpha_or_space (c : ascii) : bool := Str.is_alpha c || Str.is_space c.

(** The three [merchantPatterns], each with the first match it finds in
    the serialized OCR data: [/([A-Z][A-Z\s&]+[A-Z])/g], then a double
    quote, one or more characters other than a double quote and a double
    quote (with the [g] flag), then [/^([A-Z][A-Za-z\s]+)/m]. *)
Definition merchant_matches (text : string) : list (option string) :=
  [ Regex.first_match
      [Regex.one Str.is_upper; Regex.plus upper_space_amp; Regex.one Str.is_upper] text;
    Regex.first_match
      [Regex.one is_dquote; Regex.plus (fun c => negb (is_dquote c)); Regex.one is_dquote] text;
    Regex.first_match_line_start
      [Regex.one Str.is_upper; Regex.plus alpha_or_space] text ].

(** The [for (const pattern of merchantPatterns)] loop. *)
Fixpoint merchant_from_patterns (matches : list (option string)) (merchant : string)
  : string :=
  match matches with
  | [] => merchant
  | None :: rest => merchant_from_patterns rest merchant
  | Some m :: rest =>
      if negb (String.eqb m "") && (3 <? String.length m)%nat && (String.length m <? 50)%nat
      then Str.trim (Regex.remove_all [Regex.one is_quote] m)
      else merchant_from_patterns rest merchant
  end.

(** The value of the variable [merchant] after the lookup: any JSON value
    when it comes from a structured field.  [ocrData.establishment] of
    [null] throws. *)
Definition resolve_merchant (ocrData : json) : outcome json :=
  match ocrData with
  | JNull => Throws
  | _ =>
      let structured :=
        JS.or (JS.or (JS.get ocrData "establishment") (JS.get ocrData "merchantName"))
              (JS.get ocrData "vendor") in
      match structured with
      | Some v => if JS.truthy structured then Returns v
                  else Returns (JStr (merchant_from_patterns
                                        (merchant_matches (JS.stringify ocrData))
                                        "Unknown Merchant"))
      | None => Returns (JStr (merchant_from_patterns
                                 (merchant_matches (JS.stringify ocrData))
                                 "Unknown Merchant"))
      end
  end.

(** [merchantLower.includes(w) || ... || ocrText.includes(w) || ...] over
    the keywords of one rule. *)
Definition mentions (merchantLower ocrText : string) (keywords : list string) : bool :=
  existsb (Str.includes merchantLower) keywords || existsb (Str.includes ocrText) keywords.

(** The [if / else if] chain: [(expenseAccount, description)]. *)
Definition classify (merchantLower ocrText : string) : string * string :=
  if mentions merchantLower ocrText ["restaurant"; "cafe"; "food"] then
    ("Meals & Entertainment", "Restaurant/Food expense")
  else if mentions merchantLower ocrText ["gas"; "fuel"; "petrol"] then
    ("Fuel & Transportation", "Fuel expense")
  else if mentions merchantLower ocrText ["office"; "supplies"; "stationery"] then
    ("Office Supplies", "Office supplies")
  else if mentions merchantLower ocrText ["hotel"; "accommodation"] then
    ("Travel & Accommodation", "Travel expense")
  else if mentions merchantLower ocrText ["software"; "subscription"; "tech"] then
    ("IT & Software", "Software/IT expense")
  else ("General Expenses", "Expense Transaction (OCR processed)").

(** [x.toFixed(0)] *)
Definition toFixed0 (a : num) : string :=
  match a with
  | NaN => "NaN"
  | Fin q => (if Qle_bool 0%Q q then "" else "-") ++ Dec.digits_of (Num.round_half_away q)
  end.

(** [createFallbackJournalEntry(ocrData, amount, date)].  A [merchant]
    that is not a string has no [toLowerCase] method: the call throws. *)
Definition createFallbackJournalEntry (ocrData : json) (amount : num) (date : string)
  : outcome JournalEntry.t :=
  let ocrText := Str.toLowerCase (JS.stringify ocrData) in
  let hasVAT := hasVAT_in ocrText in
  let '(netAmount, vatAmount, vatRate) := vat_split hasVAT amount in
  match resolve_merchant ocrData with
  | Throws => Throws
  | Returns (JStr merchant) =>
      let merchantLower := Str.toLowerCase merchant in
      let '(expenseAccount, description) := classify merchantLower ocrText in
      let entries :=
        ([ {| LedgerLine.type := debit;
             LedgerLine.account := expenseAccount;
             LedgerLine.amount := Num.toFixed2 netAmount;
             LedgerLine.description := description |} ]
        ++ (if hasVAT && Num.gtb vatAmount (Fin 0%Q) then
              [ {| LedgerLine.type := debit;
                   LedgerLine.account := "VAT Input Tax";
                   LedgerLine.amount := Num.toFixed2 vatAmount;
                   LedgerLine.description :=
                     "VAT " ++ toFixed0 (Num.mul vatRate (Fin 100%Q)) ++ "%" |} ]
            else [])
        ++ [ {| LedgerLine.type := credit;
                LedgerLine.account := "Cash/Bank Account";
                LedgerLine.amount := Num.toFixed2 amount;
                LedgerLine.description := "Payment" |} ])%list in
      Returns
        {| JournalEntry.date := date;
           JournalEntry.description := merchant ++ " - " ++ description;
           JournalEntry.reference := "AUTO-GENERATED";
           JournalEntry.merchant := merchant;
           JournalEntry.entries := entries;
           JournalEntry.lineItems :=
             [ {| LineItem.description := description;
                  LineItem.quantity := Fin 1%Q;
                  LineItem.unitPrice := Num.toFixed2 netAmount;
                  LineItem.total := Num.toFixed2 netAmount;
                  LineItem.vatRate := vatRate;
                  LineItem.category := expenseAccount |} ];
           JournalEntry.vatBreakdown :=
             {| VatBreakdown.netAmount := Num.toFixed2 netAmount;
                VatBreakdown.vatAmount := Num.toFixed2 vatAmount;
                VatBreakdown.grossAmount := Num.toFixed2 amount;
                VatBreakdown.vatRate := vatRate |};
           JournalEntry.totalDebit := Num.toFixed2 amount;
           JournalEntry.totalCredit := Num.toFixed2 amount |}
  | Returns _ => Throws
  end.

(* ------------------------------------------------------------------ *)
(** ** A JSON reader

    An implementation of [JSON.parse] on byte strings, used to run the
    engine on concrete replies.  The engine itself is stated over any
    [JSON.parse] (see [Section Engine]). *)

Module JSONText.

Definition is_ws (c : ascii) : bool :=
  let n := Str.code c in
  (n =? 32)%nat || (n =? 9)%nat || (n =? 10)%nat || (n =? 13)%nat.

Fixpoint skip_ws (s : string) : string :=
  match s with
  | EmptyString => EmptyString
  | String c s' => if is_ws c then skip_ws s' else s
  end.

Definition hex_value (c : ascii) : option nat :=
  let n := Str.code c in
  if Str.is_digit c then Some (n - 48)
  else if Str.between 97 102 c then Some (n - 87)
  else if Str.between 65 70 c then Some (n - 55)
  else None.

(** UTF-8 bytes of a code point of the basic plane. *)
Definition utf8 (n : nat) : string :=
  if (n <? 128)%nat then String (ascii_of_nat n) ""
  else if (n <? 2048)%nat then
    String (ascii_of_nat (192 + n / 64)) (String (ascii_of_nat (128 + n mod 64)) "")
  else
    String (ascii_of_nat (224 + n / 4096))
      (String (ascii_of_nat (128 + (n / 64) mod 64))
         (String (ascii_of_nat (128 + n mod 64)) "")).

Definition simple_escape (c : ascii) : option ascii :=
  let n := Str.code c in
  if (n =? 34)%nat || (n =? 92)%nat || (n =? 47)%nat then Some c
  else if Str.is_char "b" c then Some (ascii_of_nat 8)
  else if Str.is_char "f" c then Some (ascii_of_nat 12)
  else if Str.is_char "n" c then Some (ascii_of_nat 10)
  else if Str.is_char "r" c then Some (ascii_of_nat 13)
  else if Str.is_char "t" c then Some (ascii_of_nat 9)
  else None.

Definition cons_to (prefix : string) (r : option (string * string))
  : option (string * string) :=
  match r with
  | Some (body, rest) => Some (prefix ++ body, rest)
  | None => None
  end.

(** The characters of a string literal after its opening quote, and what
    follows the closing quote. *)
Fixpoint string_body (s : string) : option (string * string) :=
  match s with
  | EmptyString => None
  | String c s1 =>
      if is_dquote c then Some (EmptyString, s1)
      else if Str.is_char Str.backslash c then
        match s1 with
        | EmptyString => None
        | String e s2 =>
            match simple_escape e with
            | Some ch => cons_to (String ch "") (string_body s2)
            | None =>
                if Str.is_char "u" e then
                  match s2 with
                  | String h1 (String h2 (String h3 (String h4 s3))) =>
                      match hex_value h1, hex_value h2, hex_value h3, hex_value h4 with
                      | Some a, Some b, Some c', Some d =>
                          cons_to (utf8 (((a * 16 + b) * 16 + c') * 16 + d))
                                  (string_body s3)
                      | _, _, _, _ => None
                      end
                  | _ => None
                  end
                else None
            end
        end
      else if (Str.code c <? 32)%nat then None
      else cons_to (String c "") (string_body s1)
  end.

(** A number literal of the JSON grammar at the start of [s]. *)
Definition number (s : string) : option (dec * string) :=
  let '(neg, s1) :=
    match s with
    | String "-" t => (true, t)
    | _ => (false, s)
    end in
  let '(ip, s2) := Parse.span Str.is_digit s1 in
  let leading_ok :=
    match ip with
    | EmptyString => false
    | String "0" (String _ _) => false
    | _ => true
    end in
  let fraction_ok :=
    match s2 with
    | String "." (String d _) => Str.is_digit d
    | String "." EmptyString => false
    | _ => true
    end in
  if leading_ok && fraction_ok then Parse.scan_decimal neg s1 else None.

(** [o[k] = v]: a repeated key keeps its place and takes the last value. *)
Fixpoint set_field (k : string) (v : json) (fields : list (string * json))
  : list (string * json) :=
  match fields with
  | [] => [(k, v)]
  | (k', v') :: rest =>
      if String.eqb k' k then (k', v) :: rest else (k', v') :: set_field k v rest
  end.

Definition literal (word : string) (v : json) (s : string) : option (json * string) :=
  if String.prefix word s then Some (v, Str.drop (String.length word) s) else None.

Fixpoint value (fuel : nat) (s : string) {struct fuel} : option (json * string) :=
  match fuel with
  | O => None
  | S fuel' =>
      match skip_ws s with
      | EmptyString => None
      | String c rest =>
          if Str.is_char "{" c then
            match skip_ws rest with
            | String "}" r => Some (JObj [], r)
            | _ => match members fuel' rest [] with
                   | Some (fields, r) => Some (JObj fields, r)
                   | None => None
                   end
            end
          else if Str.is_char "[" c then
            match skip_ws rest with
            | String "]" r => Some (JArr [], r)
            | _ => match elements fuel' rest with
                   | Some (vs, r) => Some (JArr vs, r)
                   | None => None
                   end
            end
          else if is_dquote c then
            match string_body rest with
            | Some (body, r) => Some (JStr body, r)
            | None => None
            end
          else if Str.is_char "t" c then literal "true" (JBool true) (String c rest)
          else if Str.is_char "f" c then literal "false" (JBool false) (String c rest)
          else if Str.is_char "n" c then literal "null" JNull (String c rest)
          else match number (String c rest) with
               | Some (d, r) => Some (JNum d, r)
               | None => None
               end
      end
  end
with elements (fuel : nat) (s : string) {struct fuel} : option (list json * string) :=
  match fuel with
  | O => None
  | S fuel' =>
      match value fuel' s with
      | Some (v, r) =>
          match skip_ws r with
          | String "," r' =>
              match elements fuel' r' with
              | Some (vs, r'') => Some (v :: vs, r'')
              | None => None
              end
          | String "]" r' => Some ([v], r')
          | _ => None
          end
      | None => None
      end
  end
with members (fuel : nat) (s : string) (acc : list (string * json)) {struct fuel}
  : option (list (string * json) * string) :=
  match fuel with
  | O => None
  | S fuel' =>
      match skip_ws s with
      | String q s1 =>
          if is_dquote q then
            match string_body s1 with
            | Some (k, s2) =>
                match skip_ws s2 with
                | String ":" s3 =>
                    match value fuel' s3 with
                    | Some (v, s4) =>
                        match skip_ws s4 with
                        | String "," s5 => members fuel' s5 (set_field k v acc)
                        | String "}" s5 => Some (set_field k v acc, s5)
                        | _ => None
                        end
                    | None => None
                    end
                | _ => None
                end
            | None => None
            end
          else None
      | EmptyString => None
      end
  end.

(** [JSON.parse(text)]; [None] when it throws a [SyntaxError]. *)
Definition parse (text : string) : option json :=
  match value (2 * String.length text + 2) text with
  | Some (v, rest) =>
      match skip_ws rest with
      | EmptyString => Some v
      | _ => None
      end
  | None => None
  end.

End JSONText.

(* ------------------------------------------------------------------ *)
(** ** The engine, over its environment *)

(** What [generateJournalEntry] resolves to: the object parsed from the
    model's reply, or the entry of the fallback builder. *)
Inductive journal : Type :=
| Generated (journalEntry : json)
| Fallback (journalEntry : JournalEntry.t).

(** [/```json\s*/g] and [/```\s*/g] *)
Definition fence_json_pattern : Regex.regex := (Regex.lit "```json" ++ [Regex.star Str.is_space])%list.
Definition fence_pattern : Regex.regex := (Regex.lit "```" ++ [Regex.star Str.is_space])%list.

(** [/\{[\s\S]*\}/]: from the first opening brace to the last closing one. *)
Definition object_pattern : Regex.regex :=
  [Regex.one (Str.is_char "{"); Regex.star (fun _ => true); Regex.one (Str.is_char "}")].

(** [response.replace(/```json\s*/g, '').replace(/```\s*/g, '')] *)
Definition cleanedResponse (response : string) : string :=
  Regex.remove_all fence_pattern (Regex.remove_all fence_json_pattern response).

Section Engine.

(** [new Date(v)] followed by [toLocaleDateString('en-GB')]: [None] when
    the date is invalid. *)
Variable Date_en_GB : json -> option string.

(** [new Date().toLocaleDateString('en-GB')], the day of the call. *)
Variable today : string.

(** [JSON.parse]: [None] when it throws. *)
Variable JSON_parse : string -> option json.

Definition date_of_field (v : option json) : option string :=
  match v with
  | Some d => if JS.truthy v then Date_en_GB d else None
  | None => None
  end.

(** [extractDateFromOCR(ocrData)]; [None] is [null]. *)
Definition extractDateFromOCR (ocrData : json) : option string :=
  match ocrData with
  | JNull => None
  | _ =>
      match date_of_field (JS.get ocrData "date") with
      | Some d => Some d
      | None =>
      match date_of_field (JS.get ocrData "purchaseDate") with
      | Some d => Some d
      | None =>
          match Regex.match_all date_pattern (JS.stringify ocrData) with
          | m :: _ => Date_en_GB (JStr m)
          | [] => None
          end
      end
      end
  end.

(** [extractDateFromOCR(ocrData) || new Date().toLocaleDateString('en-GB')] *)
Definition fallbackDate (ocrData : json) : string :=
  match extractDateFromOCR ocrData with
  | Some d => if String.eqb d "" then today else d
  | None => today
  end.

(** The three parsing attempts on the model's reply. *)
Definition parse_response (response : string) : outcome json :=
  match JSON_parse response with
  | Some journalEntry => Returns journalEntry
  | None =>
      match JSON_parse (cleanedResponse response) with
      | Some journalEntry => Returns journalEntry
      | None =>
          match Regex.first_match object_pattern (cleanedResponse response) with
          | Some jsonMatch =>
              match JSON_parse jsonMatch with
              | Some journalEntry => Returns journalEntry
              | None => Throws
              end
          | None => Throws
          end
      end
  end.

(** The [try] block.  [completion] is the content of the model's reply,
    or [None] when the request failed or carried no message.  The amount
    and the date computed at the start of the block are not used in it. *)
Definition generative_path (completion : option string) : outcome json :=
  match completion with
  | Some response => parse_response response
  | None => Throws
  end.

(** The [catch] block. *)
Definition fallback_path (ocrData : json) : outcome JournalEntry.t :=
  createFallbackJournalEntry ocrData (extractAmountFromOCR ocrData) (fallbackDate ocrData).

(** [generateJournalEntry(ocrData)], given the outcome of the model call. *)
Definition generateJournalEntry (ocrData : json) (completion : option string)
  : outcome journal :=
  match generative_path completion with
  | Returns journalEntry => Returns (Generated journalEntry)
  | Throws =>
      match fallback_path ocrData with
      | Returns journalEntry => Returns (Fallback journalEntry)
      | Throws => Throws
      end
  end.

(** The three parsing stages, each on its own. *)
Definition stage1 (response : string) : option json := JSON_parse response.

Definition stage2 (response : string) : option json :=
  JSON_parse (cleanedResponse response).

Definition stage3 (response : string) : option json :=
  match Regex.first_match object_pattern (cleanedResponse response) with
  | Some jsonMatch => JSON_parse jsonMatch
  | None => None
  end.

(** The first stage that succeeds, in order. *)
Definition first_success (response : string) (v : json) : Prop :=
  stage1 response = Some v \/
  (stage1 response = None /\ stage2 response = Some v) \/
  (stage1 response = None /\ stage2 response = None /\ stage3 response = Some v).

End Engine.

(** The totals of a returned entry, when it has numeric ones. *)
Definition number_field (v : json) (key : string) : option num :=
  match JS.get v key with
  | Some (JNum d) => Some (Dec.to_num d)
  | _ => None
  end.

Definition totalDebit_of (j : journal) : option num :=
  match j with
  | Generated v => number_field v "totalDebit"
  | Fallback e => Some (JournalEntry.totalDebit e)
  end.

Definition totalCredit_of (j : journal) : option num :=
  match j with
  | Generated v => number_field v "totalCredit"
  | Fallback e => Some (JournalEntry.totalCredit e)
  end.

(** [totalDebit] equals [totalCredit] within 0.01. *)
Definition balanced_within_cent (j : journal) : bool :=
  match totalDebit_of j, totalCredit_of j with
  | Some a, Some b => Num.within 0.01%Q a b
  | _, _ => false
  end.

(** An instance of the date environment for the examples: ISO dates
    [YYYY-MM-DD] printed as [DD/MM/YYYY], everything else invalid. *)
Definition iso_date (v : json) : option string :=
  match v with
  | JStr s =>
      match Regex.match_here
              [Regex.range Str.is_digit 4 4; Regex.one (Str.is_char "-");
               Regex.range Str.is_digit 2 2; Regex.one (Str.is_char "-");
               Regex.range Str.is_digit 2 2] s with
      | Some 10 =>
          if (String.length s =? 10)%nat then
            Some (Str.take 2 (Str.drop 8 s) ++ "/" ++ Str.take 2 (Str.drop 5 s)
                  ++ "/" ++ Str.take 4 s)
          else None
      | _ => None
      end
  | _ => None
  end.

(* ------------------------------------------------------------------ *)
(** ** Definitions used by the statements, and sample documents *)

(** The components of the triple computed by the VAT block. *)
Definition net_of (t : num * num * num) : num := fst (fst t).
Definition vat_of (t : num * num * num) : num := snd (fst t).
Definition rate_of (t : num * num * num) : num := snd t.

(** Scenario B: a total of 119.00 and the text "VAT 19%". *)
Definition scenario_B : json :=
  JObj [("total", JNum {| dmant := 119; dscale := 0 |}); ("text", JStr "VAT 19%")].

(** A total with three decimals, VAT mentioned. *)
Definition subcent_total : json :=
  JObj [("total", JNum {| dmant := 1016; dscale := 3 |}); ("note", JStr "VAT")].

(** Two text fields and no digit. *)
Definition two_text_fields : json :=
  JObj [("establishment", JStr "Test Merchant"); ("note", JStr "hello")].

(** The rule table as the specification words it: an ordered list of
    keyword sets, each with its account and description; the first rule
    with a keyword in the merchant name or in the OCR text wins. *)
Definition classification_rules : list (list string * (string * string)) :=
  [ (["restaurant"; "cafe"; "food"], ("Meals & Entertainment", "Restaurant/Food expense"));
    (["gas"; "fuel"; "petrol"], ("Fuel & Transportation", "Fuel expense"));
    (["office"; "supplies"; "stationery"], ("Office Supplies", "Office supplies"));
    (["hotel"; "accommodation"], ("Travel & Accommodation", "Travel expense"));
    (["software"; "subscription"; "tech"], ("IT & Software", "Software/IT expense")) ].

Definition default_class : string * string :=
  ("General Expenses", "Expense Transaction (OCR processed)").

Fixpoint first_matching_rule (rules : list (list string * (string * string)))
         (merchantLower ocrText : string) : string * string :=
  match rules with
  | [] => default_class
  | (keywords, class) :: rest =>
      if mentions merchantLower ocrText keywords then class
      else first_matching_rule rest merchantLower ocrText
  end.

(** The account of the expense line, the first line of the ledger. *)
Definition expense_account (e : JournalEntry.t) : option string :=
  option_map LedgerLine.account (hd_error (JournalEntry.entries e)).

(** A document that mentions a cafe and an office. *)
Definition cafe_and_office : json :=
  JObj [("establishment", JStr "Corner Cafe"); ("items", JStr "office paper")].

Definition is_open_brace : ascii -> bool := Str.is_char "{".
Definition is_close_brace : ascii -> bool := Str.is_char "}".
Definition is_backtick : ascii -> bool := Str.is_char "`".

Definition newline : string := String (ascii_of_nat 10) "".

(** A reply wrapped in a code fence, and one wrapped in prose. *)
Definition fenced_reply : string :=
  "```json" ++ newline ++ Str.dq "{'totalDebit':25.5,'totalCredit':25.5}" ++ newline ++ "```".

Definition prose_reply : string :=
  "Here is the entry: " ++ Str.dq "{'totalDebit':25.5,'totalCredit':25.5}" ++ " Regards.".

(** The value both replies hold. *)
Definition balanced_reply : json :=
  JObj [("totalDebit", JNum {| dmant := 255; dscale := 1 |});
        ("totalCredit", JNum {| dmant := 255; dscale := 1 |})].

(** Scenario A: [{total: 25.50, establishment: "Test Merchant"}]. *)
Definition scenario_A : json :=
  JObj [("total", JNum {| dmant := 2550; dscale := 2 |});
        ("establishment", JStr "Test Merchant")].

(** The value of a reply whose totals differ. *)
Definition unbalanced_reply : json :=
  JObj [("totalDebit", JNum {| dmant := 119; dscale := 0 |});
        ("totalCredit", JNum {| dmant := 100; dscale := 0 |})].

(** A document whose merchant field is a number. *)
Definition numeric_merchant : json :=
  JObj [("establishment", JNum {| dmant := 42; dscale := 0 |})].

(** [e] with its [date] replaced by [d]. *)
Definition with_date (d : string) (e : JournalEntry.t) : JournalEntry.t :=
  {| JournalEntry.date := d;
     JournalEntry.description := JournalEntry.description e;
     JournalEntry.reference := JournalEntry.reference e;
     JournalEntry.merchant := JournalEntry.merchant e;
     JournalEntry.entries := JournalEntry.entries e;
     JournalEntry.lineItems := JournalEntry.lineItems e;
     JournalEntry.vatBreakdown := JournalEntry.vatBreakdown e;
     JournalEntry.totalDebit := JournalEntry.totalDebit e;
     JournalEntry.totalCredit := JournalEntry.totalCredit e |}.

(** A document with an ISO date. *)
Definition dated_receipt : json :=
  JObj [("total", JNum {| dmant := 2550; dscale := 2 |});
        ("date", JStr "2026-10-31")].

(* ------------------------------------------------------------------ *)
(** ** Definitions used by the further properties *)

(** A number that is not negative, or [NaN]. *)
Definition nonneg_or_NaN (a : num) : Prop :=
  match a with
  | NaN => True
  | Fin q => (0 <= q)%Q
  end.

(** A non-negative whole number of hundredths, or [NaN]. *)
Definition hundredths_or_NaN (a : num) : Prop :=
  match a with
  | NaN => True
  | Fin q => exists k : Z, (0 <= k)%Z /\ (q == k # 100)%Q
  end.

(** The characters of [s] that satisfy [p], in order. *)
Fixpoint keep (p : ascii -> bool) (s : string) : string :=
  match s with
  | EmptyString => EmptyString
  | String c s' => if p c then String c (keep p s') else keep p s'
  end.

(** A character that [JSON.stringify] writes as it is. *)
Definition plain_char (c : ascii) : bool :=
  (32 <=? Str.code c)%nat && negb (Str.code c =? 34)%nat && negb (Str.code c =? 92)%nat.

(** [text] is a key or a string value somewhere in the document. *)
Inductive occurs_in (text : string) : json -> Prop :=
| occurs_string : occurs_in text (JStr text)
| occurs_key (v : json) (fields : list (string * json)) :
    In (text, v) fields -> occurs_in text (JObj fields)
| occurs_field (k : string) (v : json) (fields : list (string * json)) :
    In (k, v) fields -> occurs_in text v -> occurs_in text (JObj fields)
| occurs_element (v : json) (l : list json) :
    In v l -> occurs_in text v -> occurs_in text (JArr l).

(** A value that is absent, falsy or a string. *)
Definition string_or_falsy (v : option json) : Prop :=
  JS.truthy v = false \/ exists s, v = Some (JStr s).

(* ------------------------------------------------------------------ *)
(** ** The server around the engine *)

(** [process.env.ACCESS_CODE || null]; [None] is [null]. *)
Definition ACCESS_CODE (env : option string) : option string :=
  match env with
  | Some code => if String.eqb code "" then None else Some code
  | None => None
  end.

(** What a middleware does: it calls [next()] or answers with a status. *)
Inductive access : Type :=
| Next
| Unauthorized.

(** [v === code], for a string [code]. *)
Definition strict_equal_string (v : option json) (code : string) : bool :=
  match v with
  | Some (JStr s) => String.eqb s code
  | _ => false
  end.

(** [checkAccess(req, res, next)]: [header] is
    [req.headers['x-access-code']], [query] is [req.query.access_code]. *)
Definition checkAccess (env : option string) (header query : option json) : access :=
  match ACCESS_CODE env with
  | None => Next
  | Some code =>
      let providedCode := JS.or header query in
      if strict_equal_string providedCode code then Next else Unauthorized
  end.

(** The file object handed to the upload filter; [size] is [None] when
    the property is [undefined]. *)
Record uploaded : Type :=
  { originalname : string; mimetype : string; size : option Z }.

Inductive filtered : Type :=
| Accepted
| InvalidFilename
| NotAllowed.

Definition allowedMimeTypes : list string :=
  ["image/jpeg"; "image/jpg"; "image/png"; "application/pdf"].

(** [/jpeg|jpg|png|pdf/.test(s)] *)
Definition allowedTypes_test (s : string) : bool :=
  Str.includes s "jpeg" || Str.includes s "jpg" || Str.includes s "png"
  || Str.includes s "pdf".

(** [5 * 1024 * 1024] *)
Definition server_limit : Z := 5 * 1024 * 1024.

(** [n <= limit] for a possibly undefined [n]. *)
Definition at_most (n : option Z) (limit : Z) : bool :=
  match n with
  | Some z => (z <=? limit)%Z
  | None => false
  end.

Section Upload.

(** [path.extname] *)
Variable path_extname : string -> string.

(** The [fileFilter] of the upload middleware. *)
Definition fileFilter (file : uploaded) : filtered :=
  let extname := allowedTypes_test (Str.toLowerCase (path_extname (originalname file))) in
  let mimetype_ok := existsb (String.eqb (mimetype file)) allowedMimeTypes in
  if Str.includes (originalname file) ".." || Str.includes (originalname file) "/"
  then InvalidFilename
  else if mimetype_ok && extname && at_most (size file) server_limit then Accepted
  else NotAllowed.

End Upload.

(** The outcome of the browser's [validateFile(file)]: it returns or
    throws one of two errors. *)
Inductive validation : Type :=
| Valid
| InvalidType
| TooLarge.

(** [10 * 1024 * 1024] *)
Definition client_limit : Z := 10 * 1024 * 1024.

(** [validateFile(file)], on [file.type] and [file.size]. *)
Definition validateFile (type : string) (file_size : Z) : validation :=
  if negb (existsb (String.eqb type) allowedMimeTypes) then InvalidType
  else if (client_limit <? file_size)%Z then TooLarge
  else Valid.

Section TabScanner.

(** The body of the answer to the upload request, [None] when the
    request throws. *)
Variable post_upload : option json.

(** The body of the answer of the [i]-th entry of [endpointConfigs] for a
    token, [None] when the request throws. *)
Variable request_result : json -> nat -> option json.

(** The [for (const config of endpointConfigs)] loop, from entry [i], over
    [n] entries: the first answer. *)
Fixpoint first_answer (token : json) (i n : nat) : option json :=
  match n with
  | O => None
  | S n' =>
      match request_result token i with
      | Some data => Some data
      | None => first_answer token (S i) n'
      end
  end.

(** The part of the answer that is returned: its [result], else its
    [data], else the whole body. *)
Definition pick_result (data : json) : json :=
  let otherwise :=
    match JS.get data "data" with
    | Some inner => if JS.truthy (Some data) && JS.truthy (Some inner) then inner else data
    | None => data
    end in
  match JS.get data "result" with
  | Some result => if JS.truthy (Some data) && JS.truthy (Some result) then result else otherwise
  | None => otherwise
  end.

(** [processOCR(filePath)]: every error is rethrown as
    'OCR processing failed'. *)
Definition processOCR : outcome json :=
  match post_upload with
  | None => Throws
  | Some data =>
      match JS.or (JS.get data "token") (JS.get data "duplicateToken") with
      | Some token =>
          if JS.truthy (Some data) && JS.truthy (Some token) then
            match first_answer token 0 6 with
            | Some answer => Returns (pick_result answer)
            | None => Throws
            end
          else Returns data
      | None => Returns data
      end
  end.

End TabScanner.

(** The files on disk, by path. *)
Definition disk : Type := list string.

Definition existsSync (path : string) (files : disk) : bool :=
  existsb (String.eqb path) files.

(** [fs.unlinkSync(path)]: it throws when there is no such file. *)
Definition unlinkSync (path : string) (files : disk) : outcome disk :=
  if existsSync path files
  then Returns (filter (fun p => negb (String.eqb path p)) files)
  else Throws.

(** Why the upload route answers 500. *)
Inductive failure : Type :=
| OcrFailed
| GenerationThrew
| UnlinkThrew.

(** The answer of the upload route. *)
Inductive response : Type :=
| Ok200 (ocrData : json) (journalEntry : journal)
| BadRequest400
| ServerError500 (why : failure).

(** The [catch] block of the route: the uploaded file is removed when it
    is still there. *)
Definition remove_upload (path : string) (files : disk) : disk :=
  if existsSync path files then
    match unlinkSync path files with
    | Returns files' => files'
    | Throws => files
    end
  else files.

Section Route.

Variable Date_en_GB : json -> option string.
Variable today : string.
Variable JSON_parse : string -> option json.

(** The outcome of [processOCR] for the uploaded file. *)
Variable ocr : outcome json.

(** The content of the model's reply for an OCR document. *)
Variable completion : json -> option string.

(** The handler of [POST /api/upload]: [file] is [req.file.path], [None]
    without a file. *)
Definition upload_route (file : option string) (files : disk) : response * disk :=
  match file with
  | None => (BadRequest400, files)
  | Some filePath =>
      match ocr with
      | Throws => (ServerError500 OcrFailed, remove_upload filePath files)
      | Returns ocrData =>
          match generateJournalEntry Date_en_GB today JSON_parse ocrData (completion ocrData) with
          | Throws => (ServerError500 GenerationThrew, remove_upload filePath files)
          | Returns journalEntry =>
              match unlinkSync filePath files with
              | Returns files' => (Ok200 ocrData journalEntry, files')
              | Throws => (ServerError500 UnlinkThrew, remove_upload filePath files)
              end
          end
      end
  end.

End Route.


(* ------------------------------------------------------------------ *)
(** ** The browser's amount display *)

(** [x.toFixed(2)] as a text: the sign, then the nearest number of
    hundredths [n] (the larger one on a tie), its digits padded to three
    and split before the last two.  From 1e21 on it is [String(x)]. *)
Definition toFixed2_string (d : dec) : string :=
  let x := Dec.value d in
  let s := if Qle_bool 0%Q x then "" else "-" in
  let x := Qabs x in
  if Qle_bool (inject_Z (10 ^ 21)) x then
    s ++ Dec.toString {| dmant := Z.abs (dmant d); dscale := dscale d |}
  else
    let n := Num.cents x in
    let m := Dec.digits_of n in
    let k := String.length m in
    let m := if (k <=? 2)%nat then Str.repeat "0" (3 - k) ++ m else m in
    let k := String.length m in
    s ++ Str.take (k - 2) m ++ "." ++ Str.drop (k - 2) m.

(** [formatCurrency(amount)]; [None] is [undefined]. *)
Definition formatCurrency (amount : option json) : string :=
  match amount with
  | Some (JNum d) => toFixed2_string d
  | _ => "0.00"
  end.

(* ------------------------------------------------------------------ *)
(** ** Further sample documents and requests *)

(** A total written as a signed text. *)
Definition signed_text_total : json := JObj [("total", JStr "-12.50")].

(** A document with its amount in a text only. *)
Definition scanned_receipt : json := JObj [("text", JStr "Lunch 12.50 VAT")].

(** A taxi receipt: no tax is mentioned. *)
Definition taxi_receipt : json :=
  JObj [("merchantName", JStr "City Taxi");
        ("total", JNum {| dmant := 18; dscale := 0 |})].

(** A petrol station whose document has a key with "food" in it. *)
Definition fuel_stop : json :=
  JObj [("establishment", JStr "Fuel Stop"); ("seafood", JBool false)].

(** A document without any merchant field. *)
Definition unnamed_receipt : json := JObj [("text", JStr "ACME STORE receipt")].

(** An upload whose name leaves the upload directory. *)
Definition traversal_upload : uploaded :=
  {| originalname := "../receipt.png"; mimetype := "image/png"; size := Some 1024%Z |}.

(** A PDF of 6 MB. *)
Definition six_megabytes : uploaded :=
  {| originalname := "receipt.pdf"; mimetype := "application/pdf";
     size := Some (6 * 1024 * 1024)%Z |}.

(** [path.extname] on the names of the sample uploads: the letters after
    the last dot, with the dot. *)
Definition sample_extname (name : string) : string :=
  let letters := Regex.run Str.is_alpha (Str.rev name) in
  match Str.drop letters (Str.rev name) with
  | String "." _ => "." ++ Str.rev (Str.take letters (Str.rev name))
  | _ => ""
  end.

(** An upload answer with a token, and result endpoints of which the third
    and the fifth answer. *)
Definition upload_answer : json := JObj [("token", JStr "t1")].

Definition third_answer : json :=
  JObj [("result", JObj [("total", JNum {| dmant := 2550; dscale := 2 |})])].

Definition fifth_answer : json :=
  JObj [("data", JObj [("total", JNum {| dmant := 1; dscale := 0 |})])].

Definition sample_endpoints (token : json) (i : nat) : option json :=
  if (i =? 2)%nat then Some third_answer
  else if (i =? 4)%nat then Some fifth_answer
  else None.

(** The uploads directory before a request. *)
Definition sample_disk : disk := ["uploads/receipt-1.png"; "uploads/receipt-2.png"].

(* ================================================================== *)
(** * Properties *)

(** ** Rounding to two decimals *)

Lemma round_half_away_close (x : Q) :
  (Qabs (inject_Z (Num.round_half_away x) - x) <= 1 # 2)%Q.
Proof.
  unfold Num.round_half_away.
  destruct (Qle_bool 0 x) eqn:Hs.
  - pose proof (Qfloor_le (x + (1 # 2))) as Hlo.
    pose proof (Qlt_floor (x + (1 # 2))) as Hhi.
    rewrite inject_Z_plus in Hhi. change (inject_Z 1) with 1%Q in Hhi.
    apply Qabs_Qle_condition. split; lra.
  - pose proof (Qfloor_le (- x + (1 # 2))) as Hlo.
    pose proof (Qlt_floor (- x + (1 # 2))) as Hhi.
    rewrite inject_Z_plus in Hhi. change (inject_Z 1) with 1%Q in Hhi.
    rewrite inject_Z_opp.
    apply Qabs_Qle_condition. split; lra.
Qed.

Lemma cents_close (q : Q) :
  (Qabs ((Num.cents q # 100) - q) <= 1 # 200)%Q.
Proof.
  pose proof (round_half_away_close (q * 100)) as H.
  fold (Num.cents q) in H.
  apply Qabs_Qle_condition in H. destruct H as [H1 H2].
  assert (E : (Num.cents q # 100 == inject_Z (Num.cents q) * (1 # 100))%Q).
  { unfold Qeq. simpl. lia. }
  rewrite E.
  apply Qabs_Qle_condition. split; lra.
Qed.

(** ** The shape of a fallback entry *)

Lemma fallback_returns (ocrData : json) (amount : num) (date : string)
      (e : JournalEntry.t) :
  createFallbackJournalEntry ocrData amount date = Returns e ->
  exists merchant,
    resolve_merchant ocrData = Returns (JStr merchant) /\
    let ocrText := Str.toLowerCase (JS.stringify ocrData) in
    let hasVAT := hasVAT_in ocrText in
    let split := vat_split hasVAT amount in
    let class := classify (Str.toLowerCase merchant) ocrText in
    JournalEntry.merchant e = merchant /\
    JournalEntry.date e = date /\
    JournalEntry.totalDebit e = Num.toFixed2 amount /\
    JournalEntry.totalCredit e = Num.toFixed2 amount /\
    JournalEntry.vatBreakdown e =
      {| VatBreakdown.netAmount := Num.toFixed2 (net_of split);
         VatBreakdown.vatAmount := Num.toFixed2 (vat_of split);
         VatBreakdown.grossAmount := Num.toFixed2 amount;
         VatBreakdown.vatRate := rate_of split |} /\
    JournalEntry.entries e =
      ([ {| LedgerLine.type := debit;
            LedgerLine.account := fst class;
            LedgerLine.amount := Num.toFixed2 (net_of split);
            LedgerLine.description := snd class |} ]
       ++ (if hasVAT && Num.gtb (vat_of split) (Fin 0%Q) then
             [ {| LedgerLine.type := debit;
                  LedgerLine.account := "VAT Input Tax";
                  LedgerLine.amount := Num.toFixed2 (vat_of split);
                  LedgerLine.description :=
                    "VAT " ++ toFixed0 (Num.mul (rate_of split) (Fin 100%Q)) ++ "%" |} ]
           else [])
       ++ [ {| LedgerLine.type := credit;
               LedgerLine.account := "Cash/Bank Account";
               LedgerLine.amount := Num.toFixed2 amount;
               LedgerLine.description := "Payment" |} ])%list.
Proof.
  unfold createFallbackJournalEntry.
  destruct (vat_split _ amount) as [[netAmount vatAmount] vatRate] eqn:Hsplit.
  destruct (resolve_merchant ocrData) as [[ | | | merchant | | ] | ]; try discriminate.
  destruct (classify _ _) as [expenseAccount description] eqn:Hclass.
  intros H. injection H as <-.
  exists merchant. split; [reflexivity|].
  cbv zeta. rewrite Hclass. repeat split; reflexivity.
Qed.

Lemma cents_of_hundredths (k : Z) : Num.cents (k # 100) = k.
Proof.
  unfold Num.cents, Num.round_half_away, Qle_bool, Qfloor.
  cbn [Qmult Qplus Qopp Qnum Qden inject_Z].
  destruct (0 * _ <=? _)%Z eqn:E.
  - apply Z.leb_le in E. 
    Z.to_euclidean_division_equations. lia.
  - apply Z.leb_gt in E. Z.to_euclidean_division_equations. lia.
Qed.

Lemma halves_of_238 (k : Z) :
  ((200 * k + 119) / 238 + (38 * k + 119) / 238 = k)%Z.
Proof. Z.to_euclidean_division_equations. lia. Qed.

Lemma cents_split (k : Z) : (0 <= k)%Z ->
  (Num.cents ((k # 100) / 1.19) + Num.cents ((k # 100) - (k # 100) / 1.19) = k)%Z.
Proof.
  intros Hk.
  unfold Num.cents, Num.round_half_away, Qle_bool, Qfloor, Qdiv, Qminus.
  cbn [Qmult Qplus Qopp Qinv Qnum Qden inject_Z].
  rewrite ?Pos2Z.inj_mul.
  repeat match goal with
         | |- context [(?a <=? ?b)%Z] =>
             let E := fresh "E" in
             destruct (a <=? b)%Z eqn:E; [clear E | apply Z.leb_gt in E; lia]
         end.
  replace (k * 100 * 100 * 2 + 1 * (100 * 119 * 1))%Z with ((200 * k + 119) * 100)%Z by lia.
  replace (100 * 119 * 1 * 2)%Z with (238 * 100)%Z by lia.
  replace ((k * (100 * 119) + - (k * 100) * 100) * 100 * 2 + 1 * (100 * (100 * 119) * 1))%Z
    with ((38 * k + 119) * 10000)%Z by lia.
  replace (100 * (100 * 119) * 1 * 2)%Z with (238 * 10000)%Z by lia.
  rewrite !Z.div_mul_cancel_r by lia.
  apply halves_of_238.
Qed.

(** ** VAT policy *)

Lemma vat_split_sum (present : bool) (g : Q) :
  exists n v, net_of (vat_split present (Fin g)) = Fin n /\
              vat_of (vat_split present (Fin g)) = Fin v /\
              (n + v == g)%Q.
Proof.
  destruct present; cbn.
  - eexists; eexists; repeat split. field.
  - eexists; eexists; repeat split. ring.
Qed.



(** ** Ledger lines *)

Lemma vat_line_guard (present : bool) (amount : num) :
  present && Num.gtb (vat_of (vat_split present amount)) (Fin 0%Q)
  = Num.gtb (vat_of (vat_split present amount)) (Fin 0%Q).
Proof. destruct present; reflexivity. Qed.

(** C4.  Whenever the fallback builder returns, its ledger is, in this
    order: one debit line for the net amount (rounded to two decimals) in
    the classified account; one debit line "VAT Input Tax" for the VAT
    amount, present if and only if the computed [vatAmount] is greater
    than 0; one credit line for the gross amount against
    "Cash/Bank Account". *)
Theorem fallback_ledger_lines (ocrData : json) (amount : num) (date : string)
        (e : JournalEntry.t) :
  createFallbackJournalEntry ocrData amount date = Returns e ->
  let ocrText := Str.toLowerCase (JS.stringify ocrData) in
  let split := vat_split (hasVAT_in ocrText) amount in
  exists expense vatLine cash,
    LedgerLine.type expense = debit /\
    LedgerLine.account expense
      = fst (classify (Str.toLowerCase (JournalEntry.merchant e)) ocrText) /\
    LedgerLine.amount expense = Num.toFixed2 (net_of split) /\
    LedgerLine.type vatLine = debit /\
    LedgerLine.account vatLine = "VAT Input Tax" /\
    LedgerLine.amount vatLine = Num.toFixed2 (vat_of split) /\
    LedgerLine.type cash = credit /\
    LedgerLine.account cash = "Cash/Bank Account" /\
    LedgerLine.amount cash = Num.toFixed2 amount /\
    JournalEntry.entries e =
      if Num.gtb (vat_of split) (Fin 0%Q) then [expense; vatLine; cash]
      else [expense; cash].
Proof.
  intros H ocrText split.
  destruct (fallback_returns _ _ _ _ H) as (merchant & _ & Hm & _ & _ & _ & _ & He).
  cbv zeta in He. rewrite vat_line_guard in He.
  rewrite He, Hm. subst split ocrText.
  eexists.
  exists {| LedgerLine.type := debit;
            LedgerLine.account := "VAT Input Tax";
            LedgerLine.amount :=
              Num.toFixed2 (vat_of (vat_split (hasVAT_in (Str.toLowerCase (JS.stringify ocrData))) amount));
            LedgerLine.description :=
              "VAT " ++ toFixed0 (Num.mul (rate_of (vat_split (hasVAT_in (Str.toLowerCase (JS.stringify ocrData))) amount)) (Fin 100%Q)) ++ "%" |}.
  eexists.
  destruct (Num.gtb _ _); cbn [app]; repeat split; reflexivity.
Qed.

Lemma fallback_ledger_lines_witness :
  exists e,
    createFallbackJournalEntry scenario_B (Fin 119%Q) "31/10/2026" = Returns e /\
    map (fun l => (LedgerLine.type l, LedgerLine.account l, LedgerLine.amount l))
        (JournalEntry.entries e)
    = [ (debit, "General Expenses", Fin 100.00%Q);
        (debit, "VAT Input Tax", Fin 19.00%Q);
        (credit, "Cash/Bank Account", Fin 119.00%Q) ].
Proof.
  destruct (createFallbackJournalEntry scenario_B (Fin 119%Q) "31/10/2026")
    as [e | ] eqn:H; [ | vm_compute in H; discriminate H ].
  exists e. split; [reflexivity | ].
  destruct (fallback_ledger_lines _ _ _ _ H)
    as (expense & vatLine & cash & T1 & A1 & M1 & T2 & A2 & M2 & T3 & A3 & M3 & He).
  assert (Hm : JournalEntry.merchant e = "total")
    by (vm_compute in H; injection H as <-; reflexivity).
  rewrite Hm in A1.
  rewrite He. vm_compute Num.gtb. cbn [map].
  rewrite T1, A1, M1, T2, A2, M2, T3, A3, M3.
  vm_compute. reflexivity.
Defined.

(** ** Balance of the ledger *)

(** On a non-negative amount that is a whole number of hundredths, the
    ledger of a fallback entry balances: both totals, the gross amount,
    the sum of the debit lines and the sum of the credit lines are that
    amount. *)
Lemma fallback_balances_on_hundredths (ocrData : json) (k : Z) (date : string)
      (e : JournalEntry.t) :
  (0 <= k)%Z ->
  createFallbackJournalEntry ocrData (Fin (k # 100)) date = Returns e ->
  JournalEntry.totalDebit e = Fin (k # 100) /\
  JournalEntry.totalCredit e = Fin (k # 100) /\
  VatBreakdown.grossAmount (JournalEntry.vatBreakdown e) = Fin (k # 100) /\
  Num.eqb (sum_side debit (JournalEntry.entries e)) (Fin (k # 100)) = true /\
  Num.eqb (sum_side credit (JournalEntry.entries e)) (Fin (k # 100)) = true.
Proof.
  intros Hk H.
  destruct (fallback_returns _ _ _ _ H) as (merchant & _ & _ & _ & Hd & Hc & Hvb & He).
  cbv zeta in *. rewrite vat_line_guard in He.
  assert (Hr : Num.toFixed2 (Fin (k # 100)) = Fin (k # 100))
    by (cbn [Num.toFixed2]; rewrite cents_of_hundredths; reflexivity).
  rewrite Hr in *.
  split; [exact Hd|]. split; [exact Hc|].
  split; [rewrite Hvb; reflexivity|].
  rewrite He. clear He Hvb Hd Hc H.
  destruct (hasVAT_in _); cbn [vat_split net_of vat_of rate_of fst snd Num.div Num.sub].
  - destruct (Num.gtb _ _) eqn:G;
      cbn [app sum_side LedgerLine.type LedgerLine.amount Num.toFixed2 Num.add Num.eqb];
      rewrite ?cents_of_hundredths; split.
    + apply Qeq_bool_iff. pose proof (cents_split k Hk) as S.
      unfold Qeq. cbn [Qplus Qnum Qden]. 
      set (a := Num.cents ((k # 100) / 1.19)) in *.
      set (b := Num.cents ((k # 100) - (k # 100) / 1.19)) in *.
      lia.
    + apply Qeq_bool_iff. unfold Qeq. cbn. lia.
    + apply Qeq_bool_iff.
      assert (k = 0)%Z.
      { unfold Num.gtb, Qle_bool in G. apply negb_false_iff, Z.leb_le in G.
        cbn in G. lia. }
      subst k. vm_compute. reflexivity.
    + apply Qeq_bool_iff. unfold Qeq. cbn. lia.
  - cbn [Num.gtb Qle_bool negb app sum_side LedgerLine.type LedgerLine.amount
         Num.toFixed2 Num.add Num.eqb].
    replace (negb (Qle_bool 0 0)) with false by reflexivity.
    cbn [app sum_side LedgerLine.type LedgerLine.amount Num.toFixed2 Num.add Num.eqb].
    rewrite ?cents_of_hundredths.
    split; apply Qeq_bool_iff; unfold Qeq; cbn; lia.
Qed.

(** C5 (the code at a failing input).  On the OCR document
    [{total: 1.016, note: "VAT"}] the extracted amount is 1.016 and the
    fallback entry has [totalDebit = totalCredit = grossAmount = 1.02] and
    a credit line of 1.02, but its debit lines are 0.85 and 0.16 and sum
    to 1.01: the three amounts are rounded separately. *)
Theorem fallback_unbalanced_on_subcent_amount (date : string) :
  extractAmountFromOCR subcent_total = Fin 1.016%Q /\
  exists e,
    createFallbackJournalEntry subcent_total (extractAmountFromOCR subcent_total) date
      = Returns e /\
    JournalEntry.totalDebit e = Fin 1.02%Q /\
    JournalEntry.totalCredit e = Fin 1.02%Q /\
    VatBreakdown.grossAmount (JournalEntry.vatBreakdown e) = Fin 1.02%Q /\
    map LedgerLine.amount (JournalEntry.entries e)
      = [Fin 0.85%Q; Fin 0.16%Q; Fin 1.02%Q] /\
    Num.eqb (sum_side debit (JournalEntry.entries e)) (Fin 1.01%Q) = true /\
    Num.eqb (sum_side credit (JournalEntry.entries e)) (Fin 1.02%Q) = true /\
    Num.eqb (sum_side debit (JournalEntry.entries e)) (JournalEntry.totalDebit e) = false.
Proof.
  split; [vm_compute; reflexivity|].
  eexists. split; [vm_compute; reflexivity|].
  vm_compute. repeat split; reflexivity.
Qed.

(** ** The default amount *)

(** C7 (the code at a failing input).  The OCR document
    [{establishment: "Test Merchant", note: "hello"}] has no digit in its
    serialization, yet the amount extractor returns [NaN], not 10.00: the
    comma between the two fields matches the amount pattern, and it
    parses to [NaN].  The totals of the fallback entry are then [NaN] and
    do not compare equal. *)
Theorem comma_yields_NaN_amount (date : string) :
  Str.forallb (fun c => negb (Str.is_digit c)) (JS.stringify two_text_fields) = true /\
  Regex.match_all amount_pattern (Str.toLowerCase (JS.stringify two_text_fields)) = [","] /\
  extractAmountFromOCR two_text_fields = NaN /\
  exists e,
    createFallbackJournalEntry two_text_fields (extractAmountFromOCR two_text_fields) date
      = Returns e /\
    JournalEntry.totalDebit e = NaN /\
    JournalEntry.totalCredit e = NaN /\
    balanced_within_cent (Fallback e) = false.
Proof.
  split; [vm_compute; reflexivity|].
  split; [vm_compute; reflexivity|].
  split; [vm_compute; reflexivity|].
  eexists. split; [vm_compute; reflexivity|].
  vm_compute. repeat split; reflexivity.
Qed.

(** Where the serialization has neither a digit nor a comma, nothing
    matches the amount pattern. *)
Lemma match_here_needs_first (a : Regex.atom) (r : Regex.regex) (s : string) :
  (1 <= Regex.lo a)%nat ->
  Regex.run (Regex.cls a) s = 0%nat ->
  Regex.match_here (a :: r) s = None.
Proof.
  intros Hlo Hrun. cbn [Regex.match_here]. unfold Regex.longest. rewrite Hrun.
  assert (E : (match Regex.hi a with Some h => Nat.min h 0 | None => 0 end = 0)%nat)
    by (destruct (Regex.hi a); [apply Nat.min_0_r | reflexivity]).
  rewrite E. cbn [Regex.backtrack].
  destruct (0 <? Regex.lo a)%nat eqn:L; [reflexivity|].
  apply Nat.ltb_ge in L. lia.
Qed.

Lemma search_needs_first (a : Regex.atom) (r : Regex.regex) (s : string) :
  (1 <= Regex.lo a)%nat ->
  Str.forallb (fun c => negb (Regex.cls a c)) s = true ->
  Regex.search (a :: r) s = None.
Proof.
  intros Hlo. induction s as [ | c s IH]; intros Hs.
  - cbn [Regex.search]. rewrite match_here_needs_first by (auto; reflexivity). reflexivity.
  - cbn [Str.forallb] in Hs. apply andb_true_iff in Hs. destruct Hs as [Hc Hs].
    cbn [Regex.search].
    rewrite match_here_needs_first; auto.
    + rewrite (IH Hs). reflexivity.
    + cbn [Regex.run]. apply negb_true_iff in Hc. rewrite Hc. reflexivity.
Qed.

Lemma toLowerCase_keeps_non_letters (p : ascii -> bool) (s : string) :
  (forall c, p (Str.lower_char c) = p c) ->
  Str.forallb p (Str.toLowerCase s) = Str.forallb p s.
Proof.
  intros Hp. induction s as [ | c s IH]; [reflexivity|].
  cbn [Str.toLowerCase Str.forallb]. rewrite Hp, IH. reflexivity.
Qed.

Lemma lower_char_digit_or_comma (c : ascii) :
  negb (is_digit_or_comma (Str.lower_char c)) = negb (is_digit_or_comma c).
Proof.
  destruct c as [[] [] [] [] [] [] [] []]; vm_compute; reflexivity.
Qed.

(** An OCR document with no number under [total] or [totalAmount], no
    parsable string under [total], and neither a digit nor a comma in its
    serialization resolves to the default amount 10.00. *)
Lemma default_amount_without_digit_or_comma (ocrData : json) :
  truthy_number (JS.get ocrData "total") = None ->
  truthy_number (JS.get ocrData "totalAmount") = None ->
  (forall s, truthy_string (JS.get ocrData "total") = Some s ->
             Parse.parseFloat (Regex.remove_all [Regex.one not_digit_or_dot] s) = NaN) ->
  Str.forallb (fun c => negb (is_digit_or_comma c)) (JS.stringify ocrData) = true ->
  extractAmountFromOCR ocrData = Fin 10%Q.
Proof.
  intros H1 H2 H3 H4.
  assert (Hm : Regex.match_all amount_pattern (Str.toLowerCase (JS.stringify ocrData)) = []).
  { unfold Regex.match_all. cbn [Regex.match_all_fuel]. unfold amount_pattern.
    rewrite search_needs_first; [reflexivity | cbn; lia | ].
    cbn [Regex.plus Regex.cls].
    rewrite toLowerCase_keeps_non_letters; [exact H4 | apply lower_char_digit_or_comma]. }
  unfold extractAmountFromOCR.
  destruct ocrData; try reflexivity; rewrite H1, H2;
    (destruct (truthy_string _) as [str | ] eqn:Hs;
     [ rewrite (H3 str eq_refl) | ]; cbn [Num.isNaN negb]; rewrite Hm; reflexivity).
Qed.

Example single_text_field_defaults :
  extractAmountFromOCR (JObj [("establishment", JStr "Test Merchant")]) = Fin 10%Q.
Proof.
  apply default_amount_without_digit_or_comma;
    try (vm_compute; reflexivity).
  intros s Hs. vm_compute in Hs. discriminate Hs.
Qed.

(** ** The category classifier *)

Lemma classify_is_first_matching_rule (merchantLower ocrText : string) :
  classify merchantLower ocrText
  = first_matching_rule classification_rules merchantLower ocrText.
Proof.
  unfold classify, classification_rules. cbn [first_matching_rule].
  repeat (destruct (mentions merchantLower ocrText _); [reflexivity|]).
  reflexivity.
Qed.

Lemma first_matching_rule_earliest
      (rules : list (list string * (string * string))) (m t : string) :
  forall (i : nat) (keywords : list string) (class : string * string),
    nth_error rules i = Some (keywords, class) ->
    mentions m t keywords = true ->
    (forall j kw cl, (j < i)%nat -> nth_error rules j = Some (kw, cl) ->
                     mentions m t kw = false) ->
    first_matching_rule rules m t = class.
Proof.
  induction rules as [ | [kw0 cl0] rules IH]; intros i keywords class Hi Hm Hbefore.
  - destruct i; discriminate Hi.
  - destruct i as [ | i].
    + cbn in Hi. injection Hi as -> ->. cbn [first_matching_rule]. rewrite Hm. reflexivity.
    + cbn [first_matching_rule].
      rewrite (Hbefore 0%nat kw0 cl0 (Nat.lt_0_succ i) eq_refl).
      apply (IH i keywords class Hi Hm).
      intros j kw cl Hj Hn. apply (Hbefore (S j) kw cl); [lia | exact Hn].
Qed.

Lemma first_matching_rule_default
      (rules : list (list string * (string * string))) (m t : string) :
  (forall kw cl, In (kw, cl) rules -> mentions m t kw = false) ->
  first_matching_rule rules m t = default_class.
Proof.
  induction rules as [ | [kw0 cl0] rules IH]; intros Hnone; [reflexivity|].
  cbn [first_matching_rule].
  rewrite (Hnone kw0 cl0 (or_introl eq_refl)).
  apply IH. intros kw cl Hin. apply (Hnone kw cl). right. exact Hin.
Qed.

Lemma expense_account_classified (ocrData : json) (amount : num) (date : string)
      (e : JournalEntry.t) :
  createFallbackJournalEntry ocrData amount date = Returns e ->
  expense_account e
  = Some (fst (classify (Str.toLowerCase (JournalEntry.merchant e))
                        (Str.toLowerCase (JS.stringify ocrData)))).
Proof.
  intros H.
  destruct (fallback_returns _ _ _ _ H) as (merchant & _ & Hm & _ & _ & _ & _ & He).
  unfold expense_account. rewrite He, Hm. reflexivity.
Qed.

(** C8.  The classifier of the fallback builder is order-sensitive.  For
    every entry the builder returns, with [m] the lowercased merchant and
    [t] the lowercased serialized OCR data: a rule of the ordered table
    that matches, while no rule declared before it does, gives the
    expense account, whatever later rules also match; so text containing
    "cafe" classifies to "Meals & Entertainment" even when it also
    contains "office"; and when no rule matches the account is
    "General Expenses". *)
Theorem classifier_first_rule_wins (ocrData : json) (amount : num) (date : string)
        (e : JournalEntry.t) :
  createFallbackJournalEntry ocrData amount date = Returns e ->
  let m := Str.toLowerCase (JournalEntry.merchant e) in
  let t := Str.toLowerCase (JS.stringify ocrData) in
  (forall i keywords class,
      nth_error classification_rules i = Some (keywords, class) ->
      mentions m t keywords = true ->
      (forall j kw cl, (j < i)%nat -> nth_error classification_rules j = Some (kw, cl) ->
                       mentions m t kw = false) ->
      expense_account e = Some (fst class)) /\
  (Str.includes t "cafe" = true -> Str.includes t "office" = true ->
   expense_account e = Some "Meals & Entertainment") /\
  ((forall kw cl, In (kw, cl) classification_rules -> mentions m t kw = false) ->
   expense_account e = Some "General Expenses").
Proof.
  intros H m t.
  rewrite (expense_account_classified _ _ _ _ H). fold m t.
  rewrite classify_is_first_matching_rule.
  split; [ | split ].
  - intros i keywords class Hi Hm Hbefore.
    rewrite (first_matching_rule_earliest _ m t i keywords class Hi Hm Hbefore).
    reflexivity.
  - intros Hcafe _.
    rewrite (first_matching_rule_earliest classification_rules m t 0%nat
               ["restaurant"; "cafe"; "food"]
               ("Meals & Entertainment", "Restaurant/Food expense") eq_refl).
    + reflexivity.
    + unfold mentions. cbn [existsb]. rewrite Hcafe.
      rewrite !orb_true_r. reflexivity.
    + intros j kw cl Hj. lia.
  - intros Hnone. rewrite (first_matching_rule_default _ m t Hnone). reflexivity.
Qed.

Lemma classifier_first_rule_wins_witness :
  exists e,
    createFallbackJournalEntry cafe_and_office (Fin 12.5%Q) "31/10/2026" = Returns e /\
    Str.includes (Str.toLowerCase (JS.stringify cafe_and_office)) "cafe" = true /\
    Str.includes (Str.toLowerCase (JS.stringify cafe_and_office)) "office" = true /\
    expense_account e = Some "Meals & Entertainment".
Proof.
  destruct (createFallbackJournalEntry cafe_and_office (Fin 12.5%Q) "31/10/2026")
    as [e | ] eqn:H; [ | vm_compute in H; discriminate H ].
  exists e. split; [reflexivity | ].
  assert (Hcafe : Str.includes (Str.toLowerCase (JS.stringify cafe_and_office)) "cafe" = true)
    by (vm_compute; reflexivity).
  assert (Hoffice : Str.includes (Str.toLowerCase (JS.stringify cafe_and_office)) "office" = true)
    by (vm_compute; reflexivity).
  split; [exact Hcafe | split; [exact Hoffice | ] ].
  exact (proj1 (proj2 (classifier_first_rule_wins _ _ _ _ H)) Hcafe Hoffice).
Defined.

(** ** The object span of a reply *)

Lemma match_one (p : ascii -> bool) (s : string) :
  Regex.match_here [Regex.one p] s
  = match s with
    | String c _ => if p c then Some 1%nat else None
    | EmptyString => None
    end.
Proof.
  destruct s as [ | c s']; [reflexivity|].
  cbn [Regex.match_here Regex.longest Regex.one Regex.hi Regex.cls Regex.lo Regex.run].
  destruct (p c); [ | reflexivity].
  cbn [Nat.min Regex.backtrack Nat.ltb Nat.leb Str.drop Nat.add]. reflexivity.
Qed.

Lemma backtrack_sound (rest : string -> option nat) (least : nat) (s : string) :
  forall k n,
    Regex.backtrack rest least s k = Some n ->
    exists j m, (least <= j <= k)%nat /\ rest (Str.drop j s) = Some m /\ n = (j + m)%nat /\
                forall j', (j < j' <= k)%nat -> rest (Str.drop j' s) = None.
Proof.
  induction k as [ | k IH]; intros n H; cbn [Regex.backtrack] in H.
  - destruct (0 <? least)%nat eqn:L; [discriminate H|]. apply Nat.ltb_ge in L.
    destruct (rest (Str.drop 0 s)) as [m | ] eqn:R; [ | discriminate H].
    injection H as <-. exists 0%nat, m. repeat split; try lia; auto.
  - destruct (S k <? least)%nat eqn:L; [discriminate H|]. apply Nat.ltb_ge in L.
    destruct (rest (Str.drop (S k) s)) as [m | ] eqn:R.
    + injection H as <-. exists (S k), m. repeat split; try lia; auto.
    + destruct (IH n H) as (j & m & Hj & Hr & Hn & Hlater).
      exists j, m. repeat split; try lia; auto.
      intros j' Hj'. destruct (Nat.eq_dec j' (S k)) as [-> | Hne]; [exact R|].
      apply Hlater. lia.
Qed.

Lemma backtrack_none (rest : string -> option nat) (least : nat) (s : string) :
  forall k, Regex.backtrack rest least s k = None ->
            forall j, (least <= j <= k)%nat -> rest (Str.drop j s) = None.
Proof.
  induction k as [ | k IH]; intros H j Hj; cbn [Regex.backtrack] in H.
  - destruct (0 <? least)%nat eqn:L; [apply Nat.ltb_lt in L; lia|].
    assert (j = 0)%nat by lia. subst j.
    destruct (rest (Str.drop 0 s)); [discriminate H | reflexivity].
  - destruct (S k <? least)%nat eqn:L; [apply Nat.ltb_lt in L; lia|].
    destruct (rest (Str.drop (S k) s)) eqn:R; [discriminate H|].
    destruct (Nat.eq_dec j (S k)) as [-> | Hne]; [exact R|].
    apply (IH H). lia.
Qed.

Lemma take_drop (n : nat) (s : string) : Str.take n s ++ Str.drop n s = s.
Proof.
  revert s. induction n as [ | n IH]; intros s; [reflexivity|].
  destruct s as [ | c s]; [reflexivity|]. cbn [Str.take Str.drop String.append].
  rewrite IH. reflexivity.
Qed.

Lemma drop_drop (a b : nat) (s : string) : Str.drop a (Str.drop b s) = Str.drop (b + a) s.
Proof.
  revert s. induction b as [ | b IH]; intros s; [reflexivity|].
  destruct s as [ | c s]; cbn [Str.drop Nat.add].
  - destruct a; reflexivity.
  - apply IH.
Qed.

Lemma drop_append_length (a b : string) : Str.drop (String.length a) (a ++ b) = b.
Proof. induction a as [ | c a IH]; [reflexivity | exact IH]. Qed.

Lemma take_append_length (a b : string) : Str.take (String.length a) (a ++ b) = a.
Proof.
  induction a as [ | c a IH]; [reflexivity|].
  cbn [String.length String.append Str.take]. rewrite IH. reflexivity.
Qed.

Lemma run_any (s : string) : Regex.run (fun _ => true) s = String.length s.
Proof. induction s as [ | c s IH]; [reflexivity | cbn; rewrite IH; reflexivity]. Qed.

Lemma length_append (a b : string) :
  String.length (a ++ b) = (String.length a + String.length b)%nat.
Proof. induction a as [ | c a IH]; [reflexivity | cbn; rewrite IH; reflexivity]. Qed.

(** No character of [s] is in the class [p] when [p] fails at every offset. *)
Lemma none_at_every_offset (p : ascii -> bool) (s : string) :
  (forall i, (i <= String.length s)%nat ->
             Regex.match_here [Regex.one p] (Str.drop i s) = None) ->
  Str.forallb (fun c => negb (p c)) s = true.
Proof.
  induction s as [ | c s IH]; intros H; [reflexivity|].
  cbn [Str.forallb]. apply andb_true_iff. split.
  - specialize (H 0%nat (Nat.le_0_l _)). cbn [Str.drop] in H. rewrite match_one in H.
    destruct (p c); [discriminate H | reflexivity].
  - apply IH. intros i Hi. apply (H (S i)). cbn [String.length]. lia.
Qed.

(** The tail of the object pattern, [[\s\S]*\}], matches up to the last
    closing brace. *)
Lemma match_to_last (p : ascii -> bool) (s : string) (n : nat) :
  Regex.match_here [Regex.star (fun _ => true); Regex.one p] s = Some n ->
  exists mid c post,
    s = mid ++ String c post /\ p c = true /\
    n = S (String.length mid) /\
    Str.forallb (fun c => negb (p c)) post = true.
Proof.
  change (Regex.match_here [Regex.star (fun _ => true); Regex.one p] s)
    with (Regex.backtrack (Regex.match_here [Regex.one p]) 0 s
                          (Regex.run (fun _ => true) s)).
  rewrite run_any. intros H.
  destruct (backtrack_sound _ _ _ _ _ H) as (j & m & Hj & Hr & Hn & Hlater).
  rewrite match_one in Hr.
  destruct (Str.drop j s) as [ | c post] eqn:D; [discriminate Hr|].
  destruct (p c) eqn:Pc; [ | discriminate Hr]. injection Hr as <-.
  assert (Hs : s = Str.take j s ++ String c post) by (rewrite <- D; symmetry; apply take_drop).
  assert (Hlen : String.length (Str.take j s) = j).
  { apply (f_equal String.length) in Hs. rewrite length_append in Hs.
    cbn [String.length] in Hs.
    assert (String.length (Str.take j s) <= j)%nat.
    { clear. revert s. induction j as [ | j IH]; intros s; [cbn; lia|].
      destruct s; cbn; [lia|]. specialize (IH s). lia. }
    assert (j <= String.length (Str.take j s))%nat; [ | lia].
    clear - D. revert s D. induction j as [ | j IH]; intros s D; [lia|].
    destruct s as [ | c' s]; [discriminate D|]. cbn. specialize (IH s D). lia. }
  exists (Str.take j s), c, post. repeat split; auto.
  - lia.
  - apply none_at_every_offset. intros i Hi.
    assert (E : Str.drop i post = Str.drop (S (j + i)) s).
    { remember (Str.take j s) as mid eqn:Hmid. clear Hmid D Hlater H.
      subst s j.
      replace (S (String.length mid + i)) with (String.length mid + S i)%nat by lia.
      rewrite <- drop_drop. rewrite drop_append_length. reflexivity. }
    rewrite E. apply Hlater.
    apply (f_equal String.length) in Hs. rewrite length_append, Hlen in Hs.
    cbn [String.length] in Hs. lia.
Qed.

Lemma match_object_here (s : string) :
  Regex.match_here object_pattern s
  = match s with
    | String c s' =>
        if is_open_brace c then
          match Regex.match_here [Regex.star (fun _ => true); Regex.one is_close_brace] s' with
          | Some m => Some (S m)
          | None => None
          end
        else None
    | EmptyString => None
    end.
Proof.
  destruct s as [ | c s']; [reflexivity|].
  unfold object_pattern.
  change (Regex.match_here
            (Regex.one (Str.is_char "{")
               :: [Regex.star (fun _ => true); Regex.one (Str.is_char "}")]) (String c s'))
    with (Regex.backtrack
            (Regex.match_here [Regex.star (fun _ => true); Regex.one is_close_brace]) 1
            (String c s') (Nat.min 1 (Regex.run is_open_brace (String c s')))).
  cbn [Regex.run]. destruct (is_open_brace c); [ | reflexivity].
  cbn [Nat.min Regex.backtrack Nat.ltb Nat.leb Str.drop].
  destruct (Regex.match_here _ s'); reflexivity.
Qed.

Lemma forallb_append (p : ascii -> bool) (a b : string) :
  Str.forallb p (a ++ b) = Str.forallb p a && Str.forallb p b.
Proof.
  induction a as [ | c a IH]; [reflexivity|].
  cbn [String.append Str.forallb]. rewrite IH. apply andb_assoc.
Qed.

Lemma no_close_brace_after (s' : string) :
  Regex.match_here [Regex.star (fun _ => true); Regex.one is_close_brace] s' = None ->
  Str.forallb (fun c => negb (is_close_brace c)) s' = true.
Proof.
  change (Regex.match_here [Regex.star (fun _ => true); Regex.one is_close_brace] s')
    with (Regex.backtrack (Regex.match_here [Regex.one is_close_brace]) 0 s'
                          (Regex.run (fun _ => true) s')).
  rewrite run_any. intros H.
  apply none_at_every_offset. intros i Hi.
  apply (backtrack_none _ _ _ _ H). lia.
Qed.

Lemma search_object (s : string) :
  forall i n,
    Regex.search object_pattern s = Some (i, n) ->
    exists pre mid post,
      s = pre ++ String "{" (mid ++ String "}" post) /\
      i = String.length pre /\
      n = S (S (String.length mid)) /\
      Str.forallb (fun c => negb (is_open_brace c)) pre = true /\
      Str.forallb (fun c => negb (is_close_brace c)) post = true.
Proof.
  induction s as [ | c s' IH]; intros i n H.
  - cbn [Regex.search] in H. rewrite match_object_here in H. discriminate H.
  - cbn [Regex.search] in H. rewrite match_object_here in H.
    destruct (is_open_brace c) eqn:Hc.
    + unfold is_open_brace, Str.is_char in Hc. apply Ascii.eqb_eq in Hc. subst c.
      destruct (Regex.match_here _ s') as [m | ] eqn:Hm.
      * injection H as <- <-.
        destruct (match_to_last _ _ _ Hm) as (mid & c & post & Hs & Pc & Hn & Hpost).
        unfold is_close_brace, Str.is_char in Pc. apply Ascii.eqb_eq in Pc. subst c.
        exists EmptyString, mid, post. cbn [String.append String.length].
        repeat split; auto; try (rewrite Hs; reflexivity); try (rewrite Hn; reflexivity).
      * exfalso. apply no_close_brace_after in Hm.
        destruct (Regex.search object_pattern s') as [[i' n'] | ]; [ | discriminate H].
        destruct (IH i' n' eq_refl) as (pre & mid & post & Hs & _).
        rewrite Hs in Hm. rewrite forallb_append in Hm.
        cbn [Str.forallb] in Hm. rewrite forallb_append in Hm. cbn [Str.forallb] in Hm.
        replace (is_close_brace "}") with true in Hm by reflexivity.
        cbn [negb andb] in Hm. rewrite !andb_false_r in Hm. discriminate Hm.
    + destruct (Regex.search object_pattern s') as [[i' n'] | ]; [ | discriminate H].
      cbn [Regex.shift] in H. injection H as <- <-.
      destruct (IH i' n' eq_refl) as (pre & mid & post & Hs & Hi & Hn & Hpre & Hpost).
      exists (String c pre), mid, post. cbn [String.append String.length Str.forallb].
      rewrite Hc, Hpre. repeat split; auto; try (rewrite Hs; reflexivity); try (rewrite Hi; reflexivity).
Qed.

(** The third stage parses the span from the first opening brace of the
    cleaned reply to its last closing brace. *)
Lemma object_span (s m : string) :
  Regex.first_match object_pattern s = Some m ->
  exists pre mid post,
    s = pre ++ m ++ post /\
    m = String "{" (mid ++ "}") /\
    Str.forallb (fun c => negb (is_open_brace c)) pre = true /\
    Str.forallb (fun c => negb (is_close_brace c)) post = true.
Proof.
  unfold Regex.first_match.
  destruct (Regex.search object_pattern s) as [[i n] | ] eqn:Hsearch; [ | discriminate].
  intros H. injection H as <-.
  destruct (search_object _ _ _ Hsearch) as (pre & mid & post & Hs & Hi & Hn & Hpre & Hpost).
  exists pre, mid, post.
  assert (Happ : forall a b : string, a ++ String "}" b = (a ++ "}") ++ b).
  { clear. intros a b. induction a as [ | c a IH]; [reflexivity|].
    cbn [String.append]. rewrite IH. reflexivity. }
  assert (Hm : Str.take n (Str.drop i s) = String "{" (mid ++ "}")).
  { rewrite Hs, Hi, drop_append_length, Hn, Happ.
    change (String "{" ((mid ++ "}") ++ post)) with (String "{" (mid ++ "}") ++ post).
    replace (S (S (String.length mid))) with (String.length (String "{" (mid ++ "}"))).
    - apply take_append_length.
    - cbn [String.length]. rewrite length_append. cbn [String.length]. lia. }
  rewrite Hm. repeat split; auto.
  rewrite Hs, Happ. reflexivity.
Qed.

Lemma backtrack_exact (rest : string -> option nat) (least : nat) (s : string) :
  forall k j m,
    (least <= j <= k)%nat ->
    rest (Str.drop j s) = Some m ->
    (forall j', (j < j' <= k)%nat -> rest (Str.drop j' s) = None) ->
    Regex.backtrack rest least s k = Some (j + m)%nat.
Proof.
  induction k as [ | k IH]; intros j m Hj Hr Hlater; cbn [Regex.backtrack].
  - assert (j = 0)%nat by lia. subst j.
    destruct (0 <? least)%nat eqn:L; [apply Nat.ltb_lt in L; lia|].
    rewrite Hr. reflexivity.
  - destruct (S k <? least)%nat eqn:L; [apply Nat.ltb_lt in L; lia|].
    destruct (Nat.eq_dec j (S k)) as [-> | Hne].
    + rewrite Hr. reflexivity.
    + rewrite (Hlater (S k)) by lia.
      apply IH; [lia | exact Hr | ].
      intros j' Hj'. apply Hlater. lia.
Qed.

Lemma no_match_in (p : ascii -> bool) (post : string) :
  Str.forallb (fun c => negb (p c)) post = true ->
  forall i, Regex.match_here [Regex.one p] (Str.drop i post) = None.
Proof.
  induction post as [ | c post IH]; intros H i.
  - destruct i; reflexivity.
  - cbn [Str.forallb] in H. apply andb_true_iff in H. destruct H as [Hc H].
    destruct i as [ | i]; cbn [Str.drop].
    + rewrite match_one. apply negb_true_iff in Hc. rewrite Hc. reflexivity.
    + apply IH. exact H.
Qed.

Lemma match_to_last_complete (p : ascii -> bool) (mid : string) (c : ascii) (post : string) :
  p c = true ->
  Str.forallb (fun c => negb (p c)) post = true ->
  Regex.match_here [Regex.star (fun _ => true); Regex.one p] (mid ++ String c post)
  = Some (S (String.length mid)).
Proof.
  intros Pc Hpost.
  change (Regex.match_here [Regex.star (fun _ => true); Regex.one p] (mid ++ String c post))
    with (Regex.backtrack (Regex.match_here [Regex.one p]) 0 (mid ++ String c post)
                          (Regex.run (fun _ => true) (mid ++ String c post))).
  rewrite run_any, length_append. cbn [String.length].
  replace (S (String.length mid)) with (String.length mid + 1)%nat by lia.
  apply backtrack_exact.
  - lia.
  - rewrite drop_append_length, match_one, Pc. reflexivity.
  - intros j' Hj'.
    replace j' with (String.length mid + S (j' - S (String.length mid)))%nat by lia.
    rewrite <- drop_drop, drop_append_length. cbn [Str.drop].
    apply no_match_in. exact Hpost.
Qed.

Lemma search_object_complete (pre mid post : string) :
  Str.forallb (fun c => negb (is_open_brace c)) pre = true ->
  Str.forallb (fun c => negb (is_close_brace c)) post = true ->
  Regex.search object_pattern (pre ++ String "{" (mid ++ String "}" post))
  = Some (String.length pre, S (S (String.length mid))).
Proof.
  intros Hpre Hpost. induction pre as [ | c pre IH].
  - cbn [String.append String.length Regex.search]. rewrite match_object_here.
    replace (is_open_brace "{") with true by reflexivity.
    rewrite (match_to_last_complete is_close_brace mid "}" post eq_refl Hpost).
    reflexivity.
  - cbn [Str.forallb] in Hpre. apply andb_true_iff in Hpre. destruct Hpre as [Hc Hpre].
    cbn [String.append String.length Regex.search]. rewrite match_object_here.
    apply negb_true_iff in Hc. rewrite Hc. rewrite (IH Hpre). reflexivity.
Qed.

(** An object between prose that has no opening brace before it and no
    closing brace after it is the span found by the third stage. *)
Lemma object_span_complete (pre mid post : string) :
  Str.forallb (fun c => negb (is_open_brace c)) pre = true ->
  Str.forallb (fun c => negb (is_close_brace c)) post = true ->
  Regex.first_match object_pattern (pre ++ String "{" (mid ++ String "}" post))
  = Some (String "{" (mid ++ "}")).
Proof.
  intros Hpre Hpost. unfold Regex.first_match.
  rewrite (search_object_complete pre mid post Hpre Hpost).
  rewrite drop_append_length.
  assert (Happ : String "{" (mid ++ String "}" post) = String "{" (mid ++ "}") ++ post).
  { cbn [String.append]. f_equal.
    clear. induction mid as [ | c mid IH]; [reflexivity|].
    cbn [String.append]. rewrite IH. reflexivity. }
  rewrite Happ.
  replace (S (S (String.length mid))) with (String.length (String "{" (mid ++ "}"))).
  - rewrite take_append_length. reflexivity.
  - cbn [String.length]. rewrite length_append. cbn [String.length]. lia.
Qed.

Lemma remove_all_nothing (r : Regex.regex) (s : string) :
  Regex.search r s = None -> Regex.remove_all r s = s.
Proof.
  intros H. unfold Regex.remove_all. cbn [Regex.remove_all_fuel]. rewrite H. reflexivity.
Qed.

(** A reply without a backtick is left as it is by the cleaning. *)
Lemma cleaned_without_backtick (response : string) :
  Str.forallb (fun c => negb (is_backtick c)) response = true ->
  cleanedResponse response = response.
Proof.
  intros H. unfold cleanedResponse.
  assert (H1 : Regex.remove_all fence_json_pattern response = response).
  { apply remove_all_nothing. unfold fence_json_pattern. cbn [Regex.lit app].
    apply search_needs_first; [cbn; lia | exact H]. }
  rewrite H1.
  apply remove_all_nothing. unfold fence_pattern. cbn [Regex.lit app].
  apply search_needs_first; [cbn; lia | exact H].
Qed.

(** ** The orchestrator *)

Section EngineProperties.

Variable Date_en_GB : json -> option string.
Variable today : string.
Variable JSON_parse : string -> option json.

Lemma parse_response_returns (response : string) (v : json) :
  parse_response JSON_parse response = Returns v <-> first_success JSON_parse response v.
Proof.
  unfold parse_response, first_success, stage1, stage2, stage3.
  destruct (JSON_parse response) as [v1 | ].
  - split.
    + intros H. injection H as <-. left. reflexivity.
    + intros [H | [[H _] | [H _]]]; try discriminate H. injection H as <-. reflexivity.
  - destruct (JSON_parse (cleanedResponse response)) as [v2 | ].
    + split.
      * intros H. injection H as <-. right. left. split; reflexivity.
      * intros [H | [[_ H] | [_ [H _]]]]; try discriminate H.
        injection H as <-. reflexivity.
    + destruct (Regex.first_match object_pattern (cleanedResponse response)) as [m | ].
      * destruct (JSON_parse m) as [v3 | ].
        -- split.
           ++ intros H. injection H as <-. right. right. repeat split; reflexivity.
           ++ intros [H | [[_ H] | [_ [_ H]]]]; try discriminate H.
              injection H as <-. reflexivity.
        -- split; [intros H; discriminate H | ].
           intros [H | [[_ H] | [_ [_ H]]]]; discriminate H.
      * split; [intros H; discriminate H | ].
        intros [H | [[_ H] | [_ [_ H]]]]; discriminate H.
Qed.

Lemma parse_response_throws (response : string) :
  parse_response JSON_parse response = Throws <->
  stage1 JSON_parse response = None /\ stage2 JSON_parse response = None /\ stage3 JSON_parse response = None.
Proof.
  unfold parse_response, stage1, stage2, stage3.
  destruct (JSON_parse response) as [v1 | ].
  - split; [intros H; discriminate H | intros [H _]; discriminate H].
  - destruct (JSON_parse (cleanedResponse response)) as [v2 | ].
    + split; [intros H; discriminate H | intros [_ [H _]]; discriminate H].
    + destruct (Regex.first_match object_pattern (cleanedResponse response)) as [m | ].
      * destruct (JSON_parse m) as [v3 | ].
        -- split; [intros H; discriminate H | intros [_ [_ H]]; discriminate H].
        -- split; intros _; repeat split; reflexivity.
      * split; intros _; repeat split; reflexivity.
Qed.

Lemma generated_is_returned (ocrData : json) (completion : option string) (v : json) :
  generative_path JSON_parse completion = Returns v ->
  generateJournalEntry Date_en_GB today JSON_parse ocrData completion = Returns (Generated v).
Proof.
  intros H. unfold generateJournalEntry. rewrite H. reflexivity.
Qed.

Lemma fallback_is_taken (ocrData : json) (completion : option string) :
  generative_path JSON_parse completion = Throws ->
  generateJournalEntry Date_en_GB today JSON_parse ocrData completion
  = match createFallbackJournalEntry ocrData (extractAmountFromOCR ocrData)
            (fallbackDate Date_en_GB today ocrData) with
    | Returns e => Returns (Fallback e)
    | Throws => Throws
    end.
Proof.
  intros H. unfold generateJournalEntry, fallback_path. rewrite H. reflexivity.
Qed.


(** C10.  Whenever one of the three parsing stages succeeds on the
    model's reply, [generateJournalEntry] returns exactly the value that
    the first successful stage parsed, whatever it is: nothing checks
    its balance, its fields or its shape. *)
Theorem parsed_reply_returned_unchanged
        (ocrData : json) (response : string) (v : json) :
  first_success JSON_parse response v ->
  generateJournalEntry Date_en_GB today JSON_parse ocrData (Some response) = Returns (Generated v).
Proof.
  intros H. apply generated_is_returned. cbn [generative_path].
  apply parse_response_returns. exact H.
Qed.

End EngineProperties.


Lemma parsed_reply_returned_unchanged_witness :
  first_success JSONText.parse (Str.dq "{'totalDebit':119,'totalCredit':100}") unbalanced_reply /\
  generateJournalEntry iso_date "01/11/2026" JSONText.parse scenario_A
    (Some (Str.dq "{'totalDebit':119,'totalCredit':100}"))
  = Returns (Generated unbalanced_reply).
Proof.
  assert (H : first_success JSONText.parse (Str.dq "{'totalDebit':119,'totalCredit':100}")
                            unbalanced_reply)
    by (left; vm_compute; reflexivity).
  split; [exact H | ].
  exact (parsed_reply_returned_unchanged iso_date "01/11/2026" JSONText.parse
           scenario_A _ _ H).
Defined.

(** ** Balance of what the orchestrator returns *)

(** C1 (counterexample).  The model replies with an object whose totals
    are 119 and 100; the orchestrator returns that object as it is, and
    its totals differ by more than 0.01. *)
Lemma unbalanced_reply_is_returned :
  generateJournalEntry iso_date "01/11/2026" JSONText.parse scenario_A
    (Some (Str.dq "{'totalDebit':119,'totalCredit':100}"))
  = Returns (Generated unbalanced_reply) /\
  totalDebit_of (Generated unbalanced_reply) = Some (Fin 119%Q) /\
  totalCredit_of (Generated unbalanced_reply) = Some (Fin 100%Q) /\
  balanced_within_cent (Generated unbalanced_reply) = false.
Proof. vm_compute. repeat split; reflexivity. Qed.

Lemma within_self (q : Q) : Num.within 0.01%Q (Fin q) (Fin q) = true.
Proof.
  cbn [Num.within]. apply Qle_bool_iff.
  apply Qabs_Qle_condition. split; lra.
Qed.

(** C1 (amended).  When the generative path fails and the fallback
    builder returns an entry, the two totals of that entry are the same
    number, the extracted amount rounded to two decimals, provided the
    extracted amount is a number; when the generative path parses a
    reply, the parsed value is returned as it is, with no balance or
    required-field check. *)
Theorem fallback_totals_equal_generated_unchecked
        (Date_en_GB : json -> option string) (today : string)
        (JSON_parse : string -> option json)
        (ocrData : json) (completion : option string) :
  (forall e g,
      generateJournalEntry Date_en_GB today JSON_parse ocrData completion
      = Returns (Fallback e) ->
      extractAmountFromOCR ocrData = Fin g ->
      JournalEntry.totalDebit e = Num.toFixed2 (Fin g) /\
      JournalEntry.totalCredit e = Num.toFixed2 (Fin g) /\
      balanced_within_cent (Fallback e) = true) /\
  (forall v,
      generative_path JSON_parse completion = Returns v ->
      generateJournalEntry Date_en_GB today JSON_parse ocrData completion
      = Returns (Generated v)).
Proof.
  split.
  - intros e g H Hg. unfold generateJournalEntry in H.
    destruct (generative_path JSON_parse completion); [discriminate H|].
    unfold fallback_path in H. rewrite Hg in H.
    destruct (createFallbackJournalEntry _ _ _) as [e' | ] eqn:He; [ | discriminate H].
    injection H as <-.
    destruct (fallback_returns _ _ _ _ He) as (merchant & _ & _ & _ & Hd & Hc & _).
    split; [exact Hd | split; [exact Hc | ] ].
    unfold balanced_within_cent, totalDebit_of, totalCredit_of.
    rewrite Hd, Hc. cbn [Num.toFixed2]. apply within_self.
  - intros v H. apply generated_is_returned. exact H.
Qed.

Lemma fallback_totals_equal_generated_unchecked_witness :
  exists e,
    generateJournalEntry iso_date "01/11/2026" JSONText.parse scenario_A (Some "sorry")
    = Returns (Fallback e) /\
    extractAmountFromOCR scenario_A = Fin 25.50%Q /\
    JournalEntry.totalDebit e = Fin 25.50%Q /\
    JournalEntry.totalCredit e = Fin 25.50%Q.
Proof.
  destruct (generateJournalEntry iso_date "01/11/2026" JSONText.parse scenario_A (Some "sorry"))
    as [[v | e] | ] eqn:H; try (vm_compute in H; discriminate H).
  exists e. split; [reflexivity | ].
  assert (Hg : extractAmountFromOCR scenario_A = Fin 25.50%Q) by (vm_compute; reflexivity).
  split; [exact Hg | ].
  destruct (proj1 (fallback_totals_equal_generated_unchecked
                     iso_date "01/11/2026" JSONText.parse scenario_A (Some "sorry"))
                  e _ H Hg) as (Hd & Hc & _).
  rewrite Hd, Hc. split; vm_compute; reflexivity.
Defined.

(** ** Totality of the fallback *)

(** C2 (the code at a failing input).  On the OCR document
    [{establishment: 42}] the merchant is the number 42, which has no
    [toLowerCase] method: the fallback builder throws, inside the [catch]
    block, so [generateJournalEntry] fails whenever the generative path
    fails. *)
Theorem fallback_throws_on_numeric_merchant
        (Date_en_GB : json -> option string) (today : string)
        (JSON_parse : string -> option json) :
  resolve_merchant numeric_merchant = Returns (JNum {| dmant := 42; dscale := 0 |}) /\
  (forall amount date, createFallbackJournalEntry numeric_merchant amount date = Throws) /\
  generateJournalEntry Date_en_GB today JSON_parse numeric_merchant None = Throws /\
  generateJournalEntry Date_en_GB today JSONText.parse numeric_merchant (Some "Sorry, no JSON")
  = Throws.
Proof.
  assert (Hb : forall amount date,
             createFallbackJournalEntry numeric_merchant amount date = Throws).
  { intros amount date. unfold createFallbackJournalEntry.
    destruct (vat_split _ amount) as [[n v] r]. reflexivity. }
  split; [reflexivity | ].
  split; [exact Hb | ].
  split.
  - unfold generateJournalEntry, fallback_path. cbn [generative_path]. rewrite Hb. reflexivity.
  - unfold generateJournalEntry, fallback_path.
    replace (generative_path JSONText.parse (Some "Sorry, no JSON")) with (@Throws json)
      by (vm_compute; reflexivity).
    rewrite Hb. reflexivity.
Qed.

(** The fallback builder returns exactly when the merchant resolves to a
    string, which is the case of every non-null OCR document whose
    merchant fields are strings or falsy. *)
Lemma fallback_returns_iff_string_merchant (ocrData : json) (amount : num) (date : string) :
  (exists e, createFallbackJournalEntry ocrData amount date = Returns e) <->
  (exists merchant, resolve_merchant ocrData = Returns (JStr merchant)).
Proof.
  split.
  - intros [e H]. destruct (fallback_returns _ _ _ _ H) as (merchant & Hm & _).
    exists merchant. exact Hm.
  - intros [merchant Hm]. unfold createFallbackJournalEntry. rewrite Hm.
    destruct (vat_split _ amount) as [[n v] r].
    destruct (classify _ _) as [a d]. eexists. reflexivity.
Qed.

(** A merchant taken from the patterns or left at its default is a string. *)
Lemma unstructured_merchant_is_string (ocrData : json) :
  ocrData <> JNull ->
  JS.truthy (JS.or (JS.or (JS.get ocrData "establishment") (JS.get ocrData "merchantName"))
                   (JS.get ocrData "vendor")) = false ->
  exists merchant, resolve_merchant ocrData = Returns (JStr merchant).
Proof.
  intros Hnull Hf. unfold resolve_merchant.
  destruct ocrData; try contradiction;
    (destruct (JS.or _ _) as [v | ]; [rewrite Hf | ]; eexists; reflexivity).
Qed.

(** ** Dependence on the day of the call *)

Lemma fallback_entry_date (ocrData : json) (amount : num) (d1 d2 : string) :
  createFallbackJournalEntry ocrData amount d2
  = match createFallbackJournalEntry ocrData amount d1 with
    | Returns e => Returns (with_date d2 e)
    | Throws => Throws
    end.
Proof.
  unfold createFallbackJournalEntry.
  destruct (vat_split _ amount) as [[n v] r].
  destruct (resolve_merchant ocrData) as [[ | | | merchant | | ] | ]; try reflexivity.
  destruct (classify _ _) as [a d]. reflexivity.
Qed.

(** C9 (counterexample).  The same OCR document, without a date, on two
    different days: the fallback derivation returns two different
    entries. *)
Lemma fallback_differs_across_days :
  fallback_path iso_date "01/11/2026" scenario_A
  <> fallback_path iso_date "02/11/2026" scenario_A.
Proof. vm_compute. intros H. discriminate H. Qed.

(** C9 (amended).  The fallback derivation is a function of the OCR
    document, the configuration and the day of the call, and the day
    only reaches the [date] field: two invocations on the same document
    throw together or return entries that are equal up to their date,
    and they are equal altogether when a non-empty date is extracted
    from the document. *)
Theorem fallback_depends_on_day_through_date_only
        (Date_en_GB : json -> option string) (today1 today2 : string) (ocrData : json) :
  fallback_path Date_en_GB today2 ocrData
  = match fallback_path Date_en_GB today1 ocrData with
    | Returns e => Returns (with_date (fallbackDate Date_en_GB today2 ocrData) e)
    | Throws => Throws
    end /\
  (forall d, extractDateFromOCR Date_en_GB ocrData = Some d -> d <> "" ->
             fallback_path Date_en_GB today1 ocrData
             = fallback_path Date_en_GB today2 ocrData).
Proof.
  split.
  - unfold fallback_path. apply fallback_entry_date.
  - intros d Hd Hne. unfold fallback_path, fallbackDate. rewrite Hd.
    destruct (String.eqb d "") eqn:E; [ | reflexivity].
    apply String.eqb_eq in E. contradiction.
Qed.

Lemma fallback_depends_on_day_through_date_only_witness :
  extractDateFromOCR iso_date dated_receipt = Some "31/10/2026" /\
  "31/10/2026" <> "" /\
  fallback_path iso_date "01/11/2026" dated_receipt
  = fallback_path iso_date "02/11/2026" dated_receipt.
Proof.
  assert (Hd : extractDateFromOCR iso_date dated_receipt = Some "31/10/2026")
    by (vm_compute; reflexivity).
  assert (Hne : "31/10/2026" <> "") by (intros H; discriminate H).
  split; [exact Hd | split; [exact Hne | ] ].
  exact (proj2 (fallback_depends_on_day_through_date_only
                  iso_date "01/11/2026" "02/11/2026" dated_receipt) _ Hd Hne).
Defined.

(** ** The scenarios of the specification *)

(** Scenario A: [{total: 25.50, establishment: "Test Merchant"}], no VAT
    token. *)
Example scenario_A_entry (date : string) :
  exists e,
    createFallbackJournalEntry scenario_A (extractAmountFromOCR scenario_A) date
      = Returns e /\
    map (fun l => (LedgerLine.type l, LedgerLine.account l, LedgerLine.amount l))
        (JournalEntry.entries e)
    = [ (debit, "General Expenses", Fin 25.50%Q);
        (credit, "Cash/Bank Account", Fin 25.50%Q) ] /\
    VatBreakdown.vatRate (JournalEntry.vatBreakdown e) = Fin 0%Q /\
    JournalEntry.totalDebit e = Fin 25.50%Q /\
    JournalEntry.totalCredit e = Fin 25.50%Q.
Proof.
  eexists. split; [vm_compute; reflexivity | ].
  vm_compute. repeat split; reflexivity.
Qed.

(** Scenario D: a reply that is not JSON leads to the fallback entry. *)
Example scenario_D_falls_back :
  exists e,
    generateJournalEntry iso_date "01/11/2026" JSONText.parse scenario_A
      (Some "I cannot read this receipt.")
    = Returns (Fallback e) /\
    JournalEntry.date e = "01/11/2026" /\
    JournalEntry.totalDebit e = Fin 25.50%Q /\
    JournalEntry.totalCredit e = Fin 25.50%Q.
Proof.
  eexists. split; [vm_compute; reflexivity | ].
  vm_compute. repeat split; reflexivity.
Qed.

(** Scenario E on a document with a single text field: the amount is
    the default and the entry balances on it. *)
Example scenario_E_single_field (date : string) :
  exists e,
    createFallbackJournalEntry (JObj [("establishment", JStr "Test Merchant")])
      (extractAmountFromOCR (JObj [("establishment", JStr "Test Merchant")])) date
    = Returns e /\
    JournalEntry.totalDebit e = Fin 10.00%Q /\
    JournalEntry.totalCredit e = Fin 10.00%Q /\
    Num.eqb (sum_side debit (JournalEntry.entries e)) (Fin 10%Q) = true /\
    Num.eqb (sum_side credit (JournalEntry.entries e)) (Fin 10%Q) = true.
Proof.
  eexists. split; [vm_compute; reflexivity | ].
  vm_compute. repeat split; reflexivity.
Qed.

(* ================================================================== *)
(** * Further properties of the engine *)

(** ** Strings and matches *)

Lemma forallb_weaken (p q : ascii -> bool) (s : string) :
  (forall c, p c = true -> q c = true) ->
  Str.forallb p s = true -> Str.forallb q s = true.
Proof.
  intros Hpq. induction s as [ | c s IH]; [reflexivity|].
  cbn [Str.forallb]. intros H. apply andb_true_iff in H. destruct H as [Hc Hs].
  rewrite (Hpq c Hc), (IH Hs). reflexivity.
Qed.

Lemma forallb_take (p : ascii -> bool) (n : nat) (s : string) :
  Str.forallb p s = true -> Str.forallb p (Str.take n s) = true.
Proof.
  revert s. induction n as [ | n IH]; intros s H; [reflexivity|].
  destruct s as [ | c s]; [reflexivity|].
  cbn [Str.forallb Str.take] in *. apply andb_true_iff in H. destruct H as [Hc Hs].
  rewrite Hc, (IH s Hs). reflexivity.
Qed.

Lemma forallb_drop (p : ascii -> bool) (n : nat) (s : string) :
  Str.forallb p s = true -> Str.forallb p (Str.drop n s) = true.
Proof.
  revert s. induction n as [ | n IH]; intros s H; [exact H|].
  destruct s as [ | c s]; [reflexivity|].
  cbn [Str.forallb Str.drop] in *. apply andb_true_iff in H. destruct H as [Hc Hs].
  apply IH. exact Hs.
Qed.

Lemma length_take_le (n : nat) (s : string) : (String.length (Str.take n s) <= n)%nat.
Proof.
  revert s. induction n as [ | n IH]; intros s; [cbn; lia|].
  destruct s as [ | c s]; cbn [Str.take String.length]; [lia|]. specialize (IH s). lia.
Qed.

Lemma length_take_drop (n : nat) (s : string) :
  (String.length (Str.take n s) + String.length (Str.drop n s) = String.length s)%nat.
Proof.
  rewrite <- length_append, take_drop. reflexivity.
Qed.

Lemma take_add (a b : nat) (s : string) :
  Str.take (a + b) s = Str.take a s ++ Str.take b (Str.drop a s).
Proof.
  revert s. induction a as [ | a IH]; intros s; [reflexivity|].
  destruct s as [ | c s]; cbn [Nat.add Str.take Str.drop String.append].
  - destruct b; reflexivity.
  - rewrite IH. reflexivity.
Qed.

Lemma run_take (p : ascii -> bool) (s : string) (k : nat) :
  (k <= Regex.run p s)%nat -> Str.forallb p (Str.take k s) = true.
Proof.
  revert s. induction k as [ | k IH]; intros s Hk; [reflexivity|].
  destruct s as [ | c s]; [reflexivity|].
  cbn [Regex.run] in Hk. cbn [Str.take Str.forallb].
  destruct (p c); [ | lia]. cbn [andb]. apply IH. lia.
Qed.

Lemma longest_le_run (a : Regex.atom) (s : string) :
  (Regex.longest a s <= Regex.run (Regex.cls a) s)%nat.
Proof. unfold Regex.longest. destruct (Regex.hi a); lia. Qed.

(** The character classes a pattern is made of. *)
Lemma match_here_in_classes (r : Regex.regex) :
  forall s n,
    Regex.match_here r s = Some n ->
    Str.forallb (fun c => existsb (fun a => Regex.cls a c) r) (Str.take n s) = true.
Proof.
  induction r as [ | a r IH]; intros s n H.
  - cbn in H. injection H as <-. reflexivity.
  - cbn [Regex.match_here] in H.
    destruct (backtrack_sound _ _ _ _ _ H) as (j & m & Hj & Hr & -> & _).
    rewrite take_add, forallb_append. apply andb_true_iff. split.
    + apply (forallb_weaken (Regex.cls a)).
      * intros c Hc. cbn [existsb]. rewrite Hc. reflexivity.
      * apply run_take. pose proof (longest_le_run a s). lia.
    + apply (forallb_weaken (fun c => existsb (fun a0 => Regex.cls a0 c) r)).
      * intros c Hc. cbn [existsb]. rewrite Hc. apply orb_true_r.
      * apply IH. exact Hr.
Qed.

Lemma search_sound (r : Regex.regex) (s : string) :
  forall i n, Regex.search r s = Some (i, n) ->
              Regex.match_here r (Str.drop i s) = Some n /\ (i <= String.length s)%nat.
Proof.
  induction s as [ | c s IH]; intros i n H; cbn [Regex.search] in H.
  - destruct (Regex.match_here r "") as [n0 | ] eqn:E; [ | discriminate H].
    injection H as <- <-. split; [exact E | cbn; lia].
  - destruct (Regex.match_here r (String c s)) as [n0 | ] eqn:E.
    + injection H as <- <-. split; [exact E | cbn; lia].
    + destruct (Regex.search r s) as [[i' n'] | ]; [ | discriminate H].
      cbn [Regex.shift] in H. injection H as <- <-.
      destruct (IH i' n' eq_refl) as [Hm Hi]. split; [exact Hm | cbn; lia].
Qed.

(** Every match returned by a global search is made of characters of the
    classes of the pattern. *)
Lemma match_all_in_classes (r : Regex.regex) (s m : string) :
  In m (Regex.match_all r s) ->
  Str.forallb (fun c => existsb (fun a => Regex.cls a c) r) m = true.
Proof.
  unfold Regex.match_all. generalize (S (String.length s)) as fuel.
  intros fuel. revert s. induction fuel as [ | fuel IH]; intros s H; [contradiction|].
  cbn [Regex.match_all_fuel] in H.
  destruct (Regex.search r s) as [[i n] | ] eqn:Hs; [ | contradiction].
  destruct (search_sound _ _ _ _ Hs) as [Hm _].
  destruct H as [<- | H].
  - apply match_here_in_classes. exact Hm.
  - destruct n as [ | n]; [destruct (Str.drop i s) as [ | c rest] | ].
    + contradiction.
    + apply (IH _ H).
    + apply (IH _ H).
Qed.

(** What [replace] leaves is made of characters of the subject, no more
    of them. *)
Lemma remove_all_fuel_keeps (p : ascii -> bool) (r : Regex.regex) :
  forall fuel s,
    Str.forallb p s = true -> Str.forallb p (Regex.remove_all_fuel fuel r s) = true.
Proof.
  induction fuel as [ | fuel IH]; intros s H; [exact H|].
  cbn [Regex.remove_all_fuel].
  destruct (Regex.search r s) as [[i n] | ]; [ | exact H].
  rewrite forallb_append, (forallb_take p i s H). cbn [andb].
  pose proof (forallb_drop p i s H) as Hd.
  destruct n as [ | n]; [destruct (Str.drop i s) as [ | c rest] eqn:E | ].
  - reflexivity.
  - cbn [Str.forallb] in *. apply andb_true_iff in Hd. destruct Hd as [Hc Hrest].
    rewrite Hc, (IH rest Hrest). reflexivity.
  - apply IH. apply forallb_drop. exact Hd.
Qed.

Lemma remove_all_keeps (p : ascii -> bool) (r : Regex.regex) (s : string) :
  Str.forallb p s = true -> Str.forallb p (Regex.remove_all r s) = true.
Proof. apply remove_all_fuel_keeps. Qed.

Lemma remove_all_fuel_length (r : Regex.regex) :
  forall fuel s, (String.length (Regex.remove_all_fuel fuel r s) <= String.length s)%nat.
Proof.
  induction fuel as [ | fuel IH]; intros s; [cbn; lia|].
  cbn [Regex.remove_all_fuel].
  destruct (Regex.search r s) as [[i n] | ]; [ | lia].
  rewrite length_append. pose proof (length_take_drop i s) as Hl.
  destruct n as [ | n]; [destruct (Str.drop i s) as [ | c rest] eqn:E | ].
  - cbn [String.length] in *. lia.
  - cbn [String.length] in *. specialize (IH rest). lia.
  - specialize (IH (Str.drop (S n) (Str.drop i s))).
    pose proof (length_take_drop (S n) (Str.drop i s)). lia.
Qed.

Lemma search_one (p : ascii -> bool) (s : string) :
  match Regex.search [Regex.one p] s with
  | Some (i, n) =>
      n = 1%nat /\ Str.forallb (fun c => negb (p c)) (Str.take i s) = true /\
      exists c rest, Str.drop i s = String c rest /\ p c = true
  | None => Str.forallb (fun c => negb (p c)) s = true
  end.
Proof.
  induction s as [ | c s IH]; cbn [Regex.search]; rewrite match_one.
  - reflexivity.
  - destruct (p c) eqn:Pc.
    + split; [reflexivity | split; [reflexivity | ] ].
      exists c, s. split; [reflexivity | exact Pc].
    + destruct (Regex.search [Regex.one p] s) as [[i n] | ]; cbn [Regex.shift].
      * destruct IH as (Hn & Hpre & Hc). split; [exact Hn | split; [ | exact Hc] ].
        cbn [Str.take Str.forallb]. rewrite Pc, Hpre. reflexivity.
      * cbn [Str.forallb]. rewrite Pc, IH. reflexivity.
Qed.

(** Removing every character of a class leaves none of them. *)
Lemma remove_all_one_fuel (p : ascii -> bool) :
  forall fuel s,
    (String.length s < fuel)%nat ->
    Str.forallb (fun c => negb (p c)) (Regex.remove_all_fuel fuel [Regex.one p] s) = true.
Proof.
  induction fuel as [ | fuel IH]; intros s Hlen; [lia|].
  cbn [Regex.remove_all_fuel].
  pose proof (search_one p s) as Hs.
  destruct (Regex.search [Regex.one p] s) as [[i n] | ]; [ | exact Hs].
  destruct Hs as (-> & Hpre & c & rest & Hd & Pc).
  rewrite forallb_append, Hpre, Hd. cbn [andb Str.drop].
  apply IH. pose proof (length_take_drop i s) as Hl. rewrite Hd in Hl.
  cbn [String.length] in Hl. lia.
Qed.

Lemma remove_all_one (p : ascii -> bool) (s : string) :
  Str.forallb (fun c => negb (p c)) (Regex.remove_all [Regex.one p] s) = true.
Proof. apply remove_all_one_fuel. lia. Qed.

(** ** Amounts read from text *)

Lemma digits_value_from_nonneg (s : string) :
  forall acc, (0 <= acc)%Z -> (0 <= Parse.digits_value_from acc s)%Z.
Proof.
  induction s as [ | c s IH]; intros acc Hacc; [exact Hacc|].
  cbn [Parse.digits_value_from]. apply IH. unfold Parse.digit_value. lia.
Qed.

Lemma decimal_nonneg (ip fp : string) (e : Z) :
  (0 <= dmant (Parse.decimal false ip fp e))%Z.
Proof.
  unfold Parse.decimal.
  pose proof (digits_value_from_nonneg (ip ++ fp) 0 (Z.le_refl 0)) as Hm.
  fold (Parse.digits_value (ip ++ fp)) in Hm.
  destruct (0 <=? _)%Z; cbn [dmant]; [exact Hm|].
  apply Z.mul_nonneg_nonneg; [exact Hm | apply Z.pow_nonneg; lia].
Qed.

Lemma value_nonneg (d : dec) : (0 <= dmant d)%Z -> (0 <= Dec.value d)%Q.
Proof.
  intros H. unfold Dec.value. destruct (dscale d); unfold Qle; cbn; lia.
Qed.

Lemma scan_decimal_nonneg (s : string) (d : dec) (rest : string) :
  Parse.scan_decimal false s = Some (d, rest) -> (0 <= dmant d)%Z.
Proof.
  unfold Parse.scan_decimal.
  destruct (Parse.span Str.is_digit s) as [ip s1].
  destruct (match s1 with String "." t => Parse.span Str.is_digit t | _ => (EmptyString, s1) end)
    as [fp s2].
  destruct (String.eqb ip "" && String.eqb fp ""); [discriminate|].
  destruct (Parse.exponent s2) as [e s3].
  intros H. injection H as <- _. apply decimal_nonneg.
Qed.

Lemma trimStart_keeps (p : ascii -> bool) (s : string) :
  Str.forallb p s = true -> Str.forallb p (Str.trimStart s) = true.
Proof.
  induction s as [ | c s IH]; [reflexivity|].
  intros H. cbn [Str.trimStart]. destruct (Str.is_space c); [ | exact H].
  cbn [Str.forallb] in H. apply andb_true_iff in H. apply IH. apply H.
Qed.

(** A string without a minus sign never parses to a negative number. *)
Lemma parseFloat_nonneg (s : string) :
  Str.forallb (fun c => negb (Str.is_char "-" c)) s = true ->
  nonneg_or_NaN (Parse.parseFloat s).
Proof.
  intros H. unfold Parse.parseFloat.
  pose proof (trimStart_keeps _ s H) as Ht.
  destruct (Str.trimStart s) as [ | c t] eqn:E.
  - cbn. exact I.
  - assert (Hc : Str.is_char "-" c = false).
    { cbn [Str.forallb] in Ht. apply andb_true_iff in Ht. destruct Ht as [Hc _].
      apply negb_true_iff in Hc. exact Hc. }
    assert (Hsign :
              (match String c t with
               | String "-" t0 => (true, t0)
               | String "+" t0 => (false, t0)
               | _ => (false, String c t)
               end) = (false, String c t) \/
              (match String c t with
               | String "-" t0 => (true, t0)
               | String "+" t0 => (false, t0)
               | _ => (false, String c t)
               end) = (false, t)).
    { destruct c as [[] [] [] [] [] [] [] []]; try (left; reflexivity);
        try (right; reflexivity); discriminate Hc. }
    destruct Hsign as [-> | ->].
    + destruct (Parse.scan_decimal false (String c t)) as [[d rest] | ] eqn:Hscan; [ | exact I].
      cbn. apply value_nonneg. apply (scan_decimal_nonneg _ _ _ Hscan).
    + destruct (Parse.scan_decimal false t) as [[d rest] | ] eqn:Hscan; [ | exact I].
      cbn. apply value_nonneg. apply (scan_decimal_nonneg _ _ _ Hscan).
Qed.

Lemma max2_nonneg (a b : num) :
  nonneg_or_NaN a -> nonneg_or_NaN b -> nonneg_or_NaN (Num.max2 a b).
Proof.
  destruct a as [ | x], b as [ | y]; cbn; auto.
  intros Hx Hy. destruct (Qle_bool x y); cbn; assumption.
Qed.

Lemma max_from_nonneg (l : list num) :
  forall a, nonneg_or_NaN a -> Forall nonneg_or_NaN l -> nonneg_or_NaN (Num.max_from a l).
Proof.
  induction l as [ | b l IH]; intros a Ha Hl; [exact Ha|].
  cbn [Num.max_from]. inversion Hl; subst. apply IH; [apply max2_nonneg | ]; assumption.
Qed.

Lemma amount_classes_no_minus (c : ascii) :
  existsb (fun a => Regex.cls a c) amount_pattern = true ->
  negb (Str.is_char "-" c) = true.
Proof.
  destruct c as [[] [] [] [] [] [] [] []]; vm_compute; intros H;
    first [reflexivity | discriminate H].
Qed.

Lemma not_digit_or_dot_no_minus (c : ascii) :
  negb (not_digit_or_dot c) = true -> negb (Str.is_char "-" c) = true.
Proof.
  destruct c as [[] [] [] [] [] [] [] []]; vm_compute; intros H;
    first [reflexivity | discriminate H].
Qed.

(** X1.  The amount extractor returns a negative number only when it is the
    numeric [total] or [totalAmount] field: a string total and the text
    scan lose every sign. *)
Theorem text_amount_never_negative (ocrData : json) :
  truthy_number (JS.get ocrData "total") = None ->
  truthy_number (JS.get ocrData "totalAmount") = None ->
  nonneg_or_NaN (extractAmountFromOCR ocrData).
Proof.
  intros H1 H2.
  assert (Hscan : nonneg_or_NaN
            match Regex.match_all amount_pattern (Str.toLowerCase (JS.stringify ocrData)) with
            | [] => default_amount
            | a :: amountMatches =>
                match map (fun m => Parse.parseFloat (Regex.remove_all (Regex.lit ",") m))
                          (a :: amountMatches) with
                | [] => default_amount
                | x :: xs => Num.max_from x xs
                end
            end).
  { destruct (Regex.match_all amount_pattern _) as [ | a ms] eqn:Hm.
    - cbn. unfold Qle. cbn. lia.
    - assert (Hall : Forall nonneg_or_NaN
                (map (fun m => Parse.parseFloat (Regex.remove_all (Regex.lit ",") m)) (a :: ms))).
      { apply Forall_forall. intros x Hx. apply in_map_iff in Hx.
        destruct Hx as (m & <- & Hin). apply parseFloat_nonneg.
        apply remove_all_keeps.
        apply (forallb_weaken (fun c => existsb (fun a0 => Regex.cls a0 c) amount_pattern)).
        - apply amount_classes_no_minus.
        - apply (match_all_in_classes amount_pattern
                   (Str.toLowerCase (JS.stringify ocrData))).
          rewrite Hm. exact Hin. }
      cbn [map] in *. inversion Hall; subst. apply max_from_nonneg; assumption. }
  assert (Hstr : forall s, nonneg_or_NaN
            (Parse.parseFloat (Regex.remove_all [Regex.one not_digit_or_dot] s))).
  { intros s. apply parseFloat_nonneg.
    apply (forallb_weaken (fun c => negb (not_digit_or_dot c))).
    - apply not_digit_or_dot_no_minus.
    - apply remove_all_one. }
  unfold extractAmountFromOCR.
  destruct ocrData; try (cbn; unfold Qle; cbn; lia); rewrite H1, H2;
    (destruct (truthy_string _) as [str | ];
     [ specialize (Hstr str);
       destruct (Parse.parseFloat (Regex.remove_all [Regex.one not_digit_or_dot] str));
       cbn [Num.isNaN negb]; [exact Hscan | exact Hstr]
     | cbn [Num.isNaN negb]; exact Hscan ]).
Qed.

(** ** Amounts found by the text scan *)

Lemma keep_all (p : ascii -> bool) (s : string) :
  Str.forallb p s = true -> keep p s = s.
Proof.
  induction s as [ | c s IH]; [reflexivity|].
  cbn [Str.forallb keep]. intros H. apply andb_true_iff in H. destruct H as [Hc Hs].
  rewrite Hc, (IH Hs). reflexivity.
Qed.

Lemma keep_append (p : ascii -> bool) (a b : string) :
  keep p (a ++ b) = keep p a ++ keep p b.
Proof.
  induction a as [ | c a IH]; [reflexivity|].
  cbn [String.append keep]. destruct (p c); cbn [String.append]; rewrite IH; reflexivity.
Qed.

Lemma keep_forallb (p q : ascii -> bool) (s : string) :
  Str.forallb q s = true -> Str.forallb (fun c => p c && q c) (keep p s) = true.
Proof.
  induction s as [ | c s IH]; [reflexivity|].
  cbn [Str.forallb keep]. intros H. apply andb_true_iff in H. destruct H as [Hc Hs].
  destruct (p c) eqn:Pc; [ | exact (IH Hs)].
  cbn [Str.forallb]. rewrite Pc, Hc, (IH Hs). reflexivity.
Qed.

Lemma remove_all_one_is_keep_fuel (p : ascii -> bool) :
  forall fuel s,
    (String.length s < fuel)%nat ->
    Regex.remove_all_fuel fuel [Regex.one p] s = keep (fun c => negb (p c)) s.
Proof.
  induction fuel as [ | fuel IH]; intros s Hlen; [lia|].
  cbn [Regex.remove_all_fuel].
  pose proof (search_one p s) as Hs.
  destruct (Regex.search [Regex.one p] s) as [[i n] | ].
  - destruct Hs as (-> & Hpre & c & rest & Hd & Pc).
    replace (keep (fun c0 => negb (p c0)) s)
      with (keep (fun c0 => negb (p c0)) (Str.take i s ++ Str.drop i s))
      by (rewrite take_drop; reflexivity).
    rewrite keep_append, (keep_all _ _ Hpre), Hd.
    cbn [keep Str.drop]. rewrite Pc. cbn [negb]. f_equal.
    apply IH. pose proof (length_take_drop i s) as Hl. rewrite Hd in Hl.
    cbn [String.length] in Hl. lia.
  - symmetry. apply keep_all. exact Hs.
Qed.

(** [s.replace(/c/g, '')] keeps the other characters, in order. *)
Lemma remove_all_one_is_keep (p : ascii -> bool) (s : string) :
  Regex.remove_all [Regex.one p] s = keep (fun c => negb (p c)) s.
Proof. apply remove_all_one_is_keep_fuel. lia. Qed.

Lemma forallb_length_one (d : ascii) (s : string) :
  Str.forallb (Str.is_char d) s = true -> (String.length s <= 1)%nat ->
  s = EmptyString \/ s = String d EmptyString.
Proof.
  destruct s as [ | c [ | c' s]]; cbn [String.length]; intros H Hl.
  - left. reflexivity.
  - right. cbn [Str.forallb] in H. apply andb_true_iff in H. destruct H as [Hc _].
    unfold Str.is_char in Hc. apply Ascii.eqb_eq in Hc. subst c. reflexivity.
  - lia.
Qed.

(** A match of the amount pattern: digits and commas, an optional dot,
    at most two digits. *)
Lemma amount_match_shape (s : string) (n : nat) :
  Regex.match_here amount_pattern s = Some n ->
  exists A B C,
    Str.take n s = A ++ B ++ C /\
    Str.forallb is_digit_or_comma A = true /\
    (B = EmptyString \/ B = ".") /\
    Str.forallb Str.is_digit C = true /\
    (String.length C <= 2)%nat.
Proof.
  unfold amount_pattern. intros H.
  cbn [Regex.match_here] in H.
  destruct (backtrack_sound _ _ _ _ _ H) as (j1 & m1 & Hj1 & H1 & -> & _).
  destruct (backtrack_sound _ _ _ _ _ H1) as (j2 & m2 & Hj2 & H2 & -> & _).
  destruct (backtrack_sound _ _ _ _ _ H2) as (j3 & m3 & Hj3 & H3 & -> & _).
  injection H3 as <-.
  exists (Str.take j1 s), (Str.take j2 (Str.drop j1 s)),
         (Str.take j3 (Str.drop j2 (Str.drop j1 s))).
  split; [ | split; [ | split; [ | split] ] ].
  - rewrite Nat.add_0_r, !take_add. reflexivity.
  - apply run_take.
    exact (Nat.le_trans _ _ _ (proj2 Hj1)
             (longest_le_run (Regex.plus is_digit_or_comma) s)).
  - apply forallb_length_one.
    + apply run_take.
      exact (Nat.le_trans _ _ _ (proj2 Hj2)
               (longest_le_run (Regex.opt (Str.is_char ".")) (Str.drop j1 s))).
    + pose proof (length_take_le j2 (Str.drop j1 s)) as Hl.
      pose proof (proj2 Hj2) as Hle.
      change (Regex.longest (Regex.opt (Str.is_char ".")) (Str.drop j1 s))
        with (Nat.min 1 (Regex.run (Str.is_char ".") (Str.drop j1 s))) in Hle.
      lia.
  - apply run_take.
    exact (Nat.le_trans _ _ _ (proj2 Hj3)
             (longest_le_run (Regex.range Str.is_digit 0 2) (Str.drop j2 (Str.drop j1 s)))).
  - pose proof (length_take_le j3 (Str.drop j2 (Str.drop j1 s))) as Hl.
    pose proof (proj2 Hj3) as Hle.
    change (Regex.longest (Regex.range Str.is_digit 0 2) (Str.drop j2 (Str.drop j1 s)))
      with (Nat.min 2 (Regex.run Str.is_digit (Str.drop j2 (Str.drop j1 s)))) in Hle.
    lia.
Qed.

Lemma span_all (p : ascii -> bool) (s : string) :
  Str.forallb p s = true -> Parse.span p s = (s, EmptyString).
Proof.
  induction s as [ | c s IH]; [reflexivity|].
  cbn [Str.forallb Parse.span]. intros H. apply andb_true_iff in H. destruct H as [Hc Hs].
  rewrite Hc, (IH Hs). reflexivity.
Qed.

Lemma span_until (p : ascii -> bool) (a : string) (c : ascii) (b : string) :
  Str.forallb p a = true -> p c = false ->
  Parse.span p (a ++ String c b) = (a, String c b).
Proof.
  intros Ha Hc. induction a as [ | x a IH].
  - cbn [String.append Parse.span]. rewrite Hc. reflexivity.
  - cbn [Str.forallb] in Ha. apply andb_true_iff in Ha. destruct Ha as [Hx Ha].
    cbn [String.append Parse.span]. rewrite Hx, (IH Ha). reflexivity.
Qed.

Lemma parseFloat_unsigned (c : ascii) (t : string) :
  Str.is_digit c || Str.is_char "." c = true ->
  Parse.parseFloat (String c t)
  = match Parse.scan_decimal false (String c t) with
    | Some (d, _) => Dec.to_num d
    | None => NaN
    end.
Proof.
  intros Hc. unfold Parse.parseFloat.
  destruct c as [[] [] [] [] [] [] [] []]; try discriminate Hc; reflexivity.
Qed.

Lemma append_empty (s : string) : s ++ EmptyString = s.
Proof. induction s as [ | c s IH]; [reflexivity | cbn; rewrite IH; reflexivity]. Qed.

Lemma hundredths_of_scale (m : Z) (scale : nat) :
  (0 <= m)%Z -> (scale <= 2)%nat ->
  hundredths_or_NaN (Dec.to_num {| dmant := m; dscale := scale |}).
Proof.
  intros Hm Hs. unfold Dec.to_num, Dec.value. cbn [dscale dmant hundredths_or_NaN].
  destruct scale as [ | [ | [ | scale]]]; [ | | | lia].
  - exists (100 * m)%Z. split; [lia | unfold Qeq, inject_Z; cbn [Qnum Qden]; lia].
  - exists (10 * m)%Z. split; [lia | ].
    change (Dec.pow10 1) with 10%positive. unfold Qeq; cbn [Qnum Qden]; lia.
  - exists m. split; [lia | ].
    change (Dec.pow10 2) with 100%positive. reflexivity.
Qed.

Lemma digits_value_nonneg (s : string) : (0 <= Parse.digits_value s)%Z.
Proof. apply digits_value_from_nonneg. lia. Qed.

(** Digits, an optional dot and at most two digits parse to a whole
    number of hundredths. *)
Lemma parseFloat_of_amount (A B C : string) :
  Str.forallb Str.is_digit A = true ->
  (B = EmptyString \/ B = ".") ->
  Str.forallb Str.is_digit C = true ->
  (String.length C <= 2)%nat ->
  hundredths_or_NaN (Parse.parseFloat (A ++ B ++ C)).
Proof.
  intros HA HB HC Hlen.
  assert (Hscan : hundredths_or_NaN
            match Parse.scan_decimal false (A ++ B ++ C) with
            | Some (d, _) => Dec.to_num d
            | None => NaN
            end).
  { unfold Parse.scan_decimal. destruct HB as [-> | ->].
    - cbn [String.append].
      assert (HAC : Str.forallb Str.is_digit (A ++ C) = true)
        by (rewrite forallb_append, HA, HC; reflexivity).
      rewrite (span_all _ _ HAC).
      destruct (String.eqb (A ++ C) "" && String.eqb "" ""); [exact I|].
      cbn [Parse.exponent]. unfold Parse.decimal. cbn [String.length Z.of_nat Z.sub Z.leb Z.compare Z.to_nat Z.opp].
      rewrite append_empty.
      apply hundredths_of_scale; [apply digits_value_nonneg | lia].
    - cbn [String.append].
      rewrite (span_until Str.is_digit A "." C HA eq_refl).
      rewrite (span_all _ _ HC).
      destruct (String.eqb A "" && String.eqb C ""); [exact I|].
      cbn [Parse.exponent]. unfold Parse.decimal.
      rewrite Z.sub_0_r.
      destruct (0 <=? Z.of_nat (String.length C))%Z eqn:E; [ | apply Z.leb_gt in E; lia].
      rewrite Nat2Z.id.
      apply hundredths_of_scale; [apply digits_value_nonneg | exact Hlen]. }
  destruct (A ++ B ++ C) as [ | c t] eqn:Ex.
  - cbn. exact I.
  - rewrite parseFloat_unsigned; [exact Hscan | ].
    assert (Hall : Str.forallb (fun c => Str.is_digit c || Str.is_char "." c) (A ++ B ++ C) = true).
    { rewrite !forallb_append.
      rewrite (forallb_weaken Str.is_digit _ A), (forallb_weaken Str.is_digit _ C); auto.
      - destruct HB as [-> | ->]; reflexivity.
      - intros x Hx. rewrite Hx. reflexivity.
      - intros x Hx. rewrite Hx. reflexivity. }
    rewrite Ex in Hall. cbn [Str.forallb] in Hall. apply andb_true_iff in Hall. apply Hall.
Qed.

Lemma digit_or_comma_not_comma (c : ascii) :
  negb (Str.is_char "," c) && is_digit_or_comma c = true -> Str.is_digit c = true.
Proof.
  unfold is_digit_or_comma. destruct (Str.is_char "," c); cbn.
  - discriminate.
  - rewrite orb_false_r. auto.
Qed.

Lemma is_digit_not_comma (c : ascii) :
  Str.is_digit c = true -> negb (Str.is_char "," c) = true.
Proof.
  destruct c as [[] [] [] [] [] [] [] []]; vm_compute; intros H;
    first [reflexivity | discriminate H].
Qed.

(** Every token of the text scan is [NaN] or a whole number of
    hundredths. *)
Lemma scanned_amount_hundredths (s m : string) :
  In m (Regex.match_all amount_pattern s) ->
  hundredths_or_NaN (Parse.parseFloat (Regex.remove_all (Regex.lit ",") m)).
Proof.
  unfold Regex.match_all. generalize (S (String.length s)) as fuel.
  intros fuel. revert s. induction fuel as [ | fuel IH]; intros s H; [contradiction|].
  cbn [Regex.match_all_fuel] in H.
  destruct (Regex.search amount_pattern s) as [[i n] | ] eqn:Hs; [ | contradiction].
  destruct (search_sound _ _ _ _ Hs) as [Hm _].
  destruct H as [<- | H].
  - destruct (amount_match_shape _ _ Hm) as (A & B & C & -> & HA & HB & HC & Hlen).
    change (Regex.lit ",") with [Regex.one (Str.is_char ",")].
    rewrite remove_all_one_is_keep, !keep_append.
    assert (EB : keep (fun c => negb (Str.is_char "," c)) B = B)
      by (destruct HB as [-> | ->]; reflexivity).
    assert (EC : keep (fun c => negb (Str.is_char "," c)) C = C).
    { apply keep_all. apply (forallb_weaken Str.is_digit); [apply is_digit_not_comma | exact HC]. }
    rewrite EB, EC.
    apply parseFloat_of_amount; auto.
    apply (forallb_weaken (fun c => negb (Str.is_char "," c) && is_digit_or_comma c)).
    + apply digit_or_comma_not_comma.
    + apply keep_forallb. exact HA.
  - destruct n as [ | n]; [destruct (Str.drop i s) as [ | c rest] | ].
    + contradiction.
    + apply (IH _ H).
    + apply (IH _ H).
Qed.

Lemma max2_hundredths (a b : num) :
  hundredths_or_NaN a -> hundredths_or_NaN b -> hundredths_or_NaN (Num.max2 a b).
Proof.
  destruct a as [ | x], b as [ | y]; cbn; auto.
  intros Hx Hy. destruct (Qle_bool x y); cbn; assumption.
Qed.

Lemma max_from_hundredths (l : list num) :
  forall a, hundredths_or_NaN a -> Forall hundredths_or_NaN l ->
            hundredths_or_NaN (Num.max_from a l).
Proof.
  induction l as [ | b l IH]; intros a Ha Hl; [exact Ha|].
  cbn [Num.max_from]. inversion Hl; subst. apply IH; [apply max2_hundredths | ]; assumption.
Qed.

(** Without a usable [total] or [totalAmount] field, the extracted amount
    is [NaN] or a non-negative number with at most two decimals. *)
Lemma scan_amount_hundredths (ocrData : json) :
  truthy_number (JS.get ocrData "total") = None ->
  truthy_number (JS.get ocrData "totalAmount") = None ->
  (forall s, truthy_string (JS.get ocrData "total") = Some s ->
             Parse.parseFloat (Regex.remove_all [Regex.one not_digit_or_dot] s) = NaN) ->
  hundredths_or_NaN (extractAmountFromOCR ocrData).
Proof.
  intros H1 H2 H3.
  assert (Hdef : hundredths_or_NaN default_amount).
  { cbn. exists 1000%Z. split; [lia | reflexivity]. }
  assert (Hscan : hundredths_or_NaN
            match Regex.match_all amount_pattern (Str.toLowerCase (JS.stringify ocrData)) with
            | [] => default_amount
            | a :: amountMatches =>
                match map (fun m => Parse.parseFloat (Regex.remove_all (Regex.lit ",") m))
                          (a :: amountMatches) with
                | [] => default_amount
                | x :: xs => Num.max_from x xs
                end
            end).
  { destruct (Regex.match_all amount_pattern _) as [ | a ms] eqn:Hm; [exact Hdef|].
    assert (Hall : Forall hundredths_or_NaN
              (map (fun m => Parse.parseFloat (Regex.remove_all (Regex.lit ",") m)) (a :: ms))).
    { apply Forall_forall. intros x Hx. apply in_map_iff in Hx.
      destruct Hx as (m & <- & Hin).
      apply (scanned_amount_hundredths (Str.toLowerCase (JS.stringify ocrData))).
      rewrite Hm. exact Hin. }
    cbn [map] in *. inversion Hall; subst. apply max_from_hundredths; assumption. }
  unfold extractAmountFromOCR.
  destruct ocrData; try exact Hdef; rewrite H1, H2;
    (destruct (truthy_string _) as [str | ];
     [ rewrite (H3 str eq_refl) | ]; cbn [Num.isNaN negb]; exact Hscan).
Qed.

(** ** The entry depends on the value of the amount only *)

Lemma round_half_away_comp (x y : Q) :
  (x == y)%Q -> Num.round_half_away x = Num.round_half_away y.
Proof.
  intros H. unfold Num.round_half_away.
  assert (E1 : Qle_bool 0 x = Qle_bool 0 y) by (rewrite H; reflexivity).
  assert (E2 : Qfloor (x + (1 # 2)) = Qfloor (y + (1 # 2))) by (rewrite H; reflexivity).
  assert (E3 : Qfloor (- x + (1 # 2)) = Qfloor (- y + (1 # 2))) by (rewrite H; reflexivity).
  rewrite E1, E2, E3. reflexivity.
Qed.

Lemma cents_comp (x y : Q) : (x == y)%Q -> Num.cents x = Num.cents y.
Proof.
  intros H. unfold Num.cents. apply round_half_away_comp. rewrite H. reflexivity.
Qed.

Lemma toFixed2_comp (x y : Q) : (x == y)%Q -> Num.toFixed2 (Fin x) = Num.toFixed2 (Fin y).
Proof. intros H. cbn [Num.toFixed2]. rewrite (cents_comp x y H). reflexivity. Qed.

Lemma createFallbackJournalEntry_comp (ocrData : json) (x y : Q) (date : string) :
  (x == y)%Q ->
  createFallbackJournalEntry ocrData (Fin x) date
  = createFallbackJournalEntry ocrData (Fin y) date.
Proof.
  intros H. unfold createFallbackJournalEntry.
  assert (E0 : Num.toFixed2 (Fin x) = Num.toFixed2 (Fin y)) by (apply toFixed2_comp; exact H).
  destruct (hasVAT_in _); cbn [vat_split Num.div Num.sub].
  - assert (E1 : Num.toFixed2 (Fin (x / 1.19)) = Num.toFixed2 (Fin (y / 1.19)))
      by (apply toFixed2_comp; rewrite H; reflexivity).
    assert (E2 : Num.toFixed2 (Fin (x - x / 1.19)) = Num.toFixed2 (Fin (y - y / 1.19)))
      by (apply toFixed2_comp; rewrite H; reflexivity).
    assert (E3 : Num.gtb (Fin (x - x / 1.19)) (Fin 0) = Num.gtb (Fin (y - y / 1.19)) (Fin 0))
      by (cbn [Num.gtb]; rewrite H; reflexivity).
    rewrite E0, E1, E2, E3. reflexivity.
  - rewrite E0. reflexivity.
Qed.


(** ** A ledger without VAT *)

(** X3.  When the serialized document mentions no VAT token, the ledger of
    the fallback entry has two lines, a debit and a credit of the same
    amount, which is also both totals: it balances for every amount that
    is a number. *)
Theorem ledger_without_vat_balances (ocrData : json) (g : Q) (date : string)
        (e : JournalEntry.t) :
  hasVAT_in (Str.toLowerCase (JS.stringify ocrData)) = false ->
  createFallbackJournalEntry ocrData (Fin g) date = Returns e ->
  map (fun l => (LedgerLine.type l, LedgerLine.amount l)) (JournalEntry.entries e)
  = [ (debit, Num.toFixed2 (Fin g)); (credit, Num.toFixed2 (Fin g)) ] /\
  JournalEntry.totalDebit e = Num.toFixed2 (Fin g) /\
  JournalEntry.totalCredit e = Num.toFixed2 (Fin g) /\
  Num.eqb (sum_side debit (JournalEntry.entries e)) (JournalEntry.totalDebit e) = true /\
  Num.eqb (sum_side credit (JournalEntry.entries e)) (JournalEntry.totalCredit e) = true.
Proof.
  intros Hno H.
  destruct (fallback_returns _ _ _ _ H) as (merchant & _ & _ & _ & Hd & Hc & _ & He).
  cbv zeta in He. rewrite Hno in He. cbn [vat_split net_of vat_of fst snd andb app] in He.
  rewrite He, Hd, Hc. cbn [map LedgerLine.type LedgerLine.amount sum_side Num.toFixed2 Num.add Num.eqb].
  repeat split; apply Qeq_bool_iff; unfold Qeq; cbn [Qplus Qnum Qden]; lia.
Qed.

(** ** The VAT breakdown *)

Lemma cents_mono (x y : Q) : (0 <= x)%Q -> (x <= y)%Q -> (Num.cents x <= Num.cents y)%Z.
Proof.
  intros Hx Hxy. unfold Num.cents, Num.round_half_away.
  assert (Ex : Qle_bool 0 (x * 100) = true) by (apply Qle_bool_iff; lra).
  assert (Ey : Qle_bool 0 (y * 100) = true) by (apply Qle_bool_iff; lra).
  rewrite Ex, Ey. apply Qfloor_resp_le. lra.
Qed.

Lemma cents_zero : Num.cents 0 = 0%Z.
Proof. reflexivity. Qed.

Lemma cents_nonneg (x : Q) : (0 <= x)%Q -> (0 <= Num.cents x)%Z.
Proof.
  intros Hx. rewrite <- cents_zero. apply cents_mono; [lra | exact Hx].
Qed.

(** X4.  For a non-negative amount, the amounts of the fallback entry are
    whole hundredths with [0 <= vatAmount <= netAmount <= grossAmount],
    and no ledger line is negative or exceeds the gross amount. *)
Theorem amounts_nonnegative_and_ordered (ocrData : json) (g : Q) (date : string)
        (e : JournalEntry.t) :
  (0 <= g)%Q ->
  createFallbackJournalEntry ocrData (Fin g) date = Returns e ->
  exists n v gr : Z,
    VatBreakdown.netAmount (JournalEntry.vatBreakdown e) = Fin (n # 100) /\
    VatBreakdown.vatAmount (JournalEntry.vatBreakdown e) = Fin (v # 100) /\
    VatBreakdown.grossAmount (JournalEntry.vatBreakdown e) = Fin (gr # 100) /\
    (0 <= v <= n)%Z /\ (n <= gr)%Z /\
    Forall (fun l => exists a : Z, LedgerLine.amount l = Fin (a # 100) /\ (0 <= a <= gr)%Z)
           (JournalEntry.entries e).
Proof.
  intros Hg H.
  destruct (fallback_returns _ _ _ _ H) as (merchant & _ & _ & _ & _ & _ & Hvb & He).
  cbv zeta in Hvb, He. rewrite Hvb, He. clear Hvb He H.
  destruct (hasVAT_in _); cbn [vat_split net_of vat_of rate_of fst snd Num.div Num.sub
                                 Num.toFixed2 VatBreakdown.netAmount VatBreakdown.vatAmount
                                 VatBreakdown.grossAmount andb].
  - assert (Hn : (0 <= g / 1.19)%Q) by (apply Qle_shift_div_l; lra).
    assert (Hv : (0 <= g - g / 1.19)%Q).
    { assert (g / 1.19 <= g)%Q by (apply Qle_shift_div_r; lra). lra. }
    assert (Hvn : (g - g / 1.19 <= g / 1.19)%Q).
    { assert (g <= 2 * (g / 1.19))%Q; [ | lra].
      setoid_replace (2 * (g / 1.19))%Q with (g * (200 # 119))%Q by field. nra. }
    assert (Hng : (g / 1.19 <= g)%Q) by (apply Qle_shift_div_r; lra).
    pose proof (cents_nonneg _ Hv) as C0.
    pose proof (cents_mono _ _ Hv Hvn) as C1.
    pose proof (cents_mono _ _ Hn Hng) as C2.
    exists (Num.cents (g / 1.19)), (Num.cents (g - g / 1.19)), (Num.cents g).
    repeat split; try reflexivity; try lia.
    destruct (Num.gtb _ _); cbn [app]; repeat constructor;
      eexists; (split; [reflexivity | lia]).
  - pose proof (cents_nonneg _ Hg) as C0.
    exists (Num.cents g), (Num.cents 0), (Num.cents g).
    rewrite cents_zero. repeat split; try reflexivity; try lia.
    cbn [app]. repeat constructor; eexists; (split; [reflexivity | lia]).
Qed.


(** ** Keywords are found in keys and texts, in any letter case *)

Lemma prefix_append (w b : string) : String.prefix w (w ++ b) = true.
Proof.
  induction w as [ | c w IH]; [destruct b; reflexivity|].
  cbn [String.append String.prefix]. destruct (ascii_dec c c) as [_ | N]; [exact IH | contradiction].
Qed.

Lemma prefix_split (w s : string) :
  String.prefix w s = true -> exists b, s = w ++ b.
Proof.
  revert s. induction w as [ | c w IH]; intros s H.
  - exists s. reflexivity.
  - destruct s as [ | c' s]; [discriminate H|].
    cbn [String.prefix] in H. destruct (ascii_dec c c') as [<- | N]; [ | discriminate H].
    destruct (IH s H) as [b ->]. exists b. reflexivity.
Qed.

Lemma includes_iff (s w : string) :
  Str.includes s w = true <-> exists a b, s = a ++ w ++ b.
Proof.
  split.
  - induction s as [ | c s IH]; cbn [Str.includes]; intros H.
    + rewrite orb_false_r in H. destruct (prefix_split _ _ H) as [b Hb].
      exists EmptyString, b. exact Hb.
    + apply orb_true_iff in H. destruct H as [H | H].
      * destruct (prefix_split _ _ H) as [b Hb]. exists EmptyString, b. exact Hb.
      * destruct (IH H) as (a & b & ->). exists (String c a), b. reflexivity.
  - intros (a & b & ->). induction a as [ | c a IH].
    + cbn [String.append]. destruct (w ++ b) eqn:E; cbn [Str.includes];
        rewrite <- E, prefix_append; reflexivity.
    + cbn [String.append Str.includes]. rewrite IH. apply orb_true_r.
Qed.

Lemma append_assoc (a b c : string) : (a ++ b) ++ c = a ++ b ++ c.
Proof. induction a as [ | x a IH]; [reflexivity | cbn; rewrite IH; reflexivity]. Qed.

Lemma includes_trans (s w k : string) :
  Str.includes s w = true -> Str.includes w k = true -> Str.includes s k = true.
Proof.
  intros Hs Hw. apply includes_iff in Hs. apply includes_iff in Hw.
  destruct Hs as (a & b & ->). destruct Hw as (a' & b' & ->).
  apply includes_iff. exists (a ++ a'), (b' ++ b).
  rewrite !append_assoc. reflexivity.
Qed.

Lemma toLowerCase_append (a b : string) :
  Str.toLowerCase (a ++ b) = Str.toLowerCase a ++ Str.toLowerCase b.
Proof. induction a as [ | c a IH]; [reflexivity | cbn; rewrite IH; reflexivity]. Qed.

Lemma includes_toLowerCase (s w : string) :
  Str.includes s w = true ->
  Str.includes (Str.toLowerCase s) (Str.toLowerCase w) = true.
Proof.
  intros H. apply includes_iff in H. destruct H as (a & b & ->).
  apply includes_iff. exists (Str.toLowerCase a), (Str.toLowerCase b).
  rewrite !toLowerCase_append. reflexivity.
Qed.

Lemma escape_plain (s : string) :
  Str.forallb plain_char s = true -> JS.escape s = s.
Proof.
  induction s as [ | c s IH]; [reflexivity|].
  cbn [Str.forallb JS.escape]. intros H. apply andb_true_iff in H. destruct H as [Hc Hs].
  rewrite (IH Hs).
  destruct c as [[] [] [] [] [] [] [] []]; try discriminate Hc; reflexivity.
Qed.

Lemma join_includes (sep x : string) (l : list string) :
  In x l -> exists a b, Str.join sep l = a ++ x ++ b.
Proof.
  induction l as [ | y l IH]; intros H; [contradiction|].
  destruct H as [-> | H].
  - destruct l as [ | z l].
    + exists EmptyString, EmptyString. cbn. rewrite append_empty. reflexivity.
    + exists EmptyString, (sep ++ Str.join sep (z :: l)). reflexivity.
  - destruct (IH H) as (a & b & E). destruct l as [ | z l]; [contradiction|].
    exists (y ++ sep ++ a), b.
    change (Str.join sep (y :: z :: l)) with (y ++ sep ++ Str.join sep (z :: l)).
    rewrite E, !append_assoc. reflexivity.
Qed.

(** A key or a string value of the document is in its serialization,
    between double quotes. *)
Lemma stringify_includes (text : string) (v : json) :
  occurs_in text v -> exists a b, JS.stringify v = a ++ JS.quote text ++ b.
Proof.
  induction 1 as [ | v fields Hin | k v fields Hin Hocc IH | v l Hin Hocc IH].
  - exists EmptyString, EmptyString. cbn [JS.stringify String.append].
    rewrite append_empty. reflexivity.
  - cbn [JS.stringify].
    destruct (join_includes "," (JS.quote text ++ ":" ++ JS.stringify v)
                (map (fun kv => let '(k, v') := kv in JS.quote k ++ ":" ++ JS.stringify v') fields))
      as (a & b & E).
    { apply in_map_iff. exists (text, v). split; [reflexivity | exact Hin]. }
    rewrite E. exists ("{" ++ a), ((":" ++ JS.stringify v) ++ b ++ "}").
    rewrite !append_assoc. reflexivity.
  - cbn [JS.stringify]. destruct IH as (a0 & b0 & E0).
    destruct (join_includes "," (JS.quote k ++ ":" ++ JS.stringify v)
                (map (fun kv => let '(k, v') := kv in JS.quote k ++ ":" ++ JS.stringify v') fields))
      as (a & b & E).
    { apply in_map_iff. exists (k, v). split; [reflexivity | exact Hin]. }
    rewrite E, E0. exists ("{" ++ a ++ JS.quote k ++ ":" ++ a0), (b0 ++ b ++ "}").
    rewrite !append_assoc. reflexivity.
  - cbn [JS.stringify]. destruct IH as (a0 & b0 & E0).
    destruct (join_includes "," (JS.stringify v) (map JS.stringify l)) as (a & b & E).
    { apply in_map. exact Hin. }
    rewrite E, E0. exists ("[" ++ a ++ a0), (b0 ++ b ++ "]").
    rewrite !append_assoc. reflexivity.
Qed.

(** A keyword inside a key or a string value, in any letter case, is in
    the lowercased serialization. *)
Lemma keyword_reaches_text (text keyword : string) (v : json) :
  occurs_in text v ->
  Str.forallb plain_char text = true ->
  Str.includes (Str.toLowerCase text) keyword = true ->
  Str.includes (Str.toLowerCase (JS.stringify v)) keyword = true.
Proof.
  intros Hocc Hplain Hkw.
  destruct (stringify_includes _ _ Hocc) as (a & b & E).
  apply (includes_trans _ (Str.toLowerCase text)); [ | exact Hkw].
  apply includes_iff. rewrite E. unfold JS.quote. rewrite (escape_plain _ Hplain).
  exists (Str.toLowerCase a ++ String (Str.lower_char Str.dquote) ""),
         (String (Str.lower_char Str.dquote) "" ++ Str.toLowerCase b).
  rewrite !toLowerCase_append. cbn [Str.toLowerCase String.append].
  rewrite !toLowerCase_append. cbn [Str.toLowerCase String.append].
  rewrite !append_assoc. cbn [String.append]. reflexivity.
Qed.

(** X6.  A key or a string value anywhere in the OCR document that
    contains "vat", "tax" or "19%" in any letter case (a key named
    [tax], the word "Taxi") makes the fallback builder assume VAT: the
    rate of the entry is 0.19 and its net amount is the amount divided by
    1.19, rounded. *)
Theorem vat_token_in_any_key_or_text
        (ocrData : json) (text keyword : string) (amount : num) (date : string)
        (e : JournalEntry.t) :
  occurs_in text ocrData ->
  Str.forallb plain_char text = true ->
  In keyword ["vat"; "tax"; "19%"] ->
  Str.includes (Str.toLowerCase text) keyword = true ->
  createFallbackJournalEntry ocrData amount date = Returns e ->
  VatBreakdown.vatRate (JournalEntry.vatBreakdown e) = Fin 0.19 /\
  VatBreakdown.netAmount (JournalEntry.vatBreakdown e)
  = Num.toFixed2 (Num.div amount (Fin 1.19)).
Proof.
  intros Hocc Hplain Hkw Hinc H.
  pose proof (keyword_reaches_text _ _ _ Hocc Hplain Hinc) as Htext.
  assert (Hvat : hasVAT_in (Str.toLowerCase (JS.stringify ocrData)) = true).
  { unfold hasVAT_in. cbn [In] in Hkw.
    destruct Hkw as [<- | [<- | [<- | []]]]; rewrite Htext;
      rewrite ?orb_true_r; reflexivity. }
  destruct (fallback_returns _ _ _ _ H) as (merchant & _ & _ & _ & _ & _ & Hvb & _).
  cbv zeta in Hvb. rewrite Hvat in Hvb. rewrite Hvb. split; reflexivity.
Qed.

(** X7.  A key or a string value anywhere in the OCR document that
    contains "restaurant", "cafe" or "food" in any letter case classifies
    the expense as "Meals & Entertainment", whatever the merchant and the
    other keywords of the document. *)
Theorem meal_keyword_in_any_key_or_text
        (ocrData : json) (text keyword : string) (amount : num) (date : string)
        (e : JournalEntry.t) :
  occurs_in text ocrData ->
  Str.forallb plain_char text = true ->
  In keyword ["restaurant"; "cafe"; "food"] ->
  Str.includes (Str.toLowerCase text) keyword = true ->
  createFallbackJournalEntry ocrData amount date = Returns e ->
  expense_account e = Some "Meals & Entertainment" /\
  Forall (fun item => LineItem.category item = "Meals & Entertainment")
         (JournalEntry.lineItems e).
Proof.
  intros Hocc Hplain Hkw Hinc H.
  pose proof (keyword_reaches_text _ _ _ Hocc Hplain Hinc) as Htext.
  assert (Hm : forall m, classify m (Str.toLowerCase (JS.stringify ocrData))
                         = ("Meals & Entertainment", "Restaurant/Food expense")).
  { intros m. unfold classify.
    assert (E : mentions m (Str.toLowerCase (JS.stringify ocrData))
                         ["restaurant"; "cafe"; "food"] = true).
    { unfold mentions. apply orb_true_iff. right. apply existsb_exists.
      exists keyword. split; [exact Hkw | exact Htext]. }
    rewrite E. reflexivity. }
  split.
  - rewrite (expense_account_classified _ _ _ _ H), Hm. reflexivity.
  - revert H. unfold createFallbackJournalEntry.
    destruct (vat_split _ amount) as [[n v] r].
    destruct (resolve_merchant ocrData) as [[ | | | merchant | | ] | ]; try discriminate.
    rewrite Hm. intros H. injection H as <-. cbn [JournalEntry.lineItems].
    repeat constructor.
Qed.

(** ** Where the orchestrator always answers *)

Lemma or_string_or_falsy (a b : option json) :
  string_or_falsy a -> string_or_falsy b -> string_or_falsy (JS.or a b).
Proof.
  intros Ha Hb. unfold JS.or. destruct (JS.truthy a) eqn:Ta; [ | exact Hb].
  destruct Ha as [Ha | Ha]; [congruence | right; exact Ha].
Qed.

Lemma resolve_merchant_not_null (ocrData : json) :
  ocrData <> JNull ->
  resolve_merchant ocrData
  = match JS.or (JS.or (JS.get ocrData "establishment") (JS.get ocrData "merchantName"))
                (JS.get ocrData "vendor") with
    | Some v =>
        if JS.truthy (JS.or (JS.or (JS.get ocrData "establishment")
                                   (JS.get ocrData "merchantName"))
                            (JS.get ocrData "vendor"))
        then Returns v
        else Returns (JStr (merchant_from_patterns (merchant_matches (JS.stringify ocrData))
                                                   "Unknown Merchant"))
    | None => Returns (JStr (merchant_from_patterns (merchant_matches (JS.stringify ocrData))
                                                    "Unknown Merchant"))
    end.
Proof. intros H. destruct ocrData; try contradiction; reflexivity. Qed.

Lemma generate_returns_when_merchant_is_text
      (Date_en_GB : json -> option string) (today : string)
      (JSON_parse : string -> option json)
      (ocrData : json) (completion : option string) :
  ocrData <> JNull ->
  string_or_falsy (JS.get ocrData "establishment") ->
  string_or_falsy (JS.get ocrData "merchantName") ->
  string_or_falsy (JS.get ocrData "vendor") ->
  exists j, generateJournalEntry Date_en_GB today JSON_parse ocrData completion = Returns j.
Proof.
  intros Hnull He Hm Hv.
  unfold generateJournalEntry.
  destruct (generative_path JSON_parse completion) as [v | ]; [eexists; reflexivity|].
  assert (Hr : exists merchant, resolve_merchant ocrData = Returns (JStr merchant)).
  { pose proof (or_string_or_falsy _ _ (or_string_or_falsy _ _ He Hm) Hv) as Hs.
    destruct Hs as [Hs | [s Hs]].
    - apply unstructured_merchant_is_string; assumption.
    - rewrite (resolve_merchant_not_null ocrData Hnull), Hs.
      destruct (JS.truthy (Some (JStr s))); eexists; reflexivity. }
  destruct (proj2 (fallback_returns_iff_string_merchant ocrData
                     (extractAmountFromOCR ocrData)
                     (fallbackDate Date_en_GB today ocrData)) Hr) as [e Hfb].
  unfold fallback_path. rewrite Hfb. eexists. reflexivity.
Qed.

(** X8.  For every OCR document other than [null] whose [establishment],
    [merchantName] and [vendor] fields are each absent, falsy or a
    string, [generateJournalEntry] returns an entry whatever the model
    call does: its failure is absorbed by the fallback. *)
Theorem orchestrator_returns_on_string_merchants
        (Date_en_GB : json -> option string) (today : string)
        (JSON_parse : string -> option json)
        (ocrData : json) (completion : option string) :
  ocrData <> JNull ->
  string_or_falsy (JS.get ocrData "establishment") ->
  string_or_falsy (JS.get ocrData "merchantName") ->
  string_or_falsy (JS.get ocrData "vendor") ->
  exists j, generateJournalEntry Date_en_GB today JSON_parse ocrData completion = Returns j.
Proof. apply generate_returns_when_merchant_is_text. Qed.

(** ** The merchant found by the patterns *)

Lemma forallb_rev_onto (p : ascii -> bool) (s : string) :
  forall acc, Str.forallb p (Str.rev_onto s acc) = Str.forallb p s && Str.forallb p acc.
Proof.
  induction s as [ | c s IH]; intros acc; [reflexivity|].
  cbn [Str.rev_onto Str.forallb]. rewrite IH. cbn [Str.forallb].
  destruct (p c), (Str.forallb p s), (Str.forallb p acc); reflexivity.
Qed.

Lemma length_rev_onto (s : string) :
  forall acc, String.length (Str.rev_onto s acc) = (String.length s + String.length acc)%nat.
Proof.
  induction s as [ | c s IH]; intros acc; [reflexivity|].
  cbn [Str.rev_onto String.length]. rewrite IH. cbn [String.length]. lia.
Qed.

Lemma length_trimStart (s : string) :
  (String.length (Str.trimStart s) <= String.length s)%nat.
Proof.
  induction s as [ | c s IH]; [cbn; lia|].
  cbn [Str.trimStart]. destruct (Str.is_space c); cbn [String.length]; lia.
Qed.

Lemma trim_keeps (p : ascii -> bool) (s : string) :
  Str.forallb p s = true -> Str.forallb p (Str.trim s) = true.
Proof.
  intros H. unfold Str.trim, Str.rev.
  rewrite forallb_rev_onto. cbn [Str.forallb]. rewrite andb_true_r.
  apply trimStart_keeps. rewrite forallb_rev_onto. cbn [Str.forallb]. rewrite andb_true_r.
  apply trimStart_keeps. exact H.
Qed.

Lemma length_trim (s : string) : (String.length (Str.trim s) <= String.length s)%nat.
Proof.
  unfold Str.trim, Str.rev. rewrite length_rev_onto. cbn [String.length].
  pose proof (length_trimStart (Str.rev_onto (Str.trimStart s) "")) as H1.
  rewrite length_rev_onto in H1. cbn [String.length] in H1.
  pose proof (length_trimStart s). lia.
Qed.

Lemma merchant_from_patterns_clean (matches : list (option string)) (default : string) :
  (String.length default < 50)%nat ->
  Str.forallb (fun c => negb (is_quote c)) default = true ->
  (String.length (merchant_from_patterns matches default) < 50)%nat /\
  Str.forallb (fun c => negb (is_quote c)) (merchant_from_patterns matches default) = true.
Proof.
  intros Hlen Hq. induction matches as [ | [m | ] matches IH]; cbn [merchant_from_patterns].
  - split; assumption.
  - destruct (negb (String.eqb m "") && (3 <? String.length m)%nat
              && (String.length m <? 50)%nat) eqn:E; [ | exact IH].
    apply andb_true_iff in E. destruct E as [_ E]. apply Nat.ltb_lt in E.
    split.
    + pose proof (length_trim (Regex.remove_all [Regex.one is_quote] m)).
      pose proof (remove_all_fuel_length [Regex.one is_quote] (S (String.length m)) m) as Hr.
      fold (Regex.remove_all [Regex.one is_quote] m) in Hr. lia.
    + apply trim_keeps. apply remove_all_one.
  - exact IH.
Qed.

(** X9.  When no structured merchant field is usable, the merchant of the
    fallback entry is a string of fewer than 50 characters without any
    single or double quote. *)
Theorem pattern_merchant_is_clean (ocrData : json) (amount : num) (date : string)
        (e : JournalEntry.t) :
  JS.truthy (JS.or (JS.or (JS.get ocrData "establishment") (JS.get ocrData "merchantName"))
                   (JS.get ocrData "vendor")) = false ->
  createFallbackJournalEntry ocrData amount date = Returns e ->
  (String.length (JournalEntry.merchant e) < 50)%nat /\
  Str.forallb (fun c => negb (is_quote c)) (JournalEntry.merchant e) = true.
Proof.
  intros Hf H.
  destruct (fallback_returns _ _ _ _ H) as (merchant & Hr & Hm & _).
  rewrite Hm.
  assert (Hnull : ocrData <> JNull).
  { intros ->. cbn in Hr. discriminate Hr. }
  rewrite (resolve_merchant_not_null ocrData Hnull), Hf in Hr.
  assert (E : merchant = merchant_from_patterns (merchant_matches (JS.stringify ocrData))
                                                "Unknown Merchant").
  { destruct (JS.or _ _); injection Hr as <-; reflexivity. }
  rewrite E. apply merchant_from_patterns_clean; [cbn; lia | reflexivity].
Qed.

(** ** The date of the entry *)

Lemma date_of_field_origin (Date_en_GB : json -> option string) (v : option json) (d : string) :
  date_of_field Date_en_GB v = Some d -> exists x, Date_en_GB x = Some d.
Proof.
  unfold date_of_field. destruct v as [x | ]; [ | discriminate].
  destruct (JS.truthy (Some x)); [ | discriminate]. intros H. exists x. exact H.
Qed.

Lemma extracted_date_origin (Date_en_GB : json -> option string) (ocrData : json) (d : string) :
  extractDateFromOCR Date_en_GB ocrData = Some d -> exists x, Date_en_GB x = Some d.
Proof.
  unfold extractDateFromOCR.
  assert (Hgen :
    match date_of_field Date_en_GB (JS.get ocrData "date") with
    | Some d0 => Some d0
    | None =>
        match date_of_field Date_en_GB (JS.get ocrData "purchaseDate") with
        | Some d0 => Some d0
        | None =>
            match Regex.match_all date_pattern (JS.stringify ocrData) with
            | [] => None
            | m :: _ => Date_en_GB (JStr m)
            end
        end
    end = Some d -> exists x, Date_en_GB x = Some d).
  { destruct (date_of_field Date_en_GB (JS.get ocrData "date")) as [d1 | ] eqn:F1.
    - intros H. injection H as <-. apply (date_of_field_origin _ _ _ F1).
    - destruct (date_of_field Date_en_GB (JS.get ocrData "purchaseDate")) as [d2 | ] eqn:F2.
      + intros H. injection H as <-. apply (date_of_field_origin _ _ _ F2).
      + destruct (Regex.match_all date_pattern (JS.stringify ocrData)) as [ | m ms];
          [discriminate | ].
        intros H. exists (JStr m). exact H. }
  destruct ocrData; [discriminate | exact Hgen ..].
Qed.


(** ** Access control *)

(** X11.  Without an access code in the environment (unset or empty) every
    request passes.  With a code, a request passes exactly when the code
    it provides is that string; the header is the provided code as soon
    as it is truthy, and the query parameter is read only otherwise, so
    a wrong header is refused whatever the query parameter says. *)
Theorem access_decision (env : option string) (header query : option json) :
  (env = None \/ env = Some "" -> checkAccess env header query = Next) /\
  (forall code,
      env = Some code -> code <> "" ->
      (JS.truthy header = true ->
       (checkAccess env header query = Next <-> header = Some (JStr code))) /\
      (JS.truthy header = false ->
       (checkAccess env header query = Next <-> query = Some (JStr code)))).
Proof.
  split.
  - intros [-> | ->]; reflexivity.
  - intros code -> Hcode.
    assert (Henv : ACCESS_CODE (Some code) = Some code).
    { unfold ACCESS_CODE. destruct (String.eqb code "") eqn:E; [ | reflexivity].
      apply String.eqb_eq in E. contradiction. }
    assert (Heq : forall v, strict_equal_string v code = true <-> v = Some (JStr code)).
    { intros v. unfold strict_equal_string. split.
      - destruct v as [[ | | | s | | ] | ]; try discriminate.
        intros E. apply String.eqb_eq in E. subst s. reflexivity.
      - intros ->. apply String.eqb_refl. }
    unfold checkAccess, JS.or. rewrite Henv.
    split; intros Ht; rewrite Ht; cbv zeta.
    + destruct (strict_equal_string header code) eqn:E.
      * split; [intros _; apply Heq; exact E | reflexivity].
      * split; [discriminate | ]. intros H. apply Heq in H. congruence.
    + destruct (strict_equal_string query code) eqn:E.
      * split; [intros _; apply Heq; exact E | reflexivity].
      * split; [discriminate | ]. intros H. apply Heq in H. congruence.
Qed.

(** ** The upload filter *)

Lemma allowed_type_valid (type : string) (z : Z) :
  existsb (String.eqb type) allowedMimeTypes = true ->
  (z <= client_limit)%Z ->
  validateFile type z = Valid.
Proof.
  intros Ht Hz. unfold validateFile. rewrite Ht. cbn [negb].
  destruct (client_limit <? z)%Z eqn:E; [apply Z.ltb_lt in E; lia | reflexivity].
Qed.

(** X12.  The upload filter never accepts a file whose name contains ".."
    or "/", nor a file whose size is unknown when the filter runs. *)
Theorem upload_filter_refusals (path_extname : string -> string) (file : uploaded) :
  (Str.includes (originalname file) ".." = true \/
   Str.includes (originalname file) "/" = true ->
   fileFilter path_extname file = InvalidFilename) /\
  (size file = None -> fileFilter path_extname file <> Accepted).
Proof.
  unfold fileFilter. split.
  - intros [H | H]; rewrite H; rewrite ?orb_true_r; reflexivity.
  - intros Hs. rewrite Hs. cbn [at_most]. rewrite !andb_false_r.
    destruct (_ || _); discriminate.
Qed.

(** X13.  The browser's validation is weaker than the server's filter:
    every file the filter accepts passes [validateFile], and a file of an
    allowed type whose size is over 5 MB and at most 10 MB passes
    [validateFile] but is refused by the filter, whatever its name. *)
Theorem client_validation_weaker_than_filter
        (path_extname : string -> string) (file : uploaded) :
  (fileFilter path_extname file = Accepted ->
   exists z, size file = Some z /\ (z <= server_limit)%Z /\
             validateFile (mimetype file) z = Valid) /\
  (forall z, size file = Some z ->
             existsb (String.eqb (mimetype file)) allowedMimeTypes = true ->
             (server_limit < z <= client_limit)%Z ->
             validateFile (mimetype file) z = Valid /\
             fileFilter path_extname file <> Accepted).
Proof.
  split.
  - unfold fileFilter. destruct (_ || _); [discriminate|].
    destruct (existsb _ allowedMimeTypes) eqn:Ht; [ | discriminate].
    destruct (allowedTypes_test _); [ | discriminate].
    destruct (size file) as [z | ] eqn:Hs; [ | discriminate].
    cbn [andb at_most]. destruct (z <=? server_limit)%Z eqn:Hz; [ | discriminate].
    intros _. apply Z.leb_le in Hz. exists z.
    split; [reflexivity | split; [exact Hz | ] ].
    apply allowed_type_valid; [exact Ht | ]. unfold server_limit, client_limit in *. lia.
  - intros z Hs Ht Hz. split.
    + apply allowed_type_valid; [exact Ht | lia].
    + unfold fileFilter. rewrite Hs. cbn [at_most].
      destruct (z <=? server_limit)%Z eqn:E; [apply Z.leb_le in E; lia | ].
      rewrite !andb_false_r. destruct (_ || _); discriminate.
Qed.

(** ** The OCR request *)

Lemma first_answer_at (request_result : json -> nat -> option json) (token answer : json) :
  forall n i k,
    (k < n)%nat ->
    request_result token (i + k) = Some answer ->
    (forall j, (j < k)%nat -> request_result token (i + j) = None) ->
    first_answer request_result token i n = Some answer.
Proof.
  induction n as [ | n IH]; intros i k Hk Hans Hnone; [lia|].
  cbn [first_answer]. destruct k as [ | k].
  - rewrite Nat.add_0_r in Hans. rewrite Hans. reflexivity.
  - pose proof (Hnone 0%nat (Nat.lt_0_succ k)) as H0. rewrite Nat.add_0_r in H0. rewrite H0.
    apply (IH (S i) k); [lia | | ].
    + replace (S i + k)%nat with (i + S k)%nat by lia. exact Hans.
    + intros j Hj. replace (S i + j)%nat with (i + S j)%nat by lia. apply Hnone. lia.
Qed.

Lemma first_answer_none (request_result : json -> nat -> option json) (token : json) :
  forall n i,
    (forall j, (j < n)%nat -> request_result token (i + j) = None) ->
    first_answer request_result token i n = None.
Proof.
  induction n as [ | n IH]; intros i Hnone; [reflexivity|].
  cbn [first_answer].
  pose proof (Hnone 0%nat (Nat.lt_0_succ n)) as H0. rewrite Nat.add_0_r in H0. rewrite H0.
  apply IH. intros j Hj. replace (S i + j)%nat with (i + S j)%nat by lia. apply Hnone. lia.
Qed.

(** X14.  When the upload answer carries a token, [processOCR] returns what
    the first of the six result endpoints that answers sends (its
    [result], else its [data], else the whole body), whatever the later
    endpoints would answer; it fails when none of the six answers. *)
Theorem processOCR_first_answer
        (post_upload : option json) (request_result : json -> nat -> option json)
        (data token : json) :
  post_upload = Some data ->
  JS.or (JS.get data "token") (JS.get data "duplicateToken") = Some token ->
  JS.truthy (Some token) = true ->
  (forall k answer,
      (k < 6)%nat ->
      request_result token k = Some answer ->
      (forall j, (j < k)%nat -> request_result token j = None) ->
      processOCR post_upload request_result = Returns (pick_result answer)) /\
  ((forall j, (j < 6)%nat -> request_result token j = None) ->
   processOCR post_upload request_result = Throws).
Proof.
  intros Hpost Htok Htruthy.
  assert (Hdata : JS.truthy (Some data) = true).
  { destruct data; try reflexivity; cbn in Htok; discriminate Htok. }
  unfold processOCR. rewrite Hpost, Htok, Hdata, Htruthy. cbn [andb].
  split.
  - intros k answer Hk Hans Hnone.
    rewrite (first_answer_at request_result token answer 6 0 k Hk Hans Hnone). reflexivity.
  - intros Hnone. rewrite (first_answer_none request_result token 6 0 Hnone). reflexivity.
Qed.

(** ** The upload route *)

Lemma existsSync_In (path : string) (files : disk) :
  existsSync path files = true <-> In path files.
Proof.
  unfold existsSync. rewrite existsb_exists. split.
  - intros (q & Hq & E). apply String.eqb_eq in E. subst q. exact Hq.
  - intros H. exists path. split; [exact H | apply String.eqb_refl].
Qed.

Lemma unlinkSync_removes (path : string) (files files' : disk) :
  unlinkSync path files = Returns files' ->
  existsSync path files' = false /\
  forall q, q <> path -> (In q files' <-> In q files).
Proof.
  unfold unlinkSync. destruct (existsSync path files); [ | discriminate].
  intros H. injection H as <-. split.
  - destruct (existsSync path (filter _ files)) eqn:E; [ | reflexivity].
    apply existsSync_In, filter_In in E. destruct E as [_ E].
    rewrite String.eqb_refl in E. discriminate E.
  - intros q Hq. rewrite filter_In. split; [intros [H _]; exact H | ].
    intros H. split; [exact H | ].
    destruct (String.eqb path q) eqn:E; [ | reflexivity].
    apply String.eqb_eq in E. congruence.
Qed.

Lemma remove_upload_removes (path : string) (files : disk) :
  existsSync path (remove_upload path files) = false /\
  forall q, q <> path -> (In q (remove_upload path files) <-> In q files).
Proof.
  unfold remove_upload. destruct (existsSync path files) eqn:E.
  - destruct (unlinkSync path files) as [files' | ] eqn:U.
    + apply (unlinkSync_removes _ _ _ U).
    + unfold unlinkSync in U. rewrite E in U. discriminate U.
  - split; [exact E | intros q _; reflexivity].
Qed.

(** X15.  Whatever happens to a request that carries a file (the OCR fails,
    the journal generation throws, or the answer is 200), the uploaded
    file is no longer on disk afterwards and every other file is left as
    it was; a request without a file touches nothing. *)
Theorem upload_route_removes_upload
        (Date_en_GB : json -> option string) (today : string)
        (JSON_parse : string -> option json)
        (ocr : outcome json) (completion : json -> option string)
        (path : string) (files : disk) :
  let after := snd (upload_route Date_en_GB today JSON_parse ocr completion (Some path) files) in
  existsSync path after = false /\
  (forall q, q <> path -> (In q after <-> In q files)) /\
  upload_route Date_en_GB today JSON_parse ocr completion None files = (BadRequest400, files).
Proof.
  cbv zeta. unfold upload_route.
  assert (R := remove_upload_removes path files).
  destruct ocr as [ocrData | ]; cbn [snd].
  - destruct (generateJournalEntry _ _ _ ocrData (completion ocrData)) as [j | ]; cbn [snd].
    + destruct (unlinkSync path files) as [files' | ] eqn:U; cbn [snd].
      * destruct (unlinkSync_removes _ _ _ U) as [H1 H2]. repeat split; auto; apply H2; auto.
      * destruct R as [H1 H2]. repeat split; auto; apply H2; auto.
    + destruct R as [H1 H2]. repeat split; auto; apply H2; auto.
  - destruct R as [H1 H2]. repeat split; auto; apply H2; auto.
Qed.


(* ------------------------------------------------------------------ *)
(** ** The amount display: [formatCurrency] *)

Lemma string_of_uint_digits (u : Decimal.uint) :
  Str.forallb Str.is_digit (NilEmpty.string_of_uint u) = true.
Proof. induction u; cbn [NilEmpty.string_of_uint Str.forallb]; rewrite ?IHu; reflexivity. Qed.

Lemma digits_value_from_uint (u : Decimal.uint) (p : positive) :
  Parse.digits_value_from (Zpos p) (NilEmpty.string_of_uint u)
  = Zpos (Pos.of_uint_acc u p).
Proof.
  revert p. induction u; intros p;
    cbn [NilEmpty.string_of_uint Parse.digits_value_from Pos.of_uint_acc];
    [reflexivity | rewrite <- IHu; f_equal;
     match goal with
     | |- context [Parse.digit_value ?c] =>
         let v := eval vm_compute in (Parse.digit_value c) in
         change (Parse.digit_value c) with v
     end; lia ..].
Qed.

Lemma digits_value_uint (u : Decimal.uint) :
  Parse.digits_value_from 0 (NilEmpty.string_of_uint u) = Z.of_N (Pos.of_uint u).
Proof.
  induction u; cbn [NilEmpty.string_of_uint Parse.digits_value_from Pos.of_uint];
    [reflexivity | exact IHu | apply digits_value_from_uint ..].
Qed.

Lemma digits_of_digits (z : Z) : Str.forallb Str.is_digit (Dec.digits_of z) = true.
Proof.
  unfold Dec.digits_of, NilZero.string_of_uint.
  destruct (N.to_uint (Z.abs_N z)) as [ |u|u|u|u|u|u|u|u|u|u];
    [reflexivity | ..].
  all: match goal with |- context [NilEmpty.string_of_uint ?v] => exact (string_of_uint_digits v) end.
Qed.

Lemma digits_of_nonempty (z : Z) : (1 <= String.length (Dec.digits_of z))%nat.
Proof.
  unfold Dec.digits_of, NilZero.string_of_uint.
  destruct (N.to_uint (Z.abs_N z)); cbn [NilEmpty.string_of_uint String.length]; lia.
Qed.

Lemma digits_of_value (z : Z) : Parse.digits_value (Dec.digits_of z) = Z.abs z.
Proof.
  transitivity (Z.of_N (N.of_uint (N.to_uint (Z.abs_N z)))).
  - unfold Parse.digits_value, Dec.digits_of, NilZero.string_of_uint, N.of_uint.
    destruct (N.to_uint (Z.abs_N z)) as [ |u|u|u|u|u|u|u|u|u|u];
      [reflexivity | ..].
    all: match goal with |- context [NilEmpty.string_of_uint ?v] => exact (digits_value_uint v) end.
  - rewrite DecimalN.Unsigned.of_to. apply N2Z.inj_abs_N.
Qed.

Lemma digits_value_leading_zeros (j : nat) (s : string) :
  Parse.digits_value (Str.repeat "0" j ++ s) = Parse.digits_value s.
Proof.
  unfold Parse.digits_value. induction j as [ | j IH]; [reflexivity | exact IH].
Qed.

Lemma length_repeat (c : ascii) (n : nat) : String.length (Str.repeat c n) = n.
Proof. induction n as [ | n IH]; [reflexivity | cbn; rewrite IH; reflexivity]. Qed.

Lemma forallb_repeat (p : ascii -> bool) (c : ascii) (n : nat) :
  p c = true -> Str.forallb p (Str.repeat c n) = true.
Proof.
  intros Hc. induction n as [ | n IH]; [reflexivity | ].
  cbn [Str.repeat Str.forallb]. rewrite Hc, IH. reflexivity.
Qed.

Lemma length_drop (n : nat) (s : string) :
  String.length (Str.drop n s) = (String.length s - n)%nat.
Proof.
  revert s. induction n as [ | n IH]; intros s; [cbn; lia | ].
  destruct s as [ | c s]; [reflexivity | exact (IH s)].
Qed.

Lemma length_take (n : nat) (s : string) :
  (n <= String.length s)%nat -> String.length (Str.take n s) = n.
Proof.
  intros H. pose proof (length_take_drop n s) as E. rewrite length_drop in E. lia.
Qed.

Lemma nonempty_by_length (s : string) : (1 <= String.length s)%nat -> s <> "".
Proof. intros H ->. cbn in H. lia. Qed.

Lemma eqb_empty_by_length (s : string) :
  (1 <= String.length s)%nat -> String.eqb s "" = false.
Proof. destruct s; [cbn; lia | reflexivity]. Qed.

(** Digits, a dot and two digits are read as that many hundredths. *)
Lemma scan_fixed (neg : bool) (m : string) :
  Str.forallb Str.is_digit m = true -> (3 <= String.length m)%nat ->
  Parse.scan_decimal neg
    (Str.take (String.length m - 2) m ++ "." ++ Str.drop (String.length m - 2) m)
  = Some ({| dmant := if neg then (- Parse.digits_value m)%Z else Parse.digits_value m;
             dscale := 2 |}, "").
Proof.
  intros Hm Hlen. unfold Parse.scan_decimal. cbn [String.append].
  rewrite (span_until Str.is_digit _ "." _ (forallb_take _ _ _ Hm) eq_refl).
  rewrite (span_all _ _ (forallb_drop _ (String.length m - 2) _ Hm)).
  assert (Hfp : String.length (Str.drop (String.length m - 2) m) = 2%nat)
    by (rewrite length_drop; lia).
  rewrite (eqb_empty_by_length (Str.drop _ m)) by lia.
  rewrite andb_false_r. cbn [Parse.exponent]. unfold Parse.decimal.
  rewrite take_drop, Hfp. reflexivity.
Qed.

Lemma parseFloat_minus (t : string) :
  Parse.parseFloat (String "-" t)
  = match Parse.scan_decimal true t with
    | Some (d, _) => Dec.to_num d
    | None => NaN
    end.
Proof. reflexivity. Qed.

Lemma parseFloat_fixed (neg : bool) (m : string) :
  Str.forallb Str.is_digit m = true -> (3 <= String.length m)%nat ->
  Parse.parseFloat
    ((if neg then "-" else "") ++
     Str.take (String.length m - 2) m ++ "." ++ Str.drop (String.length m - 2) m)
  = Fin ((if neg then - Parse.digits_value m else Parse.digits_value m)%Z # 100)%Q.
Proof.
  intros Hm Hlen. pose proof (scan_fixed neg m Hm Hlen) as Hscan.
  destruct neg.
  - cbn [String.append] in *. rewrite parseFloat_minus.
    cbn [String.append] in Hscan. rewrite Hscan. reflexivity.
  - cbn [String.append] in *.
    destruct (Str.take (String.length m - 2) m) as [ | c t] eqn:Et.
    + pose proof (length_take (String.length m - 2) m ltac:(lia)) as L.
      rewrite Et in L. cbn in L. lia.
    + cbn [String.append] in *. rewrite parseFloat_unsigned.
      * rewrite Hscan. reflexivity.
      * pose proof (forallb_take Str.is_digit (String.length m - 2) m Hm) as Ht.
        rewrite Et in Ht. cbn [Str.forallb] in Ht. apply andb_true_iff in Ht.
        destruct Ht as [Hc _]. rewrite Hc. reflexivity.
Qed.

Lemma cents_of_negative (q : Q) :
  Qle_bool 0%Q q = false -> (- Num.cents (Qabs q))%Z = Num.cents q.
Proof.
  intros Hq.
  assert (Hlt : (q < 0)%Q).
  { apply Qnot_le_lt. intros H. apply Qle_bool_iff in H. congruence. }
  assert (E : (Qabs q * 100 == - (q * 100))%Q).
  { rewrite (Qabs_neg q) by lra. ring. }
  unfold Num.cents. rewrite (round_half_away_comp _ _ E).
  unfold Num.round_half_away.
  assert (F1 : Qle_bool 0%Q (- (q * 100))%Q = true) by (apply Qle_bool_iff; lra).
  assert (F2 : Qle_bool 0%Q (q * 100)%Q = false).
  { destruct (Qle_bool 0%Q (q * 100)%Q) eqn:F; [ | reflexivity].
    apply Qle_bool_iff in F. lra. }
  rewrite F1, F2. reflexivity.
Qed.

Lemma cents_of_nonnegative (q : Q) :
  Qle_bool 0%Q q = true -> Num.cents (Qabs q) = Num.cents q /\ (0 <= Num.cents q)%Z.
Proof.
  intros Hq. apply Qle_bool_iff in Hq. split.
  - apply cents_comp. apply Qabs_pos. exact Hq.
  - apply cents_nonneg. exact Hq.
Qed.


(* ------------------------------------------------------------------ *)
(** ** The further properties on sample inputs *)

Lemma text_amount_never_negative_witness :
  extractAmountFromOCR signed_text_total = Fin 12.50%Q /\
  nonneg_or_NaN (extractAmountFromOCR signed_text_total).
Proof.
  split; [vm_compute; reflexivity | ].
  apply text_amount_never_negative; reflexivity.
Defined.


Lemma ledger_without_vat_balances_witness :
  exists e,
    createFallbackJournalEntry scenario_A (Fin 25.5%Q) "31/10/2026" = Returns e /\
    map (fun l => (LedgerLine.type l, LedgerLine.amount l)) (JournalEntry.entries e)
    = [ (debit, Num.toFixed2 (Fin 25.5%Q)); (credit, Num.toFixed2 (Fin 25.5%Q)) ] /\
    JournalEntry.totalDebit e = JournalEntry.totalCredit e.
Proof.
  destruct (createFallbackJournalEntry scenario_A (Fin 25.5%Q) "31/10/2026")
    as [e | ] eqn:H; [ | vm_compute in H; discriminate H ].
  exists e. split; [reflexivity | ].
  destruct (ledger_without_vat_balances scenario_A 25.5%Q "31/10/2026" e eq_refl H)
    as (Hl & Hd & Hc & _).
  split; [exact Hl | ]. rewrite Hd, Hc. reflexivity.
Defined.

Lemma amounts_nonnegative_and_ordered_witness :
  exists e,
    createFallbackJournalEntry scenario_B (Fin 119%Q) "31/10/2026" = Returns e /\
    exists n v gr : Z,
      VatBreakdown.netAmount (JournalEntry.vatBreakdown e) = Fin (n # 100) /\
      VatBreakdown.vatAmount (JournalEntry.vatBreakdown e) = Fin (v # 100) /\
      VatBreakdown.grossAmount (JournalEntry.vatBreakdown e) = Fin (gr # 100) /\
      (0 <= v <= n)%Z /\ (n <= gr)%Z /\
      Forall (fun l => exists a : Z, LedgerLine.amount l = Fin (a # 100) /\ (0 <= a <= gr)%Z)
             (JournalEntry.entries e).
Proof.
  destruct (createFallbackJournalEntry scenario_B (Fin 119%Q) "31/10/2026")
    as [e | ] eqn:H; [ | vm_compute in H; discriminate H ].
  exists e. split; [reflexivity | ].
  apply (amounts_nonnegative_and_ordered scenario_B 119%Q "31/10/2026" e); [ | exact H].
  vm_compute. intros E. discriminate E.
Defined.


Lemma vat_token_in_any_key_or_text_witness :
  exists e,
    createFallbackJournalEntry taxi_receipt (Fin 18%Q) "31/10/2026" = Returns e /\
    Str.includes (Str.toLowerCase "City Taxi") "tax" = true /\
    VatBreakdown.vatRate (JournalEntry.vatBreakdown e) = Fin 0.19%Q /\
    VatBreakdown.netAmount (JournalEntry.vatBreakdown e)
    = Num.toFixed2 (Num.div (Fin 18%Q) (Fin 1.19%Q)).
Proof.
  destruct (createFallbackJournalEntry taxi_receipt (Fin 18%Q) "31/10/2026")
    as [e | ] eqn:H; [ | vm_compute in H; discriminate H ].
  exists e. split; [reflexivity | ]. split; [reflexivity | ].
  refine (vat_token_in_any_key_or_text taxi_receipt "City Taxi" "tax" (Fin 18%Q)
            "31/10/2026" e _ eq_refl _ eq_refl H).
  - apply (occurs_field _ "merchantName" (JStr "City Taxi")); [left; reflexivity | constructor].
  - right; left; reflexivity.
Defined.

Lemma meal_keyword_in_any_key_or_text_witness :
  exists e,
    createFallbackJournalEntry fuel_stop (Fin 40%Q) "31/10/2026" = Returns e /\
    Str.includes (Str.toLowerCase "seafood") "food" = true /\
    expense_account e = Some "Meals & Entertainment" /\
    Forall (fun item => LineItem.category item = "Meals & Entertainment")
           (JournalEntry.lineItems e).
Proof.
  destruct (createFallbackJournalEntry fuel_stop (Fin 40%Q) "31/10/2026")
    as [e | ] eqn:H; [ | vm_compute in H; discriminate H ].
  exists e. split; [reflexivity | ]. split; [reflexivity | ].
  refine (meal_keyword_in_any_key_or_text fuel_stop "seafood" "food" (Fin 40%Q)
            "31/10/2026" e _ eq_refl _ eq_refl H).
  - apply (occurs_key _ (JBool false)). right; left; reflexivity.
  - right; right; left; reflexivity.
Defined.

Lemma orchestrator_returns_on_string_merchants_witness :
  exists j,
    generateJournalEntry iso_date "01/11/2026" JSONText.parse scenario_A None = Returns j.
Proof.
  apply orchestrator_returns_on_string_merchants.
  - discriminate.
  - right. exists "Test Merchant". reflexivity.
  - left. reflexivity.
  - left. reflexivity.
Defined.

Lemma pattern_merchant_is_clean_witness :
  exists e,
    createFallbackJournalEntry unnamed_receipt (Fin 40%Q) "31/10/2026" = Returns e /\
    (String.length (JournalEntry.merchant e) < 50)%nat /\
    Str.forallb (fun c => negb (is_quote c)) (JournalEntry.merchant e) = true.
Proof.
  destruct (createFallbackJournalEntry unnamed_receipt (Fin 40%Q) "31/10/2026")
    as [e | ] eqn:H; [ | vm_compute in H; discriminate H ].
  exists e. split; [reflexivity | ].
  exact (pattern_merchant_is_clean unnamed_receipt (Fin 40%Q) "31/10/2026" e eq_refl H).
Defined.


Lemma access_decision_witness :
  checkAccess (Some "s3cret") (Some (JStr "guess")) (Some (JStr "s3cret")) = Unauthorized /\
  checkAccess (Some "s3cret") None (Some (JStr "s3cret")) = Next /\
  checkAccess (Some "") None None = Next.
Proof.
  assert (Hne : "s3cret" <> "") by (intros E; discriminate E).
  split; [ | split].
  - destruct (checkAccess (Some "s3cret") (Some (JStr "guess")) (Some (JStr "s3cret")))
      eqn:E; [ | reflexivity].
    apply (proj1 (proj2 (access_decision (Some "s3cret") (Some (JStr "guess"))
                           (Some (JStr "s3cret"))) "s3cret" eq_refl Hne) eq_refl) in E.
    discriminate E.
  - apply (proj2 (proj2 (access_decision (Some "s3cret") None (Some (JStr "s3cret")))
                    "s3cret" eq_refl Hne) eq_refl).
    reflexivity.
  - apply (proj1 (access_decision (Some "") None None)). right. reflexivity.
Defined.

Lemma upload_filter_refusals_witness :
  Str.includes (originalname traversal_upload) ".." = true /\
  fileFilter sample_extname traversal_upload = InvalidFilename.
Proof.
  split; [reflexivity | ].
  apply (proj1 (upload_filter_refusals sample_extname traversal_upload)).
  left. reflexivity.
Defined.

Lemma client_validation_weaker_than_filter_witness :
  validateFile (mimetype six_megabytes) (6 * 1024 * 1024) = Valid /\
  fileFilter sample_extname six_megabytes <> Accepted.
Proof.
  apply (proj2 (client_validation_weaker_than_filter sample_extname six_megabytes)
           (6 * 1024 * 1024)%Z); [reflexivity | reflexivity | ].
  unfold server_limit, client_limit. lia.
Defined.

Lemma processOCR_first_answer_witness :
  processOCR (Some upload_answer) sample_endpoints
  = Returns (JObj [("total", JNum {| dmant := 2550; dscale := 2 |})]).
Proof.
  refine (proj1 (processOCR_first_answer (Some upload_answer) sample_endpoints
                   upload_answer (JStr "t1") eq_refl eq_refl eq_refl)
            2%nat third_answer _ eq_refl _).
  - lia.
  - intros j Hj. destruct j as [ | [ | j]]; [reflexivity | reflexivity | lia].
Defined.


